(** * prozes: the custom template engine (src/prozes/modules/templates.py)

    A shallow embedding of the template engine and the properties its
    specification states about it.

    Conventions of the embedding
    - A Python [str] is a [string] holding the UTF-8 bytes of the text; a
      [bytes] object is a [list byte].
    - A Python value whose type the source leaves open ([Any], or whatever
      [json.load] returns) is a [pyval]: None, bool, int, str, list and
      str-keyed dict.  Floats are left out.
    - A Python dict is an association list in insertion order.
    - Code that touches the file system or the console runs in the monad
      [M], a state monad over [world] with Python's exceptions. *)

From Stdlib Require Import String Ascii List ZArith Bool Lia Arith.
From Stdlib.Strings Require Import Byte.
From Stdlib Require Import DecimalString DecimalZ.
From Stdlib Require DecimalFacts.
From Stdlib Require Import Sorted Permutation.
Import ListNotations.
Set Warnings "-abstract-large-number".
Local Open Scope list_scope.
Local Open Scope string_scope.

(* ===================================================================== *)
(** * Python values *)
(* ===================================================================== *)

#[warnings="-register-all"]
Inductive pyval : Type :=
| PNone
| PBool (b : bool)
| PInt (z : Z)
| PStr (s : string)
| PList (l : list pyval)
| PDict (d : list (string * pyval)).

(** [bool(v)]: Python's truth value. *)
Definition truthy (v : pyval) : bool :=
  match v with
  | PNone => false
  | PBool b => b
  | PInt z => negb (Z.eqb z 0)
  | PStr s => negb (String.eqb s "")
  | PList l => match l with [] => false | _ => true end
  | PDict d => match d with [] => false | _ => true end
  end.

(** [isinstance(v, str)], [isinstance(v, int)], [isinstance(v, bool)]:
    [bool] is a subclass of [int]. *)
Definition isinstance_str (v : pyval) : bool :=
  match v with PStr _ => true | _ => false end.

Definition isinstance_int (v : pyval) : bool :=
  match v with PInt _ | PBool _ => true | _ => false end.

Definition isinstance_bool (v : pyval) : bool :=
  match v with PBool _ => true | _ => false end.

Definition is_None (v : pyval) : bool :=
  match v with PNone => true | _ => false end.

(** [v == s] for a string literal [s]. *)
Definition eq_str (v : pyval) (s : string) : bool :=
  match v with PStr s' => String.eqb s' s | _ => false end.

(* ===================================================================== *)
(** * Python dicts: association lists in insertion order *)
(* ===================================================================== *)

Definition dict (A : Type) : Type := list (string * A).

Fixpoint dict_get {A} (d : dict A) (k : string) : option A :=
  match d with
  | [] => None
  | (k', v) :: d' => if String.eqb k' k then Some v else dict_get d' k
  end.

Definition dict_contains {A} (d : dict A) (k : string) : bool :=
  match dict_get d k with Some _ => true | None => false end.

(** [d[k] = v]: replaces the value in place, or appends a new entry. *)
Fixpoint dict_set {A} (d : dict A) (k : string) (v : A) : dict A :=
  match d with
  | [] => [(k, v)]
  | (k', v') :: d' =>
      if String.eqb k' k then (k', v) :: d' else (k', v') :: dict_set d' k v
  end.

(** [d.update(e)] *)
Definition dict_update {A} (d e : dict A) : dict A :=
  fold_left (fun acc kv => dict_set acc (fst kv) (snd kv)) e d.

Definition dict_keys {A} (d : dict A) : list string := map fst d.

(** The invariant of a Python dict: no key occurs twice. *)
Definition dict_wf {A} (d : dict A) : Prop := NoDup (dict_keys d).

(** [v.get(k, dflt)] on a value of unknown type: only a dict has [get]. *)
Definition keys_of (v : pyval) : list string :=
  match v with PDict d => dict_keys d | _ => [] end.

(* ===================================================================== *)
(** * Exceptions *)
(* ===================================================================== *)

Inductive exn : Type :=
| FileNotFoundError (msg : string)
| FileExistsError (msg : string)
| NotADirectoryError (msg : string)
| IsADirectoryError (msg : string)
| PermissionError (msg : string)
| SameFileError (msg : string)
| ValueError (msg : string)
| UnicodeDecodeError (msg : string)
| JSONDecodeError (msg : string)
| AttributeError (msg : string).

(** [str(e)] *)
Definition exn_msg (e : exn) : string :=
  match e with
  | FileNotFoundError m | FileExistsError m | NotADirectoryError m
  | IsADirectoryError m | PermissionError m | SameFileError m
  | ValueError m | UnicodeDecodeError m | JSONDecodeError m
  | AttributeError m => m
  end.

(** [isinstance(e, ValueError)]: UnicodeDecodeError and json's
    JSONDecodeError are subclasses of ValueError. *)
Definition is_ValueError (e : exn) : bool :=
  match e with
  | ValueError _ | UnicodeDecodeError _ | JSONDecodeError _ => true
  | _ => false
  end.

Definition is_FileNotFoundError (e : exn) : bool :=
  match e with FileNotFoundError _ => true | _ => false end.

Inductive result (A : Type) : Type :=
| Ok (a : A)
| Raise (e : exn).
Arguments Ok {A} a.
Arguments Raise {A} e.

(* ===================================================================== *)
(** * TemplateVariable *)
(* ===================================================================== *)

Module TemplateVariable.

(** The dataclass.  Only [name] is always a str (a dict key or a str
    literal of the source); the other fields hold whatever the caller or
    the metadata file gave. *)
Record t : Type := mk {
  name : string;
  type : pyval;
  description : pyval;
  required : pyval;
  default : pyval
}.

(** [validate_value(self, value) -> (is_valid, error_message)] *)
Definition validate_value (self : t) (value : pyval)
  : bool * option string :=
  if is_None value then
    if truthy (required self)
    then (false, Some ("Variable '" ++ name self ++ "' is required"))
    else (true, None)
  else if eq_str (type self) "string" then
    if negb (isinstance_str value)
    then (false, Some ("Variable '" ++ name self ++ "' must be a string"))
    else (true, None)
  else if eq_str (type self) "integer" then
    if negb (isinstance_int value)
    then (false, Some ("Variable '" ++ name self ++ "' must be an integer"))
    else (true, None)
  else if eq_str (type self) "boolean" then
    if negb (isinstance_bool value)
    then (false, Some ("Variable '" ++ name self ++ "' must be a boolean"))
    else (true, None)
  else (true, None).

(** [to_dict(self)] *)
Definition to_dict (self : t) : pyval :=
  PDict [("type", type self);
         ("description", description self);
         ("required", required self);
         ("default", default self)].

End TemplateVariable.

(* ===================================================================== *)
(** * Strings *)
(* ===================================================================== *)

Definition in_range (lo hi : N) (c : ascii) : bool :=
  (N.leb lo (N_of_ascii c) && N.leb (N_of_ascii c) hi)%bool.

(** [str.lower()] on the ASCII letters.  The only non-ASCII character whose
    lower case is ASCII is the Kelvin sign (k), and no extension of the
    tables below contains a k, so membership in them is decided as in
    Python. *)
Definition lower_ascii (c : ascii) : ascii :=
  if in_range 65 90 c then ascii_of_N (N_of_ascii c + 32) else c.

Fixpoint lower (s : string) : string :=
  match s with
  | EmptyString => EmptyString
  | String c s' => String (lower_ascii c) (lower s')
  end.

Fixpoint str_in (x : string) (l : list string) : bool :=
  match l with
  | [] => false
  | y :: l' => (String.eqb y x || str_in x l')%bool
  end.

(** [s[n:]] *)
Fixpoint drop (n : nat) (s : string) : string :=
  match n, s with
  | S n', String _ s' => drop n' s'
  | _, _ => s
  end.

(** [sep.join(l)] *)
Fixpoint join (sep : string) (l : list string) : string :=
  match l with
  | [] => ""
  | [x] => x
  | x :: l' => x ++ sep ++ join sep l'
  end.

(** [s.replace(old, new)]: the occurrences of [old] are found from the left
    and do not overlap; an empty [old] matches before every character and at
    the end. *)
Fixpoint replace_from (fuel : nat) (old new s : string) : string :=
  match fuel with
  | O => s
  | S fuel' =>
      if String.prefix old s
      then new ++ replace_from fuel' old new (drop (String.length old) s)
      else match s with
           | EmptyString => EmptyString
           | String c s' => String c (replace_from fuel' old new s')
           end
  end.

Fixpoint interleave (new s : string) : string :=
  match s with
  | EmptyString => new
  | String c s' => new ++ String c (interleave new s')
  end.

Definition replace (old new s : string) : string :=
  match old with
  | EmptyString => interleave new s
  | _ => replace_from (S (String.length s)) old new s
  end.

(** [str(z)] for an int *)
Definition str_of_Z (z : Z) : string := NilZero.string_of_int (Z.to_int z).

(* ===================================================================== *)
(** * VARIABLE_PATTERN: two opening braces, a name (a letter or underscore,
    then letters, digits and underscores, all ASCII), two closing braces *)
(* ===================================================================== *)

(** [[a-zA-Z_]] *)
Definition ident_start (c : ascii) : bool :=
  (in_range 97 122 c || in_range 65 90 c || Ascii.eqb c "_")%bool.

(** [[a-zA-Z0-9_]] *)
Definition ident_char (c : ascii) : bool :=
  (ident_start c || in_range 48 57 c)%bool.

(** The longest prefix of identifier characters, and what follows it: the
    greedy star. *)
Fixpoint span_ident (s : string) : string * string :=
  match s with
  | EmptyString => (EmptyString, EmptyString)
  | String c s' =>
      if ident_char c
      then let (run, rest) := span_ident s' in (String c run, rest)
      else (EmptyString, s)
  end.

(** A match of the pattern at the start of [s]: the name (group 1) and the
    text after the match.  No character of the name class is a brace, so
    giving characters back from the star never finds another match. *)
Definition match_token (s : string) : option (string * string) :=
  match s with
  | String "{" (String "{" (String c s2)) =>
      if ident_start c then
        let (run, rest) := span_ident s2 in
        match rest with
        | String "}" (String "}" r) => Some (String c run, r)
        | _ => None
        end
      else None
  | _ => None
  end.

(** The text of a match (group 0). *)
Definition token (name : string) : string := "{{" ++ name ++ "}}".

(** What the regex engine's scan of a string yields, left to right: the
    matches, which do not overlap, and the characters between them. *)
Inductive piece : Type :=
| Text (c : ascii)
| Match (name : string).

Fixpoint scan_from (fuel : nat) (s : string) : list piece :=
  match fuel with
  | O => []
  | S fuel' =>
      match match_token s with
      | Some (n, rest) => Match n :: scan_from fuel' rest
      | None =>
          match s with
          | EmptyString => []
          | String c s' => Text c :: scan_from fuel' s'
          end
      end
  end.

Definition VARIABLE_PATTERN_scan (s : string) : list piece :=
  scan_from (S (String.length s)) s.

(** [VARIABLE_PATTERN.findall(s)]: group 1 of every match. *)
Definition VARIABLE_PATTERN_findall (s : string) : list string :=
  flat_map (fun p => match p with Match n => [n] | Text _ => [] end)
           (VARIABLE_PATTERN_scan s).

(** [VARIABLE_PATTERN.sub(repl, s)]: [repl] gets the name of the match. *)
Definition VARIABLE_PATTERN_sub (repl : string -> string) (s : string)
  : string :=
  String.concat ""
    (map (fun p => match p with
                   | Match n => repl n
                   | Text c => String c EmptyString
                   end)
         (VARIABLE_PATTERN_scan s)).

(* ===================================================================== *)
(** * Bytes and UTF-8 *)
(* ===================================================================== *)

Definition bytes : Type := list byte.

Definition byte_in (lo hi : N) (b : byte) : bool :=
  (N.leb lo (Byte.to_N b) && N.leb (Byte.to_N b) hi)%bool.

(** [b'\x00' in chunk] *)
Fixpoint has_null (chunk : bytes) : bool :=
  match chunk with
  | [] => false
  | b :: chunk' => (N.eqb (Byte.to_N b) 0 || has_null chunk')%bool
  end.

(** The strict UTF-8 decoder accepts exactly the well-formed byte sequences
    of the Unicode standard (no overlong forms, no surrogates, nothing above
    U+10FFFF).  [utf8_from fuel] checks one scalar value at a time. *)
Fixpoint utf8_from (fuel : nat) (bs : bytes) : bool :=
  match fuel with
  | O => false
  | S fuel' =>
      match bs with
      | [] => true
      | b0 :: r0 =>
          if byte_in 0 127 b0 then utf8_from fuel' r0
          else match r0 with
          | [] => false
          | b1 :: r1 =>
              if byte_in 194 223 b0 then
                (byte_in 128 191 b1 && utf8_from fuel' r1)%bool
              else match r1 with
              | [] => false
              | b2 :: r2 =>
                  if byte_in 224 239 b0 then
                    ((if byte_in 224 224 b0 then byte_in 160 191 b1
                      else if byte_in 237 237 b0 then byte_in 128 159 b1
                      else byte_in 128 191 b1)
                     && byte_in 128 191 b2 && utf8_from fuel' r2)%bool
                  else match r2 with
                  | [] => false
                  | b3 :: r3 =>
                      if byte_in 240 244 b0 then
                        ((if byte_in 240 240 b0 then byte_in 144 191 b1
                          else if byte_in 244 244 b0 then byte_in 128 143 b1
                          else byte_in 128 191 b1)
                         && byte_in 128 191 b2 && byte_in 128 191 b3
                         && utf8_from fuel' r3)%bool
                      else false
                  end
              end
          end
      end
  end.

Definition utf8_valid (bs : bytes) : bool := utf8_from (S (length bs)) bs.

(** [bs.decode('utf-8')] *)
Definition decode_utf8 (bs : bytes) : result string :=
  if utf8_valid bs then Ok (string_of_list_byte bs)
  else Raise (UnicodeDecodeError "invalid utf-8").

(** [s.encode('utf-8')] *)
Definition encode_utf8 (s : string) : bytes := list_byte_of_string s.

(** Text files are opened with universal newlines: on reading, "\r\n" and
    "\r" become "\n".  Nothing is translated on writing (POSIX). *)
Fixpoint universal_newlines (s : string) : string :=
  match s with
  | EmptyString => EmptyString
  | String c s' =>
      if Ascii.eqb c "013" then
        match s' with
        | String c' s'' =>
            if Ascii.eqb c' "010" then String "010" (universal_newlines s'')
            else String "010" (universal_newlines s')
        | EmptyString => String "010" EmptyString
        end
      else String c (universal_newlines s')
  end.

(* ===================================================================== *)
(** * Paths (pathlib, POSIX flavour) *)
(* ===================================================================== *)

Record Path : Type := mkPath {
  absolute : bool;
  names : list string
}.

Fixpoint split_on (sep : ascii) (s : string) : list string :=
  match s with
  | EmptyString => [EmptyString]
  | String c s' =>
      if Ascii.eqb c sep then EmptyString :: split_on sep s'
      else match split_on sep s' with
           | h :: t => String c h :: t
           | [] => [String c EmptyString]
           end
  end.

(** [Path(s)]: empty components and "." are dropped, ".." is kept. *)
Definition parse_path (s : string) : Path :=
  mkPath (String.prefix "/" s)
         (filter (fun n => negb (String.eqb n "" || String.eqb n ".")%bool)
                 (split_on "/" s)).

(** [p / s] *)
Definition joinpath (p : Path) (s : string) : Path :=
  let q := parse_path s in
  if absolute q then q else mkPath (absolute p) (names p ++ names q)%list.

(** [p / q] for a relative path [q] given by its names *)
Definition extend (p : Path) (rel : list string) : Path :=
  mkPath (absolute p) (names p ++ rel)%list.

(** [p.parts] *)
Definition parts (p : Path) : list string :=
  if absolute p then "/" :: names p else names p.

(** [p.parent] *)
Definition parent (p : Path) : Path :=
  mkPath (absolute p) (removelast (names p)).

(** [p.name] *)
Definition path_name (p : Path) : string := last (names p) "".

(** [str(p)] *)
Definition path_str (p : Path) : string :=
  if absolute p then "/" ++ join "/" (names p)
  else match names p with [] => "." | _ => join "/" (names p) end.

(** The text from the last dot on, if there is a dot. *)
Fixpoint from_last_dot (s : string) : option string :=
  match s with
  | EmptyString => None
  | String c s' =>
      match from_last_dot s' with
      | Some r => Some r
      | None => if Ascii.eqb c "." then Some s else None
      end
  end.

(** [p.suffix]: the last dot of the name must be neither its first nor its
    last character. *)
Definition suffix_of_name (name : string) : string :=
  match name with
  | EmptyString => ""
  | String _ rest =>
      match from_last_dot rest with
      | Some suf => if Nat.eqb (String.length suf) 1 then "" else suf
      | None => ""
      end
  end.

Definition suffix (p : Path) : string := suffix_of_name (path_name p).

(* ===================================================================== *)
(** * The file system *)
(* ===================================================================== *)

(** A tree of directories and files; the entries of a directory are in the
    order in which the directory lists them.  A file that cannot be opened
    for reading has [readable = false].  No symbolic links, no permissions
    on directories. *)
#[warnings="-register-all"]
Inductive node : Type :=
| File (readable : bool) (data : bytes)
| Dir (entries : list (string * node)).

Inductive found (A : Type) : Type :=
| Found (a : A)
| NoEnt
| NotDir.
Arguments Found {A} a.
Arguments NoEnt {A}.
Arguments NotDir {A}.

(** The node at a path without ".." *)
Fixpoint lookup (t : node) (c : list string) : found node :=
  match c with
  | [] => Found t
  | n :: rest =>
      match t with
      | Dir es =>
          match dict_get es n with
          | Some ch => lookup ch rest
          | None => NoEnt
          end
      | File _ _ => NotDir
      end
  end.

(** Path resolution: ".." needs the path before it to be a directory and
    steps to its parent (the root is its own parent). *)
Fixpoint canon (t : node) (acc : list string) (ns : list string)
  : found (list string) :=
  match ns with
  | [] => Found acc
  | n :: rest =>
      if String.eqb n ".." then
        match lookup t acc with
        | Found (Dir _) => canon t (removelast acc) rest
        | Found (File _ _) => NotDir
        | NoEnt => NoEnt
        | NotDir => NotDir
        end
      else canon t (acc ++ [n])%list rest
  end.

(** Sets the node at [c]; the parent of [c] must be a directory. *)
Fixpoint put (t : node) (c : list string) (new : node) : node :=
  match c with
  | [] => new
  | n :: rest =>
      match t with
      | Dir es =>
          match rest with
          | [] => Dir (dict_set es n new)
          | _ =>
              match dict_get es n with
              | Some ch => Dir (dict_set es n (put ch rest new))
              | None => t
              end
          end
      | File _ _ => t
      end
  end.

(** The relative paths [rglob('*')] yields below a directory: the walk
    visits the directory, then its subdirectories in depth, and lists the
    entries of each directory it visits. *)
Fixpoint rglob_rel (t : node) : list (list string) :=
  match t with
  | File _ _ => []
  | Dir es =>
      (map (fun e => [fst e]) es
       ++ flat_map (fun e => map (cons (fst e)) (rglob_rel (snd e))) es)%list
  end.

(* ===================================================================== *)
(** * The world and the monad of effects *)
(* ===================================================================== *)

(** What the engine reads and changes: the file system, the process's
    working and home directories, the clock ([today] is
    [datetime.now().strftime('%Y-%m-%d')], [this_year] is
    [datetime.now().strftime('%Y')], [now_iso] is
    [datetime.now().isoformat()]), the message catalogue of the current
    language ([translate] is i18n's [t]), the ICONS table of the console
    module, and what was printed on the console.  [console.print] records
    its argument; how rich renders the markup is not modelled. *)
Record world : Type := mkWorld {
  root : node;
  cwd : list string;
  home : list string;
  today : string;
  this_year : string;
  now_iso : string;
  translate : string -> string;
  icons : string -> string;
  console_out : list string
}.

Definition set_root (w : world) (t : node) : world :=
  mkWorld t (cwd w) (home w) (today w) (this_year w) (now_iso w)
          (translate w) (icons w) (console_out w).

Definition M (A : Type) : Type := world -> result A * world.

Definition ret {A} (a : A) : M A := fun w => (Ok a, w).

Definition raise {A} (e : exn) : M A := fun w => (Raise e, w).

Definition bind {A B} (c : M A) (k : A -> M B) : M B :=
  fun w =>
    match c w with
    | (Ok a, w') => k a w'
    | (Raise e, w') => (Raise e, w')
    end.

(** [try: c  except <handled>: h(e)]; another exception passes through. *)
Definition try_except {A} (c : M A) (handled : exn -> bool)
           (h : exn -> M A) : M A :=
  fun w =>
    match c w with
    | (Ok a, w') => (Ok a, w')
    | (Raise e, w') => if handled e then h e w' else (Raise e, w')
    end.

Definition gets {A} (f : world -> A) : M A := fun w => (Ok (f w), w).

Notation "x <- c ;; k" := (bind c (fun x => k))
  (at level 61, c at next level, right associativity).
Notation "c ;;; k" := (bind c (fun _ => k))
  (at level 61, right associativity).

(** [for x in l: body(x)] *)
Fixpoint for_each {A} (l : list A) (body : A -> M unit) : M unit :=
  match l with
  | [] => ret tt
  | x :: l' => body x ;;; for_each l' body
  end.

(** [except Exception] *)
Definition any_exception (e : exn) : bool := true.

(** ** System calls *)

Definition locate (w : world) (p : Path) : found (list string) :=
  canon (root w) (if absolute p then [] else cwd w) (names p).

Definition stat (w : world) (p : Path) : found node :=
  match locate w p with
  | Found c => lookup (root w) c
  | NoEnt => NoEnt
  | NotDir => NotDir
  end.

(** [p.exists()], [p.is_dir()], [p.is_file()] *)
Definition path_exists (w : world) (p : Path) : bool :=
  match stat w p with Found _ => true | _ => false end.

Definition is_dir (w : world) (p : Path) : bool :=
  match stat w p with Found (Dir _) => true | _ => false end.

Definition is_file (w : world) (p : Path) : bool :=
  match stat w p with Found (File _ _) => true | _ => false end.

(** The text of an operating-system error is "[Errno n] reason: 'path'";
    the model keeps the reason and the path. *)
Definition os_error {A} (f : found A) (p : Path) : exn :=
  match f with
  | NotDir => NotADirectoryError ("Not a directory: " ++ path_str p)
  | _ => FileNotFoundError ("No such file or directory: " ++ path_str p)
  end.

(** [os.mkdir(p)] *)
Definition os_mkdir (p : Path) : M unit :=
  fun w =>
    match locate w p with
    | Found [] => (Raise (FileExistsError ("File exists: " ++ path_str p)), w)
    | Found c =>
        match lookup (root w) (removelast c) with
        | Found (Dir _) =>
            match lookup (root w) c with
            | Found _ =>
                (Raise (FileExistsError ("File exists: " ++ path_str p)), w)
            | _ => (Ok tt, set_root w (put (root w) c (Dir [])))
            end
        | Found (File _ _) => (Raise (os_error (@NotDir unit) p), w)
        | NoEnt => (Raise (os_error (@NoEnt unit) p), w)
        | NotDir => (Raise (os_error (@NotDir unit) p), w)
        end
    | NoEnt => (Raise (os_error (@NoEnt unit) p), w)
    | NotDir => (Raise (os_error (@NotDir unit) p), w)
    end.

(** [p.mkdir(exist_ok=...)] without [parents]: a missing parent is an
    error; another error is forgiven when the directory is there and
    [exist_ok] is set. *)
Definition mkdir_one (p : Path) (exist_ok : bool) : M unit :=
  fun w =>
    match os_mkdir p w with
    | (Ok a, w') => (Ok a, w')
    | (Raise e, w') =>
        if is_FileNotFoundError e then (Raise e, w')
        else if (exist_ok && is_dir w' p)%bool then (Ok tt, w')
        else (Raise e, w')
    end.

(** [p.mkdir(parents=True, exist_ok=...)]: on a missing parent, makes the
    parent (with its parents) and tries once more. *)
Fixpoint mkdir_parents_from (fuel : nat) (p : Path) (exist_ok : bool)
  : M unit :=
  fun w =>
    match os_mkdir p w with
    | (Ok a, w') => (Ok a, w')
    | (Raise e, w') =>
        if is_FileNotFoundError e then
          match names p, fuel with
          | _ :: _, S fuel' =>
              (mkdir_parents_from fuel' (parent p) true ;;;
               mkdir_one p exist_ok) w'
          | _, _ => (Raise e, w')
          end
        else if (exist_ok && is_dir w' p)%bool then (Ok tt, w')
        else (Raise e, w')
    end.

Definition mkdir_parents (p : Path) (exist_ok : bool) : M unit :=
  mkdir_parents_from (length (names p)) p exist_ok.

(** [open(p, 'rb').read()] *)
Definition read_bytes (p : Path) : M bytes :=
  fun w =>
    match stat w p with
    | Found (File true d) => (Ok d, w)
    | Found (File false _) =>
        (Raise (PermissionError ("Permission denied: " ++ path_str p)), w)
    | Found (Dir _) =>
        (Raise (IsADirectoryError ("Is a directory: " ++ path_str p)), w)
    | NoEnt => (Raise (os_error (@NoEnt unit) p), w)
    | NotDir => (Raise (os_error (@NotDir unit) p), w)
    end.

(** [open(p, 'wb').write(d)]: creates the file or replaces its content.
    [chmod] says whether the file is made readable whatever it was
    ([shutil.copystat] after a copy). *)
Definition write_file (chmod : bool) (p : Path) (d : bytes) : M unit :=
  fun w =>
    match locate w p with
    | Found [] =>
        (Raise (IsADirectoryError ("Is a directory: " ++ path_str p)), w)
    | Found c =>
        match lookup (root w) (removelast c) with
        | Found (Dir _) =>
            match lookup (root w) c with
            | Found (Dir _) =>
                (Raise (IsADirectoryError ("Is a directory: " ++ path_str p)),
                 w)
            | Found (File r _) =>
                (Ok tt, set_root w (put (root w) c (File (chmod || r) d)))
            | _ => (Ok tt, set_root w (put (root w) c (File true d)))
            end
        | Found (File _ _) => (Raise (os_error (@NotDir unit) p), w)
        | NoEnt => (Raise (os_error (@NoEnt unit) p), w)
        | NotDir => (Raise (os_error (@NotDir unit) p), w)
        end
    | NoEnt => (Raise (os_error (@NoEnt unit) p), w)
    | NotDir => (Raise (os_error (@NotDir unit) p), w)
    end.

Definition write_bytes (p : Path) (d : bytes) : M unit := write_file false p d.

(** [p.read_text(encoding='utf-8')] *)
Definition read_text (p : Path) : M string :=
  bs <- read_bytes p ;;
  match decode_utf8 bs with
  | Ok s => ret (universal_newlines s)
  | Raise e => raise e
  end.

(** [p.write_text(s, encoding='utf-8')] *)
Definition write_text (p : Path) (s : string) : M unit :=
  write_bytes p (encode_utf8 s).

(** [os.path.samefile], false when either path is missing *)
Definition samefile (w : world) (p q : Path) : bool :=
  match locate w p, locate w q with
  | Found c, Found c' =>
      (path_exists w p && path_exists w q
       && if list_eq_dec string_dec c c' then true else false)%bool
  | _, _ => false
  end.

(** [shutil.copy2(src, dst)] *)
Definition copy2 (src dst : Path) : M unit :=
  fun w =>
    let dst' := if is_dir w dst
                then match names src with
                     | [] => dst
                     | _ => extend dst [path_name src]
                     end
                else dst in
    if samefile w src dst'
    then (Raise (SameFileError (path_str src ++ " and " ++ path_str dst'
                                ++ " are the same file")), w)
    else (d <- read_bytes src ;; write_file true dst' d) w.

(** [p.iterdir()] *)
Definition iterdir (p : Path) : M (list Path) :=
  fun w =>
    match stat w p with
    | Found (Dir es) => (Ok (map (fun e => extend p [fst e]) es), w)
    | Found (File _ _) => (Raise (os_error (@NotDir unit) p), w)
    | NoEnt => (Raise (os_error (@NoEnt unit) p), w)
    | NotDir => (Raise (os_error (@NotDir unit) p), w)
    end.

(** [p.rglob('*')], as the paths relative to [p]; nothing when [p] is not
    a directory.  The walk is taken when the loop starts. *)
Definition rglob (w : world) (p : Path) : list (list string) :=
  match stat w p with
  | Found t => rglob_rel t
  | _ => []
  end.

(** [console.print(s)] *)
Definition console_print (s : string) : M unit :=
  fun w => (Ok tt, mkWorld (root w) (cwd w) (home w) (today w) (this_year w)
                           (now_iso w) (translate w) (icons w)
                           (console_out w ++ [s])%list).

(** [print_info(t(key))], [print_success(t(key))] of the console module *)
Definition print_info_t (key : string) : M unit :=
  fun w => console_print (icons w "info" ++ " [dim]" ++ translate w key
                          ++ "[/dim]") w.

Definition print_success_t (key : string) : M unit :=
  fun w => console_print (icons w "check" ++ " [bold green]"
                          ++ translate w key ++ "[/bold green]") w.

Definition when (b : bool) (c : M unit) : M unit := if b then c else ret tt.

(* ===================================================================== *)
(** * The json library *)
(* ===================================================================== *)

(** The part of Python's json module the engine uses:
    [json.dump(v, f, indent=2, ensure_ascii=False)] and [json.load(f)].
    A number with a fraction or an exponent is a float, which [pyval] does
    not have: documents with floats are outside the model, and the reader
    below rejects them. *)

Definition dquote : ascii := "034"%char.
Definition backslash : ascii := "092"%char.
Definition newline : ascii := "010"%char.

Definition hex_digit (n : N) : ascii :=
  if N.ltb n 10 then ascii_of_N (48 + n)%N else ascii_of_N (87 + n)%N.

(** The escapes of the encoder: quote, backslash, and the control
    characters below U+0020. *)
Definition escape_char (c : ascii) : string :=
  if Ascii.eqb c dquote then String backslash (String dquote "")
  else if Ascii.eqb c backslash then String backslash (String backslash "")
  else if Ascii.eqb c "010" then String backslash "n"
  else if Ascii.eqb c "013" then String backslash "r"
  else if Ascii.eqb c "009" then String backslash "t"
  else if Ascii.eqb c "008" then String backslash "b"
  else if Ascii.eqb c "012" then String backslash "f"
  else if N.ltb (N_of_ascii c) 32 then
    String backslash
      ("u00" ++ String (hex_digit (N_of_ascii c / 16)%N)
                       (String (hex_digit (N_of_ascii c mod 16)%N) ""))
  else String c "".

Fixpoint escape (s : string) : string :=
  match s with
  | EmptyString => EmptyString
  | String c s' => escape_char c ++ escape s'
  end.

Definition quote (s : string) : string :=
  String dquote (escape s ++ String dquote "").

Fixpoint spaces (n : nat) : string :=
  match n with
  | O => ""
  | S n' => String " " (spaces n')
  end.

Definition newline_indent (level : nat) : string :=
  String newline (spaces (2 * level)).

(** [json.dumps(v, indent=2, ensure_ascii=False)] at a nesting level *)
Fixpoint dumps (level : nat) (v : pyval) : string :=
  match v with
  | PNone => "null"
  | PBool true => "true"
  | PBool false => "false"
  | PInt z => str_of_Z z
  | PStr s => quote s
  | PList [] => "[]"
  | PList l =>
      "[" ++ newline_indent (S level)
      ++ join ("," ++ newline_indent (S level)) (map (dumps (S level)) l)
      ++ newline_indent level ++ "]"
  | PDict [] => "{}"
  | PDict d =>
      "{" ++ newline_indent (S level)
      ++ join ("," ++ newline_indent (S level))
              (map (fun kv => quote (fst kv) ++ ": " ++ dumps (S level) (snd kv))
                   d)
      ++ newline_indent level ++ "}"
  end.

Definition json_dumps (v : pyval) : string := dumps 0 v.

(** ** Reading *)

Definition is_ws (c : ascii) : bool :=
  (Ascii.eqb c " " || Ascii.eqb c "009" || Ascii.eqb c "010"
   || Ascii.eqb c "013")%bool.

Fixpoint skip_ws (s : string) : string :=
  match s with
  | String c s' => if is_ws c then skip_ws s' else s
  | EmptyString => s
  end.

Definition hex_val (c : ascii) : option N :=
  if in_range 48 57 c then Some (N_of_ascii c - 48)%N
  else if in_range 97 102 c then Some (N_of_ascii c - 87)%N
  else if in_range 65 70 c then Some (N_of_ascii c - 55)%N
  else None.

Definition hex4 (a b c d : ascii) : option N :=
  match hex_val a, hex_val b, hex_val c, hex_val d with
  | Some x, Some y, Some z, Some t => Some (((x * 16 + y) * 16 + z) * 16 + t)%N
  | _, _, _, _ => None
  end.

(** The UTF-8 bytes of a code point (a lone surrogate gets the three-byte
    form, which is not valid UTF-8, as Python cannot encode it either). *)
Definition utf8_encode (cp : N) : string :=
  let ch (n : N) := ascii_of_N n in
  if N.ltb cp 128 then String (ch cp) ""
  else if N.ltb cp 2048 then
    String (ch (192 + cp / 64)%N) (String (ch (128 + cp mod 64)%N) "")
  else if N.ltb cp 65536 then
    String (ch (224 + cp / 4096)%N)
      (String (ch (128 + (cp / 64) mod 64)%N)
         (String (ch (128 + cp mod 64)%N) ""))
  else
    String (ch (240 + cp / 262144)%N)
      (String (ch (128 + (cp / 4096) mod 64)%N)
         (String (ch (128 + (cp / 64) mod 64)%N)
            (String (ch (128 + cp mod 64)%N) ""))).

Definition unescape (e : ascii) : option ascii :=
  if Ascii.eqb e dquote then Some dquote
  else if Ascii.eqb e backslash then Some backslash
  else if Ascii.eqb e "/" then Some "/"%char
  else if Ascii.eqb e "b" then Some "008"%char
  else if Ascii.eqb e "f" then Some "012"%char
  else if Ascii.eqb e "n" then Some "010"%char
  else if Ascii.eqb e "r" then Some "013"%char
  else if Ascii.eqb e "t" then Some "009"%char
  else None.

Definition prepend (pre : string) (r : option (string * string))
  : option (string * string) :=
  match r with
  | Some (x, rest) => Some (pre ++ x, rest)
  | None => None
  end.

Definition high_surrogate (n : N) : bool := (N.leb 55296 n && N.leb n 56319)%bool.
Definition low_surrogate (n : N) : bool := (N.leb 56320 n && N.leb n 57343)%bool.

(** A string, from after its opening quote: the text and what follows the
    closing quote.  Raw control characters are refused (strict mode). *)
Fixpoint scan_string (s : string) : option (string * string) :=
  match s with
  | EmptyString => None
  | String c s' =>
      if Ascii.eqb c dquote then Some (EmptyString, s')
      else if Ascii.eqb c backslash then
        match s' with
        | String e s'' =>
            if Ascii.eqb e "u" then
              match s'' with
              | String h1 (String h2 (String h3 (String h4 r))) =>
                  match hex4 h1 h2 h3 h4 with
                  | Some hi =>
                      if high_surrogate hi then
                        match r with
                        | String b (String u
                            (String l1 (String l2 (String l3 (String l4 r2))))) =>
                            match hex4 l1 l2 l3 l4 with
                            | Some lo =>
                                if (Ascii.eqb b backslash && Ascii.eqb u "u"
                                    && low_surrogate lo)%bool
                                then prepend
                                       (utf8_encode
                                          (65536 + (hi - 55296) * 1024
                                           + (lo - 56320))%N)
                                       (scan_string r2)
                                else prepend (utf8_encode hi) (scan_string r)
                            | None => prepend (utf8_encode hi) (scan_string r)
                            end
                        | _ => prepend (utf8_encode hi) (scan_string r)
                        end
                      else prepend (utf8_encode hi) (scan_string r)
                  | None => None
                  end
              | _ => None
              end
            else
              match unescape e with
              | Some ch => prepend (String ch "") (scan_string s'')
              | None => None
              end
        | EmptyString => None
        end
      else if N.ltb (N_of_ascii c) 32 then None
      else prepend (String c "") (scan_string s')
  end.

Definition is_digit (c : ascii) : bool := in_range 48 57 c.

Fixpoint span_digits (s : string) : string * string :=
  match s with
  | EmptyString => (EmptyString, EmptyString)
  | String c s' =>
      if is_digit c
      then let (run, rest) := span_digits s' in (String c run, rest)
      else (EmptyString, s)
  end.

(** What follows the integer part makes the number a float. *)
Definition float_follows (rest : string) : bool :=
  match rest with
  | String "." (String d _) => is_digit d
  | String e rest' =>
      if (Ascii.eqb e "e" || Ascii.eqb e "E")%bool then
        match rest' with
        | String sg (String d _) =>
            (is_digit sg || ((Ascii.eqb sg "+" || Ascii.eqb sg "-") && is_digit d))%bool
        | String d EmptyString => is_digit d
        | EmptyString => false
        end
      else false
  | EmptyString => false
  end.

(** An integer: an optional minus, then 0 or a digit run without a leading
    zero. *)
Definition scan_number (s : string) : option (Z * string) :=
  let (sign, s1) := match s with
                    | String "-" r => ("-", r)
                    | _ => ("", s)
                    end in
  match s1 with
  | String d r =>
      if is_digit d then
        let (int_part, rest) :=
          if Ascii.eqb d "0" then ("0", r)
          else let (run, rest) := span_digits r in (String d run, rest) in
        if float_follows rest then None
        else match NilZero.int_of_string (sign ++ int_part) with
             | Some i => Some (Z.of_int i, rest)
             | None => None
             end
      else None
  | EmptyString => None
  end.

Fixpoint parse_value (fuel : nat) (s : string) : option (pyval * string) :=
  match fuel with
  | O => None
  | S fuel' =>
      match s with
      | EmptyString => None
      | String c r =>
          if Ascii.eqb c dquote then
            match scan_string r with
            | Some (x, r') => Some (PStr x, r')
            | None => None
            end
          else if Ascii.eqb c "{" then
            if String.prefix "}" (skip_ws r)
            then Some (PDict [], drop 1 (skip_ws r))
            else parse_members fuel' (skip_ws r) []
          else if Ascii.eqb c "[" then
            if String.prefix "]" (skip_ws r)
            then Some (PList [], drop 1 (skip_ws r))
            else parse_elements fuel' (skip_ws r) []
          else if String.prefix "null" s then Some (PNone, drop 4 s)
          else if String.prefix "true" s then Some (PBool true, drop 4 s)
          else if String.prefix "false" s then Some (PBool false, drop 5 s)
          else match scan_number s with
               | Some (z, r') => Some (PInt z, r')
               | None => None
               end
      end
  end

with parse_elements (fuel : nat) (s : string) (acc : list pyval)
  : option (pyval * string) :=
  match fuel with
  | O => None
  | S fuel' =>
      match parse_value fuel' s with
      | Some (v, r) =>
          match skip_ws r with
          | String "," r' => parse_elements fuel' (skip_ws r') (acc ++ [v])%list
          | String "]" r' => Some (PList (acc ++ [v])%list, r')
          | _ => None
          end
      | None => None
      end
  end

with parse_members (fuel : nat) (s : string) (acc : dict pyval)
  : option (pyval * string) :=
  match fuel with
  | O => None
  | S fuel' =>
      match s with
      | String q r =>
          if Ascii.eqb q dquote then
            match scan_string r with
            | Some (k, r1) =>
                match skip_ws r1 with
                | String ":" r2 =>
                    match parse_value fuel' (skip_ws r2) with
                    | Some (v, r3) =>
                        match skip_ws r3 with
                        | String "," r4 =>
                            parse_members fuel' (skip_ws r4) (dict_set acc k v)
                        | String "}" r4 => Some (PDict (dict_set acc k v), r4)
                        | _ => None
                        end
                    | None => None
                    end
                | _ => None
                end
            | None => None
            end
          else None
      | EmptyString => None
      end
  end.

(** [json.loads(s)] *)
Definition json_loads (s : string) : result pyval :=
  match parse_value (2 * String.length s + 2) (skip_ws s) with
  | Some (v, r) =>
      match skip_ws r with
      | EmptyString => Ok v
      | _ => Raise (JSONDecodeError "Extra data")
      end
  | None => Raise (JSONDecodeError "Expecting value")
  end.

(* ===================================================================== *)
(** * Constants *)
(* ===================================================================== *)

Definition TEMPLATE_VERSION : string := "1.0".

(** The two sets are kept as lists; Python leaves the order of a set
    open. *)
Definition DEFAULT_TEXT_EXTENSIONS : list string :=
  [".py"; ".txt"; ".md"; ".json"; ".toml"; ".yaml"; ".yml";
   ".ini"; ".cfg"; ".conf"; ".rst"; ".html"; ".css"; ".js";
   ".sh"; ".bat"; ".ps1"; ".xml"; ".env"; ".gitignore"].

Definition DEFAULT_EXCLUDE_DIRS : list string :=
  ["__pycache__"; ".git"; "venv"; ".venv"; "env"; ".env";
   "node_modules"; ".pytest_cache"; ".mypy_cache"; ".tox";
   "*.egg-info"; "dist"; "build"; ".idea"; ".vscode"].

(* ===================================================================== *)
(** * TemplateMetadata *)
(* ===================================================================== *)

(** [type(v).__name__] *)
Definition type_name (v : pyval) : string :=
  match v with
  | PNone => "NoneType"
  | PBool _ => "bool"
  | PInt _ => "int"
  | PStr _ => "str"
  | PList _ => "list"
  | PDict _ => "dict"
  end.

(** [v.get(k, dflt)]: only a dict has the method. *)
Definition py_get (v : pyval) (k : string) (dflt : pyval) : result pyval :=
  match v with
  | PDict d => Ok (match dict_get d k with Some x => x | None => dflt end)
  | _ => Raise (AttributeError ("'" ++ type_name v
                                ++ "' object has no attribute 'get'"))
  end.

(** [v.items()] *)
Definition py_items (v : pyval) : result (list (string * pyval)) :=
  match v with
  | PDict d => Ok d
  | _ => Raise (AttributeError ("'" ++ type_name v
                                ++ "' object has no attribute 'items'"))
  end.

Definition rbind {A B} (r : result A) (k : A -> result B) : result B :=
  match r with
  | Ok a => k a
  | Raise e => Raise e
  end.

Definition lift {A} (r : result A) : M A := fun w => (r, w).

Module TemplateMetadata.

(** The dataclass.  The fields other than [variables] hold what the
    caller or the metadata file gave, of whatever type. *)
Record t : Type := mk {
  version : pyval;
  name : pyval;
  description : pyval;
  author : pyval;
  created_at : pyval;
  prozes_version : pyval;
  variables : dict TemplateVariable.t;
  dependencies : pyval;
  variable_substitution : pyval;
  file_patterns : pyval
}.

Definition default_variable_substitution : pyval :=
  PDict [("enabled", PBool true);
         ("patterns", PList [PStr "{{variable_name}}"]);
         ("files", PList [PStr "**/*.py"; PStr "**/*.txt"; PStr "**/*.md";
                          PStr "**/*.toml"; PStr "**/*.json"]);
         ("exclude", PList [PStr "**/*.pyc"; PStr "**/__pycache__/*";
                            PStr "**/venv/*"])].

Definition default_file_patterns : pyval :=
  PDict [("text_extensions", PList (map PStr DEFAULT_TEXT_EXTENSIONS));
         ("exclude_dirs", PList (map PStr DEFAULT_EXCLUDE_DIRS))].

(** [__post_init__], at the time [now] *)
Definition post_init (now : string) (self : t) : t :=
  mk (version self) (name self) (description self) (author self)
     (if truthy (created_at self) then created_at self else PStr now)
     (prozes_version self) (variables self) (dependencies self)
     (if truthy (variable_substitution self) then variable_substitution self
      else default_variable_substitution)
     (if truthy (file_patterns self) then file_patterns self
      else default_file_patterns).

(** The constructor: the generated [__init__], then [__post_init__]. *)
Definition new (now : string) (version name description author created_at
                prozes_version : pyval) (variables : dict TemplateVariable.t)
           (dependencies variable_substitution file_patterns : pyval) : t :=
  post_init now (mk version name description author created_at
                    prozes_version variables dependencies
                    variable_substitution file_patterns).

(** The loop of [from_json] that turns the variables dict into
    TemplateVariable objects. *)
Fixpoint variables_of_items (items : list (string * pyval))
         (acc : dict TemplateVariable.t) : result (dict TemplateVariable.t) :=
  match items with
  | [] => Ok acc
  | (var_name, var_data) :: items' =>
      rbind (py_get var_data "type" (PStr "string")) (fun ty =>
      rbind (py_get var_data "description" (PStr "")) (fun de =>
      rbind (py_get var_data "required" (PBool false)) (fun rq =>
      rbind (py_get var_data "default" PNone) (fun df =>
      variables_of_items items'
        (dict_set acc var_name (TemplateVariable.mk var_name ty de rq df))))))
  end.

(** [from_json] after the file is read: from the parsed document. *)
Definition of_data (now : string) (data : pyval) : result t :=
  rbind (py_get data "variables" (PDict [])) (fun vs =>
  rbind (py_items vs) (fun items =>
  rbind (variables_of_items items []) (fun variables =>
  rbind (py_get data "version" (PStr TEMPLATE_VERSION)) (fun version =>
  rbind (py_get data "name" (PStr "")) (fun name =>
  rbind (py_get data "description" (PStr "")) (fun description =>
  rbind (py_get data "author" (PStr "")) (fun author =>
  rbind (py_get data "created_at" (PStr "")) (fun created_at =>
  rbind (py_get data "prozes_version" (PStr "1.0.0")) (fun prozes_version =>
  rbind (py_get data "dependencies" (PDict [])) (fun dependencies =>
  rbind (py_get data "variable_substitution" (PDict [])) (fun vsub =>
  rbind (py_get data "file_patterns" (PDict [])) (fun fpat =>
  Ok (new now version name description author created_at prozes_version
          variables dependencies vsub fpat))))))))))))).

(** [from_json(cls, json_path)] *)
Definition from_json (json_path : Path) : M t :=
  text <- read_text json_path ;;
  data <- lift (json_loads text) ;;
  now <- gets now_iso ;;
  lift (of_data now data).

(** [to_dict(self)] *)
Definition to_dict (self : t) : pyval :=
  PDict [("version", version self);
         ("name", name self);
         ("description", description self);
         ("author", author self);
         ("created_at", created_at self);
         ("prozes_version", prozes_version self);
         ("variables",
          PDict (map (fun kv => (fst kv, TemplateVariable.to_dict (snd kv)))
                     (variables self)));
         ("dependencies", dependencies self);
         ("variable_substitution", variable_substitution self);
         ("file_patterns", file_patterns self)].

(** [save(self, path)] *)
Definition save (self : t) (path : Path) : M unit :=
  write_text path (json_dumps (to_dict self)).

(** [validate(self)]: the list of error messages *)
Definition validate (self : t) : list string :=
  ((if truthy (name self) then [] else ["Template name is required"])
   ++ (if truthy (version self) then []
       else ["Template version is required"])
   ++ flat_map
        (fun kv =>
           if String.eqb (fst kv) (TemplateVariable.name (snd kv)) then []
           else [("Variable key '" ++ fst kv ++ "' doesn't match name '"
                  ++ TemplateVariable.name (snd kv) ++ "'")%string])
        (variables self))%list.

End TemplateMetadata.

(* ===================================================================== *)
(** * Template and the store *)
(* ===================================================================== *)

(** [get_templates_directory()] *)
Definition get_templates_directory : M Path :=
  h <- gets home ;;
  let templates_dir :=
    joinpath (joinpath (mkPath true h) ".prozes") "templates" in
  mkdir_parents templates_dir true ;;;
  ret templates_dir.

Module Template.

Record t : Type := mk {
  name : string;
  path : Path;
  metadata : TemplateMetadata.t
}.

(** [load(cls, name)] *)
Definition load (name : string) : M t :=
  templates_dir <- get_templates_directory ;;
  let template_path := joinpath templates_dir name in
  ex <- gets (fun w => path_exists w template_path) ;;
  if negb ex then
    raise (FileNotFoundError ("Template '" ++ name ++ "' not found"))
  else
  let metadata_path := joinpath template_path "template.json" in
  ex <- gets (fun w => path_exists w metadata_path) ;;
  if negb ex then
    raise (ValueError ("Template '" ++ name ++ "' is missing template.json"))
  else
  let structure_path := joinpath template_path "structure" in
  ex <- gets (fun w => path_exists w structure_path) ;;
  if negb ex then
    raise (ValueError ("Template '" ++ name
                       ++ "' is missing structure directory"))
  else
  metadata <- TemplateMetadata.from_json metadata_path ;;
  match TemplateMetadata.validate metadata with
  | [] => ret (mk name template_path metadata)
  | errors =>
      raise (ValueError ("Invalid template metadata: " ++ join ", " errors))
  end.

(** [get_structure_path(self)] *)
Definition get_structure_path (self : t) : Path :=
  joinpath (path self) "structure".

End Template.

(** [sorted(l, key=...)]: stable, by the order of str. *)
Fixpoint insert_sorted {A} (key : A -> string) (x : A) (l : list A) : list A :=
  match l with
  | [] => [x]
  | y :: l' =>
      if String.ltb (key x) (key y) then x :: y :: l'
      else y :: insert_sorted key x l'
  end.

Definition sorted_by {A} (key : A -> string) (l : list A) : list A :=
  fold_left (fun acc x => insert_sorted key x acc) l [].

Definition FileNotFoundError_or_ValueError (e : exn) : bool :=
  (is_FileNotFoundError e || is_ValueError e)%bool.

(** The loop of [list_custom_templates]. *)
Fixpoint load_each (items : list Path) (templates : list Template.t)
  : M (list Template.t) :=
  match items with
  | [] => ret templates
  | item :: items' =>
      d <- gets (fun w => is_dir w item) ;;
      if d then
        templates' <-
          try_except
            (template <- Template.load (path_name item) ;;
             ret (templates ++ [template])%list)
            FileNotFoundError_or_ValueError
            (fun e =>
               console_print ("[yellow]Warning: Skipping invalid template '"
                              ++ path_name item ++ "': " ++ exn_msg e
                              ++ "[/yellow]") ;;;
               ret templates) ;;
        load_each items' templates'
      else load_each items' templates
  end.

(** [list_custom_templates()] *)
Definition list_custom_templates : M (list Template.t) :=
  templates_dir <- get_templates_directory ;;
  items <- iterdir templates_dir ;;
  templates <- load_each items [] ;;
  ret (sorted_by Template.name templates).

(** [template_exists(name)] *)
Definition template_exists (name : string) : M bool :=
  templates_dir <- get_templates_directory ;;
  gets (fun w => path_exists w (joinpath templates_dir name)).

(** [get_template(name)] *)
Definition get_template (name : string) : M (option Template.t) :=
  try_except (template <- Template.load name ;; ret (Some template))
             FileNotFoundError_or_ValueError
             (fun _ => ret None).

(* ===================================================================== *)
(** * Scanning *)
(* ===================================================================== *)

Definition binary_extensions : list string :=
  [".pyc"; ".pyo"; ".so"; ".dll"; ".dylib"; ".exe";
   ".png"; ".jpg"; ".jpeg"; ".gif"; ".ico"; ".pdf";
   ".zip"; ".tar"; ".gz"; ".bz2"; ".whl"; ".egg"].

(** [open(p, 'rb')] then [f.read(n)] *)
Definition read_chunk (p : Path) (n : nat) : M bytes :=
  bs <- read_bytes p ;;
  ret (firstn n bs).

(** [detect_file_type(file_path)]: 'text', 'binary' or 'skip' *)
Definition detect_file_type (file_path : Path) : M string :=
  if str_in (lower (suffix file_path)) DEFAULT_TEXT_EXTENSIONS then ret "text"
  else if str_in (lower (suffix file_path)) binary_extensions then ret "binary"
  else
    try_except
      (chunk <- read_chunk file_path 8192 ;;
       if has_null chunk then ret "binary"
       else match decode_utf8 chunk with
            | Ok _ => ret "text"
            | Raise _ => ret "binary"
            end)
      any_exception
      (fun _ => ret "skip").

(** [set.add]: a set of str is a list without repetition. *)
Definition set_add (x : string) (l : list string) : list string :=
  if str_in x l then l else (l ++ [x])%list.

(** [set.update] *)
Definition set_update (l xs : list string) : list string :=
  fold_left (fun acc x => set_add x acc) xs l.

(** [detect_variables_in_file(content)] *)
Definition detect_variables_in_file (content : string) : list string :=
  set_update [] (VARIABLE_PATTERN_findall content).

(** [extract_dependencies(source_path)] *)
Fixpoint extract_from (source_path : Path) (dep_files : list string)
         (dependencies : dict string) : M (dict string) :=
  match dep_files with
  | [] => ret dependencies
  | dep_file :: rest =>
      ex <- gets (fun w => path_exists w (joinpath source_path dep_file)) ;;
      extract_from source_path rest
        (if ex then dict_set dependencies dep_file ("structure/" ++ dep_file)
         else dependencies)
  end.

Definition extract_dependencies (source_path : Path) : M (dict string) :=
  extract_from source_path
    ["requirements.txt"; "requirements-dev.txt"; "Pipfile"; "poetry.lock";
     "pyproject.toml"] [].

(** The dict [scan_project_structure] returns; the paths are relative to
    the source. *)
Record scan_result : Type := mkScan {
  files : list Path;
  text_files : list Path;
  binary_files : list Path;
  detected_variables : list string;
  total_files : nat
}.

(** [any(excluded in item.parts for excluded in exclude_dirs)] *)
Definition excluded_path (exclude_dirs : list string) (item : Path) : bool :=
  existsb (fun excluded => str_in excluded (parts item)) exclude_dirs.

(** The body of the loop of [scan_project_structure], on the lists and the
    set it fills. *)
Definition scan_item (source_path : Path) (exclude_dirs : list string)
           (rel : list string)
           (acc : list Path * list Path * list Path * list string)
  : M (list Path * list Path * list Path * list string) :=
  let '(fs, ts, bs, vs) := acc in
  let item := extend source_path rel in
  if excluded_path exclude_dirs item then ret acc
  else
    f <- gets (fun w => is_file w item) ;;
    if f then
      let relative_path := mkPath false rel in
      let fs := (fs ++ [relative_path])%list in
      file_type <- detect_file_type item ;;
      if String.eqb file_type "text" then
        let ts := (ts ++ [relative_path])%list in
        try_except
          (content <- read_text item ;;
           ret (fs, ts, bs, set_update vs (detect_variables_in_file content)))
          any_exception
          (fun _ => ret (fs, ts, bs, vs))
      else if String.eqb file_type "binary" then
        ret (fs, ts, (bs ++ [relative_path])%list, vs)
      else ret (fs, ts, bs, vs)
    else ret acc.

Fixpoint scan_items (source_path : Path) (exclude_dirs : list string)
         (rels : list (list string))
         (acc : list Path * list Path * list Path * list string)
  : M (list Path * list Path * list Path * list string) :=
  match rels with
  | [] => ret acc
  | rel :: rels' =>
      acc' <- scan_item source_path exclude_dirs rel acc ;;
      scan_items source_path exclude_dirs rels' acc'
  end.

(** [scan_project_structure(source_path, exclude_patterns)] *)
Definition scan_project_structure (source_path : Path)
           (exclude_patterns : option (list string)) : M scan_result :=
  let exclude_patterns := match exclude_patterns with
                          | None => []
                          | Some l => l
                          end in
  let exclude_dirs := set_update DEFAULT_EXCLUDE_DIRS exclude_patterns in
  rels <- gets (fun w => rglob w source_path) ;;
  acc <- scan_items source_path exclude_dirs rels ([], [], [], []) ;;
  let '(fs, ts, bs, vs) := acc in
  ret (mkScan fs ts bs vs (length fs)).

(* ===================================================================== *)
(** * Template creation *)
(* ===================================================================== *)

(** [[a-zA-Z0-9_-]] *)
Definition name_char (c : ascii) : bool :=
  (ident_char c || Ascii.eqb c "-")%bool.

(** [re.match(r"^[a-zA-Z_][a-zA-Z0-9_-]*$", s)] past the first character:
    [$] also matches before a newline that ends the string. *)
Fixpoint name_tail (s : string) : bool :=
  match s with
  | EmptyString => true
  | String c s' =>
      if name_char c then name_tail s'
      else (Ascii.eqb c newline && String.eqb s' "")%bool
  end.

(** [validate_template_name(name)] *)
Definition validate_template_name (name : string) : bool * option string :=
  match name with
  | EmptyString => (false, Some "Template name cannot be empty")
  | String c rest =>
      if negb (ident_start c) then
        (false, Some "Template name must start with a letter or underscore")
      else if negb (name_tail rest) then
        (false, Some "Template name can only contain letters, numbers, underscores, and hyphens")
      else (true, None)
  end.

Definition path_eqb (p q : Path) : bool :=
  (Bool.eqb (absolute p) (absolute q)
   && if list_eq_dec string_dec (names p) (names q) then true else false)%bool.

Definition path_in (p : Path) (l : list Path) : bool := existsb (path_eqb p) l.

(** The variable declared for a detected name. *)
Definition detected_variable (var_name : string) : TemplateVariable.t :=
  TemplateVariable.mk var_name (PStr "string") (PStr ("Variable " ++ var_name))
                      (PBool false) PNone.

(** The variables detected in the scan, added to the declared ones. *)
Fixpoint add_detected (detected : list string)
         (variables : dict TemplateVariable.t) : dict TemplateVariable.t :=
  match detected with
  | [] => variables
  | var_name :: rest =>
      add_detected rest
        (if dict_contains variables var_name then variables
         else dict_set variables var_name (detected_variable var_name))
  end.

(** The two variables every new template declares. *)
Definition project_name_variable : TemplateVariable.t :=
  TemplateVariable.mk "project_name" (PStr "string") (PStr "Nome do projeto")
                      (PBool true) PNone.

Definition author_variable : TemplateVariable.t :=
  TemplateVariable.mk "author" (PStr "string") (PStr "Nome do autor")
                      (PBool false) (PStr "Anonymous").

(** The variable set of a new template. *)
Definition capture_variables (detect_variables : bool)
           (detected : list string) : dict TemplateVariable.t :=
  let variables :=
    dict_set (dict_set [] "project_name" project_name_variable)
             "author" author_variable in
  if detect_variables then add_detected detected variables else variables.

(** The body of the copy loop. *)
Definition copy_item (source_path structure_path : Path) (scan : scan_result)
           (verbose : bool) (file_path : Path) : M unit :=
  let source_file := extend source_path (names file_path) in
  let dest_file := extend structure_path (names file_path) in
  mkdir_parents (parent dest_file) true ;;;
  try_except
    ((if path_in file_path (text_files scan) then
        content <- read_text source_file ;;
        write_text dest_file content
      else copy2 source_file dest_file) ;;;
     when verbose (console_print ("  Copied: " ++ path_str file_path)))
    any_exception
    (fun e => console_print ("[yellow]Warning: Failed to copy "
                             ++ path_str file_path ++ ": " ++ exn_msg e
                             ++ "[/yellow]")).

(** The step of [create_template_from_directory] that makes the directory
    of the template and its [structure] directory. *)
Definition make_template_dirs (template_name : string) : M (Path * Path) :=
  templates_dir <- get_templates_directory ;;
  let template_path := joinpath templates_dir template_name in
  mkdir_parents template_path true ;;;
  let structure_path := joinpath template_path "structure" in
  mkdir_one structure_path true ;;;
  ret (template_path, structure_path).

(** [create_template_from_directory(source_path, template_name, description,
    author, exclude_patterns, detect_variables, verbose)] *)
Definition create_template_from_directory (source_path : Path)
           (template_name description author : string)
           (exclude_patterns : option (list string))
           (detect_variables verbose : bool) : M Template.t :=
  ex <- gets (fun w => path_exists w source_path) ;;
  if negb ex then
    raise (FileNotFoundError ("Source directory not found: "
                              ++ path_str source_path))
  else
  d <- gets (fun w => is_dir w source_path) ;;
  if negb d then
    raise (ValueError ("Source path is not a directory: "
                       ++ path_str source_path))
  else
  match validate_template_name template_name with
  | (false, error) =>
      raise (ValueError (match error with Some m => m | None => "None" end))
  | (true, _) =>
      dirs <- make_template_dirs template_name ;;
      let template_path := fst dirs in
      let structure_path := snd dirs in
      when verbose (print_info_t "scanning_project") ;;;
      scan <- scan_project_structure source_path exclude_patterns ;;
      when verbose
        (console_print ("Found " ++ str_of_Z (Z.of_nat (total_files scan))
                        ++ " files") ;;;
         console_print ("Text files: "
                        ++ str_of_Z (Z.of_nat (length (text_files scan)))) ;;;
         console_print ("Binary files: "
                        ++ str_of_Z (Z.of_nat (length (binary_files scan))))) ;;;
      when (detect_variables && verbose
            && match detected_variables scan with [] => false | _ => true end)
        (print_info_t "detecting_variables" ;;;
         console_print ("Detected variables: "
                        ++ join ", " (detected_variables scan))) ;;;
      let variables :=
        capture_variables detect_variables (detected_variables scan) in
      deps <- extract_dependencies source_path ;;
      now <- gets now_iso ;;
      let metadata :=
        TemplateMetadata.new now (PStr TEMPLATE_VERSION) (PStr template_name)
          (PStr description) (PStr author) (PStr "") (PStr "1.0.0") variables
          (PDict (map (fun kv => (fst kv, PStr (snd kv))) deps))
          (PDict []) (PDict []) in
      when verbose (print_info_t "copying_files") ;;;
      for_each (files scan)
        (copy_item source_path structure_path scan verbose) ;;;
      TemplateMetadata.save metadata (joinpath template_path "template.json") ;;;
      when verbose (print_success_t "template_saved") ;;;
      Template.load template_name
  end.

(* ===================================================================== *)
(** * Template application *)
(* ===================================================================== *)

Section Application.

(** [repr(s)] of a str: which characters Python escapes depends on the
    Unicode tables, so the function is a parameter.  It is used only for
    a str inside a list or a dict. *)
Variable repr_str : string -> string.

(** [repr(v)] *)
Fixpoint py_repr (v : pyval) : string :=
  match v with
  | PNone => "None"
  | PBool true => "True"
  | PBool false => "False"
  | PInt z => str_of_Z z
  | PStr s => repr_str s
  | PList l => "[" ++ join ", " (map py_repr l) ++ "]"
  | PDict d =>
      "{" ++ join ", " (map (fun kv => repr_str (fst kv) ++ ": "
                                       ++ py_repr (snd kv)) d) ++ "}"
  end.

(** [str(v)] *)
Definition py_str (v : pyval) : string :=
  match v with
  | PStr s => s
  | _ => py_repr v
  end.

(** [replace_var(match)] of [substitute_variables] *)
Definition replace_var (variables : dict pyval) (var_name : string)
  : string :=
  py_str (match dict_get variables var_name with
          | Some v => v
          | None => PStr (token var_name)
          end).

(** [substitute_variables(content, variables)] *)
Definition substitute_variables (content : string)
           (variables : dict pyval) : string :=
  VARIABLE_PATTERN_sub (replace_var variables) content.

(** [substitute_in_filename(filename, variables)] *)
Definition substitute_in_filename (filename : string)
           (variables : dict pyval) : string :=
  substitute_variables filename variables.

(** The built-in variables of [apply_template]. *)
Definition builtin_variables (project_name : string) (w : world)
  : dict pyval :=
  [("project_name", PStr project_name);
   ("date", PStr (today w));
   ("year", PStr (this_year w))].

(** The loop that adds the defaults of the template's variables. *)
Fixpoint add_defaults (tvars : dict TemplateVariable.t)
         (variables all_variables : dict pyval) : dict pyval :=
  match tvars with
  | [] => all_variables
  | (var_name, var) :: rest =>
      add_defaults rest variables
        (if (negb (dict_contains variables var_name)
             && negb (is_None (TemplateVariable.default var)))%bool
         then dict_set all_variables var_name (TemplateVariable.default var)
         else all_variables)
  end.

(** [all_variables] once the caller's values are merged in. *)
Definition resolve_variables (tvars : dict TemplateVariable.t)
           (variables builtins : dict pyval) : dict pyval :=
  dict_update (add_defaults tvars variables builtins) variables.

(** The loop that validates the variables. *)
Fixpoint validate_variables (tvars : dict TemplateVariable.t)
         (all_variables : dict pyval) : result unit :=
  match tvars with
  | [] => Ok tt
  | (var_name, var) :: rest =>
      if (truthy (TemplateVariable.required var)
          && negb (dict_contains all_variables var_name))%bool
      then Raise (ValueError ("Required variable '" ++ var_name
                              ++ "' is missing"))
      else
        let value := match dict_get all_variables var_name with
                     | Some v => v
                     | None => TemplateVariable.default var
                     end in
        match TemplateVariable.validate_value var value with
        | (false, error) =>
            Raise (ValueError (match error with
                               | Some m => m
                               | None => "None"
                               end))
        | (true, _) => validate_variables rest all_variables
        end
  end.

(** The loop that substitutes the variables in a relative path. *)
Definition substitute_path (all_variables : dict pyval)
           (new_path_str : string) : string :=
  fold_left (fun acc kv => replace (token (fst kv)) (py_str (snd kv)) acc)
            all_variables new_path_str.

(** The body of the loop over the stored files. *)
Definition apply_item (structure_path project_path : Path)
           (all_variables : dict pyval) (verbose : bool)
           (rel : list string) : M unit :=
  let source_file := extend structure_path rel in
  f <- gets (fun w => is_file w source_file) ;;
  if f then
    let relative_path := mkPath false rel in
    let new_path_str :=
      substitute_path all_variables (path_str relative_path) in
    let dest_file := joinpath project_path new_path_str in
    mkdir_parents (parent dest_file) true ;;;
    file_type <- detect_file_type source_file ;;
    (if String.eqb file_type "text" then
       try_except
         (content <- read_text source_file ;;
          when verbose (print_info_t "substituting_variables") ;;;
          write_text dest_file (substitute_variables content all_variables))
         any_exception
         (fun e =>
            console_print ("[yellow]Warning: Failed to process "
                           ++ path_str relative_path ++ ": " ++ exn_msg e
                           ++ "[/yellow]") ;;;
            copy2 source_file dest_file)
     else copy2 source_file dest_file) ;;;
    when verbose (console_print ("  Created: " ++ new_path_str))
  else ret tt.

(** [apply_template(template, project_name, variables, destination,
    verbose)] *)
Definition apply_template (template : Template.t) (project_name : string)
           (variables : dict pyval) (destination : option Path)
           (verbose : bool) : M Path :=
  destination <- match destination with
                 | None => c <- gets cwd ;; ret (mkPath true c)
                 | Some d => ret d
                 end ;;
  let project_path := joinpath destination project_name in
  ex <- gets (fun w => path_exists w project_path) ;;
  if ex then
    raise (ValueError ("Project directory already exists: "
                       ++ path_str project_path))
  else
  builtins <- gets (builtin_variables project_name) ;;
  let tvars := TemplateMetadata.variables (Template.metadata template) in
  let all_variables := resolve_variables tvars variables builtins in
  lift (validate_variables tvars all_variables) ;;;
  mkdir_parents project_path true ;;;
  when verbose (print_info_t "copying_files") ;;;
  let structure_path := Template.get_structure_path template in
  rels <- gets (fun w => rglob w structure_path) ;;
  for_each rels
    (apply_item structure_path project_path all_variables verbose) ;;;
  ret project_path.

End Application.

(* ===================================================================== *)
(** * Notions used to state the properties *)
(* ===================================================================== *)

Fixpoint all_chars (f : ascii -> bool) (s : string) : bool :=
  match s with
  | EmptyString => true
  | String c s' => (f c && all_chars f s')%bool
  end.

(** A name as the token syntax has it: a letter or underscore, then
    letters, digits and underscores. *)
Definition is_identifier (n : string) : bool :=
  match n with
  | EmptyString => false
  | String c rest => (ident_start c && all_chars ident_char rest)%bool
  end.

(** A text in which no token occurs. *)
Definition token_free (s : string) : Prop :=
  forall pre n post, is_identifier n = true -> s <> pre ++ token n ++ post.

(** The decidable form of [token_free]: no suffix of the text starts with
    a match. *)
Fixpoint no_token (s : string) : bool :=
  match match_token s with
  | Some _ => false
  | None => match s with
            | EmptyString => true
            | String _ s' => no_token s'
            end
  end.

(** The names [apply_template] fills in by itself. *)
Definition builtin_names : list string := ["project_name"; "date"; "year"].

(** [s.endswith(suf)] *)
Definition ends_with (suf s : string) : bool :=
  String.eqb (drop (String.length s - String.length suf) s) suf.

(** What the sniffing step of [detect_file_type] answers for the content
    of a file. *)
Definition sniff (content : bytes) : string :=
  let chunk := firstn 8192 content in
  if has_null chunk then "binary"
  else if utf8_valid chunk then "text" else "binary".

(** The [files] list among the lists the scan loop fills. *)
Definition files_of (acc : list Path * list Path * list Path * list string)
  : list Path := fst (fst (fst acc)).

(** The paths of the walk that the scan records: not excluded, and a
    file. *)
Definition scanned (w : world) (source_path : Path)
           (exclude_dirs : list string) (rel : list string) : bool :=
  (negb (excluded_path exclude_dirs (extend source_path rel))
   && is_file w (extend source_path rel))%bool.

(* ===================================================================== *)
(** * Example worlds *)
(* ===================================================================== *)

(** [repr] of a str made of printable ASCII characters other than the
    quotes and the backslash. *)
Definition repr_plain (s : string) : string := "'" ++ s ++ "'".

(** A world with a user [u], whose home holds the entries [in_home] and a
    template store with the entries [in_store]. *)
Definition example_world (in_store in_home : list (string * node)) : world :=
  mkWorld
    (Dir [("home",
           Dir [("u",
                 Dir ((".prozes", Dir [("templates", Dir in_store)])
                      :: in_home))])])
    ["home"; "u"] ["home"; "u"]
    "2026-11-04" "2026" "2026-11-04T10:00:00"
    (fun key => key) (fun _ => "[i]") [].

(** The stored template [tpl] with one text file, [f.txt]. *)
Definition example_store (content : string) : list (string * node) :=
  [("tpl", Dir [("structure",
                 Dir [("f.txt", File true (encode_utf8 content))])])].

Definition example_template (variables : dict TemplateVariable.t)
  : Template.t :=
  Template.mk "tpl" (mkPath true ["home"; "u"; ".prozes"; "templates"; "tpl"])
    (TemplateMetadata.new "2026-11-04T10:00:00" (PStr "1.0") (PStr "tpl")
       (PStr "") (PStr "") (PStr "") (PStr "1.0.0") variables
       (PDict []) (PDict []) (PDict [])).

Definition db_host (default : pyval) : TemplateVariable.t :=
  TemplateVariable.mk "db_host" (PStr "string") (PStr "") (PBool true) default.

(** A well-formed stored template: its metadata file and its structure
    directory. *)
Definition stored_template (name : string) : string * node :=
  (name,
   Dir [("template.json",
         File true
           (encode_utf8
              (json_dumps
                 (TemplateMetadata.to_dict
                    (TemplateMetadata.new "2026-11-04T10:00:00" (PStr "1.0")
                       (PStr name) (PStr "") (PStr "") (PStr "")
                       (PStr "1.0.0") [] (PDict []) (PDict []) (PDict []))))));
        ("structure", Dir [])]).

(** A stored template whose metadata file holds the JSON text [text]. *)
Definition stored_with_metadata (name text : string) : string * node :=
  (name,
   Dir [("template.json", File true (encode_utf8 text));
        ("structure", Dir [])]).

(** A project with a module, an [egg-info] directory and a [node_modules]
    directory. *)
Definition egg_info_project : list (string * node) :=
  [("proj",
    Dir [("a.py", File true (encode_utf8 "x = 1"));
         ("foo.egg-info",
          Dir [("PKG-INFO", File true (encode_utf8 "Name: foo"))]);
         ("node_modules", Dir [("m.js", File true (encode_utf8 "1"))])])].

(** The content of a file of the world, read as text. *)
Definition text_at (w : world) (p : list string) : result string :=
  fst (read_text (mkPath true p) w).

(** What may follow a value in a document written by [dumps]: the end, a
    comma or a newline. *)
Definition value_end (rest : string) : bool :=
  match rest with
  | EmptyString => true
  | String c _ => (Ascii.eqb c "," || Ascii.eqb c newline)%bool
  end.

Fixpoint distinct (l : list string) : bool :=
  match l with
  | [] => true
  | x :: l' => (negb (str_in x l') && distinct l')%bool
  end.

(** The invariant of the dicts inside a value: no key occurs twice. *)
Fixpoint keys_ok (v : pyval) : bool :=
  match v with
  | PList l => forallb keys_ok l
  | PDict d =>
      (distinct (map fst d) && forallb (fun kv => keys_ok (snd kv)) d)%bool
  | _ => true
  end.

(** A str of the model stands for a Python str when its bytes are
    well-formed UTF-8. *)
Definition is_text (s : string) : bool := utf8_valid (encode_utf8 s).

(** Every str inside a value, keys included, is a text. *)
Fixpoint text_ok (v : pyval) : bool :=
  match v with
  | PStr s => is_text s
  | PList l => forallb text_ok l
  | PDict d => forallb (fun kv => (is_text (fst kv) && text_ok (snd kv))%bool) d
  | _ => true
  end.

(** A character below 128. *)
Definition is_ascii (c : ascii) : bool := byte_in 0 127 (byte_of_ascii c).

(** The first character of a written value: it is not white space and it
    closes no list or dict. *)
Definition starts_value (s : string) : Prop :=
  exists c r, s = String c r /\ is_ws c = false /\
              Ascii.eqb c "]" = false /\ Ascii.eqb c "}" = false.

Definition reads_back (v : pyval) : Prop :=
  forall level rest fuel,
    value_end rest = true ->
    2 * String.length (dumps level v) <= fuel ->
    parse_value fuel (dumps level v ++ rest) = Some (v, rest).

Definition member (level : nat) (kv : string * pyval) : string :=
  quote (fst kv) ++ ": " ++ dumps (S level) (snd kv).

(** A lookup that ends on a directory. *)
Definition is_Dir (f : found node) : bool :=
  match f with Found (Dir _) => true | _ => false end.

(** A character other than the carriage return. *)
Definition not_cr (c : ascii) : bool := negb (Ascii.eqb c "013").

(** Everything of the world but the file system and the console. *)
Definition same_env (w w' : world) : Prop :=
  cwd w' = cwd w /\ home w' = home w /\ today w' = today w /\
  this_year w' = this_year w /\ now_iso w' = now_iso w /\
  translate w' = translate w /\ icons w' = icons w.

(** [t'] has the files of [t], unchanged, and its directories. *)
Definition extends (t t' : node) : Prop :=
  forall acc,
    match lookup t acc with
    | Found (File r d) => lookup t' acc = Found (File r d)
    | Found (Dir _) => is_Dir (lookup t' acc) = true
    | _ => True
    end.

(** The world after making directories or printing. *)
Definition grows (w w' : world) : Prop :=
  same_env w w' /\ extends (root w) (root w').

(** A computation whose final world is related to its initial world,
    whether it returns or raises. *)
Definition preserves (R : world -> world -> Prop) {A} (c : M A) : Prop :=
  forall w, R w (snd (c w)).

(* ===================================================================== *)
(** * The validation module: project names (modules/validation.py) *)
(* ===================================================================== *)

(** [[a-zA-Z0-9_]*$] from the second character on: [$] also matches before
    a newline that ends the string. *)
Fixpoint ident_tail (s : string) : bool :=
  match s with
  | EmptyString => true
  | String c s' =>
      if ident_char c then ident_tail s'
      else (Ascii.eqb c newline && String.eqb s' "")%bool
  end.

(** The reserved words of Python that [validate_project_name] lists. *)
Definition keywords : list string :=
  ["False"; "None"; "True"; "and"; "as"; "assert"; "async"; "await";
   "break"; "class"; "continue"; "def"; "del"; "elif"; "else"; "except";
   "finally"; "for"; "from"; "global"; "if"; "import"; "in"; "is";
   "lambda"; "nonlocal"; "not"; "or"; "pass"; "raise"; "return"; "try";
   "while"; "with"; "yield"].

Section Validation.

(** [t(key, **kwargs)] of the i18n module, in the current language: the
    text of a message. *)
Variable t : string -> list (string * string) -> string.

(** [validate_project_name(name)] of the validation module *)
Definition validate_project_name (name : string) : bool * option string :=
  match name with
  | EmptyString => (false, Some (t "validation_name_empty" []))
  | String c rest =>
      if negb (ident_start c) then
        (false, Some (t "validation_name_start" []))
      else if negb (ident_tail rest) then
        (false, Some (t "validation_name_chars" []))
      else if str_in name keywords then
        (false, Some (t "validation_name_keyword" [("name", name)]))
      else (true, None)
  end.

End Validation.

(* ===================================================================== *)
(** * Template management *)
(* ===================================================================== *)

(** [del d[k]] on the entries of a directory *)
Definition dict_remove {A} (d : dict A) (k : string) : dict A :=
  filter (fun kv => negb (String.eqb (fst kv) k)) d.

(** Removes the node at [c] from its directory. *)
Fixpoint remove (t : node) (c : list string) : node :=
  match c with
  | [] => t
  | n :: rest =>
      match t with
      | Dir es =>
          match rest with
          | [] => Dir (dict_remove es n)
          | _ =>
              match dict_get es n with
              | Some ch => Dir (dict_set es n (remove ch rest))
              | None => t
              end
          end
      | File _ _ => t
      end
  end.

(** [shutil.rmtree(p)]: removes the directory [p] with all it holds.  A
    path that is not a directory is an error: the file is opened, which
    needs the permission to read it, and cannot be listed.  The root
    cannot be removed ([rmdir] fails with EBUSY, an OSError without a
    class of its own, for which PermissionError stands here, and the
    model leaves the content in place). *)
Definition rmtree (p : Path) : M unit :=
  fun w =>
    match locate w p with
    | Found c =>
        match lookup (root w) c with
        | Found (Dir _) =>
            match c with
            | [] => (Raise (PermissionError
                              ("Device or resource busy: " ++ path_str p)), w)
            | _ => (Ok tt, set_root w (remove (root w) c))
            end
        | Found (File true _) => (Raise (os_error (@NotDir unit) p), w)
        | Found (File false _) =>
            (Raise (PermissionError ("Permission denied: " ++ path_str p)), w)
        | NoEnt => (Raise (os_error (@NoEnt unit) p), w)
        | NotDir => (Raise (os_error (@NotDir unit) p), w)
        end
    | NoEnt => (Raise (os_error (@NoEnt unit) p), w)
    | NotDir => (Raise (os_error (@NotDir unit) p), w)
    end.

Section Deletion.

(** [Confirm.ask(prompt, default=False)] of rich.prompt: the answer of the
    user at the terminal. *)
Variable confirm_ask : string -> M bool.

(** [delete_template(name, force)] *)
Definition delete_template (name : string) (force : bool) : M bool :=
  templates_dir <- get_templates_directory ;;
  let template_path := joinpath templates_dir name in
  ex <- gets (fun w => path_exists w template_path) ;;
  if negb ex then
    raise (FileNotFoundError ("Template '" ++ name ++ "' not found"))
  else
    let delete := rmtree template_path ;;;
                  print_success_t "template_deleted" ;;;
                  ret true in
    if negb force then
      confirmed <- confirm_ask ("Delete template '" ++ name ++ "'?") ;;
      if negb confirmed then ret false else delete
    else delete.

End Deletion.

(* ===================================================================== *)
(** * The file tree of a template *)
(* ===================================================================== *)

(** The order of pure paths: their parts compared as lists of str, a str
    by its code points (the order of the UTF-8 bytes). *)
Fixpoint parts_compare (a b : list string) : comparison :=
  match a, b with
  | [], [] => Eq
  | [], _ :: _ => Lt
  | _ :: _, [] => Gt
  | x :: a', y :: b' =>
      match String.compare x y with
      | Eq => parts_compare a' b'
      | c => c
      end
  end.

(** [p < q] *)
Definition path_ltb (p q : Path) : bool :=
  match parts_compare (parts p) (parts q) with Lt => true | _ => false end.

(** [sorted(l)] for a list of paths *)
Fixpoint insert_path (x : Path) (l : list Path) : list Path :=
  match l with
  | [] => [x]
  | y :: l' =>
      if path_ltb x y then x :: y :: l' else y :: insert_path x l'
  end.

Definition sorted_paths (l : list Path) : list Path :=
  fold_left (fun acc x => insert_path x acc) l [].

(** The loop of [get_file_tree]. *)
Fixpoint file_tree_items (structure_path : Path) (rels : list (list string))
         (files : list Path) : M (list Path) :=
  match rels with
  | [] => ret files
  | rel :: rels' =>
      f <- gets (fun w => is_file w (extend structure_path rel)) ;;
      file_tree_items structure_path rels'
        (if f then (files ++ [mkPath false rel])%list else files)
  end.

(** [get_file_tree(self)] *)
Definition get_file_tree (self : Template.t) : M (list Path) :=
  let structure_path := Template.get_structure_path self in
  rels <- gets (fun w => rglob w structure_path) ;;
  files <- file_tree_items structure_path rels [] ;;
  ret (sorted_paths files).

(* ===================================================================== *)
(** * Notions used to state the further properties *)
(* ===================================================================== *)

(** A character other than the slash; other than the hyphen. *)
Definition not_slash (c : ascii) : bool := negb (Ascii.eqb c "/").

Definition not_hyphen (c : ascii) : bool := negb (Ascii.eqb c "-").

(** The directory of the template store, [~/.prozes/templates]. *)
Definition store_path (w : world) : Path :=
  joinpath (joinpath (mkPath true (home w)) ".prozes") "templates".

(** What [detect_file_type] answers for a path in a world. *)
Definition file_type (w : world) (p : Path) : string :=
  match fst (detect_file_type p w) with
  | Ok r => r
  | Raise _ => "skip"
  end.

(** The text of a file, when [read_text] gives one. *)
Definition text_of (w : world) (p : Path) : option string :=
  match fst (read_text p w) with
  | Ok s => Some s
  | Raise _ => None
  end.

(** The paths of the walk recorded with a given type. *)
Definition scanned_as (ty : string) (w : world) (source_path : Path)
           (exclude_dirs : list string) (rel : list string) : bool :=
  (scanned w source_path exclude_dirs rel
   && String.eqb (file_type w (extend source_path rel)) ty)%bool.

(** The names found in a path of the walk: those of its text, when it is
    recorded as a text file that can be read as text. *)
Definition names_in (w : world) (source_path : Path)
           (exclude_dirs : list string) (rel : list string) : list string :=
  if scanned_as "text" w source_path exclude_dirs rel then
    match text_of w (extend source_path rel) with
    | Some content => detect_variables_in_file content
    | None => []
    end
  else [].

(** The world after making directories, writing files or printing: the
    directories are still directories. *)
Definition keeps_dirs (w w' : world) : Prop :=
  same_env w w' /\
  forall acc, is_Dir (lookup (root w) acc) = true ->
              is_Dir (lookup (root w') acc) = true.

(** [p <= q] *)
Definition path_leb (p q : Path) : bool := negb (path_ltb q p).

(** The path of the store in the example worlds. *)
Definition example_store_path : Path :=
  mkPath true ["home"; "u"; ".prozes"; "templates"].

(** A user who gives the answer [b] to every question. *)
Definition answer (b : bool) (prompt : string) : M bool := ret b.

(* ===================================================================== *)
(** * Properties *)
(* ===================================================================== *)

(** ** Dicts *)

Lemma dict_get_set_same {A} (d : dict A) (k : string) (v : A) :
  dict_get (dict_set d k v) k = Some v.
Proof.
  induction d as [|[k' v'] d IH]; simpl.
  - now rewrite String.eqb_refl.
  - destruct (String.eqb k' k) eqn:E; simpl; rewrite E; auto.
Qed.

Lemma dict_get_set_other {A} (d : dict A) (k k' : string) (v : A) :
  k <> k' -> dict_get (dict_set d k v) k' = dict_get d k'.
Proof.
  intros Hne. induction d as [|[k0 v0] d IH]; simpl.
  - destruct (String.eqb_spec k k'); congruence.
  - destruct (String.eqb_spec k0 k) as [->|Hk]; simpl.
    + destruct (String.eqb_spec k k'); congruence.
    + now rewrite IH.
Qed.

Lemma dict_get_set {A} (d : dict A) (k k' : string) (v : A) :
  dict_get (dict_set d k v) k' =
  if String.eqb k k' then Some v else dict_get d k'.
Proof.
  destruct (String.eqb_spec k k') as [->|Hne].
  - apply dict_get_set_same.
  - now apply dict_get_set_other.
Qed.

Lemma dict_get_None {A} (d : dict A) (k : string) :
  dict_get d k = None <-> ~ In k (dict_keys d).
Proof.
  induction d as [|[k' v] d IH]; simpl.
  - tauto.
  - destruct (String.eqb_spec k' k) as [->|Hne].
    + split; [discriminate | intros H; exfalso; auto].
    + rewrite IH. split; [intros H [E|I]; auto | auto].
Qed.

Lemma dict_get_In {A} (d : dict A) (k : string) (v : A) :
  dict_get d k = Some v -> In (k, v) d.
Proof.
  induction d as [|[k' v'] d IH]; simpl; [discriminate|].
  destruct (String.eqb_spec k' k) as [->|Hne].
  - intros [= ->]. now left.
  - intros H. right. auto.
Qed.

Lemma dict_get_wf_In {A} (d : dict A) (k : string) (v : A) :
  dict_wf d -> In (k, v) d -> dict_get d k = Some v.
Proof.
  unfold dict_wf, dict_keys.
  induction d as [|[k' v'] d IH]; simpl; [tauto|].
  intros Hnd [E|I].
  - inversion E; subst. now rewrite String.eqb_refl.
  - inversion Hnd as [|? ? Hni Hnd']; subst.
    destruct (String.eqb_spec k' k) as [->|Hne].
    + exfalso. apply Hni. change k with (fst (k, v)). now apply in_map.
    + auto.
Qed.

Lemma dict_keys_set {A} (d : dict A) (k : string) (v : A) :
  dict_keys (dict_set d k v) =
  if dict_contains d k then dict_keys d else (dict_keys d ++ [k])%list.
Proof.
  unfold dict_contains, dict_keys.
  induction d as [|[k' v'] d IH]; simpl; auto.
  destruct (String.eqb_spec k' k) as [->|Hne]; simpl; auto.
  rewrite IH. now destruct (dict_get d k).
Qed.

Lemma dict_get_update {A} (e d : dict A) (k : string) :
  dict_wf e ->
  dict_get (dict_update d e) k =
  match dict_get e k with Some v => Some v | None => dict_get d k end.
Proof.
  unfold dict_update, dict_wf, dict_keys. revert d.
  induction e as [|[k1 v1] e IH]; intros d Hnd; simpl; auto.
  inversion Hnd as [|? ? Hni Hnd']; subst.
  rewrite IH by assumption.
  destruct (String.eqb_spec k1 k) as [->|Hne].
  - assert (H : dict_get e k = None) by now apply dict_get_None.
    rewrite H. apply dict_get_set_same.
  - destruct (dict_get e k); auto. now apply dict_get_set_other.
Qed.

(** ** The variable model *)

(** C10. A variable declared with type "integer" accepts the booleans:
    [validate_value] returns [(True, None)] for [True] and for [False],
    whatever the other fields of the variable are, because
    [isinstance(True, int)] holds; and the validation loop of
    [apply_template] goes past such a variable when the value resolved for
    it is a boolean. *)
Theorem validate_value_integer_accepts_bool :
  forall (name : string) (description required default : pyval) (b : bool),
    let var := TemplateVariable.mk name (PStr "integer") description required
                                   default in
    TemplateVariable.validate_value var (PBool b) = (true, None) /\
    forall (rest : dict TemplateVariable.t) (all_variables : dict pyval),
      validate_variables ((name, var) :: rest)
                         (dict_set all_variables name (PBool b)) =
      validate_variables rest (dict_set all_variables name (PBool b)).
Proof.
  intros name description required default b var. split.
  - reflexivity.
  - intros rest all_variables. simpl.
    unfold dict_contains. rewrite dict_get_set_same.
    rewrite andb_false_r. reflexivity.
Qed.

(** ** Strings *)

Lemma append_nil_r (s : string) : s ++ "" = s.
Proof. induction s; simpl; congruence. Qed.

Lemma append_assoc (a b c : string) : (a ++ b) ++ c = a ++ (b ++ c).
Proof. induction a; simpl; congruence. Qed.

Lemma length_append (a b : string) :
  String.length (a ++ b) = String.length a + String.length b.
Proof. induction a; simpl; auto. Qed.

Lemma concat_nil_cons (x : string) (l : list string) :
  String.concat "" (x :: l) = x ++ String.concat "" l.
Proof. destruct l; simpl; auto. now rewrite append_nil_r. Qed.

(** ** The token pattern *)

Lemma ident_start_char (c : ascii) : ident_start c = true -> ident_char c = true.
Proof. unfold ident_char. now intros ->. Qed.

Lemma span_ident_spec (s : string) :
  s = fst (span_ident s) ++ snd (span_ident s) /\
  all_chars ident_char (fst (span_ident s)) = true.
Proof.
  induction s as [|c s [IH1 IH2]]; simpl; auto.
  destruct (ident_char c) eqn:E; simpl; auto.
  destruct (span_ident s) as [run rest]; simpl in *.
  rewrite E, IH2. split; [congruence | reflexivity].
Qed.

Lemma span_ident_app (a t : string) (x : ascii) :
  ident_char x = false ->
  span_ident (a ++ String x t) =
  (fst (span_ident a), snd (span_ident a) ++ String x t).
Proof.
  intros Hx. induction a as [|c a IH]; simpl.
  - now rewrite Hx.
  - destruct (ident_char c); simpl; auto.
    rewrite IH. now destruct (span_ident a).
Qed.

Lemma span_ident_all (n t : string) (x : ascii) :
  all_chars ident_char n = true -> ident_char x = false ->
  span_ident (n ++ String x t) = (n, String x t).
Proof.
  intros Hn Hx. induction n as [|c n IH]; simpl in *.
  - now rewrite Hx.
  - apply andb_true_iff in Hn as [Hc Hn]. rewrite Hc, IH; auto.
Qed.

(** A match is a token at the start of the text, and its name is an
    identifier. *)
Lemma match_token_sound (s n r : string) :
  match_token s = Some (n, r) ->
  s = token n ++ r /\ is_identifier n = true.
Proof.
  unfold match_token, token.
  destruct s as [|c0 [|c1 [|c s2]]]; try discriminate.
  - destruct c0 as [[] [] [] [] [] [] [] []]; discriminate.
  - destruct c0 as [[] [] [] [] [] [] [] []]; try discriminate;
      destruct c1 as [[] [] [] [] [] [] [] []]; discriminate.
  - destruct (Ascii.eqb_spec c0 "{") as [->|N0];
      [|destruct c0 as [[] [] [] [] [] [] [] []]; try discriminate;
        now exfalso].
    destruct (Ascii.eqb_spec c1 "{") as [->|N1];
      [|destruct c1 as [[] [] [] [] [] [] [] []]; try discriminate;
        now exfalso].
    destruct (ident_start c) eqn:Hc; [|discriminate].
    destruct (span_ident_spec s2) as [H1 H2].
    destruct (span_ident s2) as [run rest]; simpl in *.
    destruct rest as [|d0 [|d1 r']]; try discriminate.
    + destruct d0 as [[] [] [] [] [] [] [] []]; discriminate.
    + destruct (Ascii.eqb_spec d0 "}") as [->|M0];
        [|destruct d0 as [[] [] [] [] [] [] [] []]; try discriminate;
          now exfalso].
      destruct (Ascii.eqb_spec d1 "}") as [->|M1];
        [|destruct d1 as [[] [] [] [] [] [] [] []]; try discriminate;
          now exfalso].
      intros [= <- <-]. simpl. rewrite Hc, H2. split; auto.
      rewrite H1. now rewrite append_assoc.
Qed.

(** Every token at the start of a text is matched, with the whole name. *)
Lemma match_token_complete (n rest : string) :
  is_identifier n = true -> match_token (token n ++ rest) = Some (n, rest).
Proof.
  destruct n as [|c n]; simpl; [discriminate|].
  intros H. apply andb_true_iff in H as [Hc Hn].
  rewrite Hc. rewrite append_assoc. simpl.
  rewrite (span_ident_all n _ "}"); auto.
Qed.

Lemma match_token_shorter (s n r : string) :
  match_token s = Some (n, r) -> String.length r < String.length s.
Proof.
  intros H. apply match_token_sound in H as [-> _].
  unfold token. rewrite !length_append. simpl. lia.
Qed.

(** A match that starts inside [lit] ends inside [lit], when two opening
    braces follow [lit]. *)
Lemma match_token_inside (lit t n r : string) :
  lit <> "" ->
  match_token (lit ++ "{{" ++ t) = Some (n, r) ->
  exists r', match_token lit = Some (n, r') /\ r = r' ++ "{{" ++ t.
Proof.
  intros Hne. unfold match_token.
  destruct lit as [|c0 [|c1 [|c s2]]]; [congruence| | |]; simpl.
  - destruct (Ascii.eqb_spec c0 "{") as [->|N0];
      [|destruct c0 as [[] [] [] [] [] [] [] []]; try discriminate;
        now exfalso].
    discriminate.
  - destruct (Ascii.eqb_spec c0 "{") as [->|N0];
      [|destruct c0 as [[] [] [] [] [] [] [] []]; try discriminate;
        now exfalso].
    destruct (Ascii.eqb_spec c1 "{") as [->|N1];
      [|destruct c1 as [[] [] [] [] [] [] [] []]; try discriminate;
        now exfalso].
    discriminate.
  - destruct (Ascii.eqb_spec c0 "{") as [->|N0];
      [|destruct c0 as [[] [] [] [] [] [] [] []]; try discriminate;
        now exfalso].
    destruct (Ascii.eqb_spec c1 "{") as [->|N1];
      [|destruct c1 as [[] [] [] [] [] [] [] []]; try discriminate;
        now exfalso].
    destruct (ident_start c); [|discriminate].
    rewrite (span_ident_app s2 (String "{" t) "{") by reflexivity.
    destruct (span_ident s2) as [run rest]; simpl.
    destruct rest as [|d0 [|d1 r']]; simpl; try discriminate.
    + destruct (Ascii.eqb_spec d0 "}") as [->|M0];
        [discriminate
        |destruct d0 as [[] [] [] [] [] [] [] []]; try discriminate;
         now exfalso].
    + destruct (Ascii.eqb_spec d0 "}") as [->|M0];
        [|destruct d0 as [[] [] [] [] [] [] [] []]; try discriminate;
          now exfalso].
      destruct (Ascii.eqb_spec d1 "}") as [->|M1];
        [|destruct d1 as [[] [] [] [] [] [] [] []]; try discriminate;
          now exfalso].
      intros [= <- <-]. eauto.
Qed.

Lemma token_free_tail (c : ascii) (s : string) :
  token_free (String c s) -> token_free s.
Proof.
  intros H pre n post Hn E.
  apply (H (String c pre) n post Hn). simpl. now rewrite E.
Qed.

Lemma token_free_no_match (s : string) :
  token_free s -> match_token s = None.
Proof.
  intros H. destruct (match_token s) as [[n r]|] eqn:E; auto.
  apply match_token_sound in E as [E Hn].
  exfalso. apply (H "" n r Hn). exact E.
Qed.

(** Enough fuel: the scan does not depend on it. *)
Lemma scan_from_fuel (f1 f2 : nat) (s : string) :
  String.length s < f1 -> String.length s < f2 ->
  scan_from f1 s = scan_from f2 s.
Proof.
  revert f2 s. induction f1 as [|f1 IH]; intros f2 s H1 H2; [lia|].
  destruct f2 as [|f2]; [lia|]. simpl.
  destruct (match_token s) as [[n r]|] eqn:E.
  - apply match_token_shorter in E. f_equal. apply IH; lia.
  - destruct s as [|c s']; auto. simpl in *. f_equal. apply IH; lia.
Qed.

Lemma VARIABLE_PATTERN_scan_eq (s : string) :
  VARIABLE_PATTERN_scan s =
  match match_token s with
  | Some (n, rest) => Match n :: VARIABLE_PATTERN_scan rest
  | None => match s with
            | EmptyString => []
            | String c s' => Text c :: VARIABLE_PATTERN_scan s'
            end
  end.
Proof.
  unfold VARIABLE_PATTERN_scan at 1.
  change (scan_from (S (String.length s)) s)
    with (match match_token s with
          | Some (n, rest) => Match n :: scan_from (String.length s) rest
          | None => match s with
                    | EmptyString => []
                    | String c s' => Text c :: scan_from (String.length s) s'
                    end
          end).
  destruct (match_token s) as [[n r]|] eqn:E.
  - apply match_token_shorter in E. f_equal. apply scan_from_fuel; lia.
  - destruct s as [|c s']; auto.
Qed.

Lemma VARIABLE_PATTERN_sub_eq (repl : string -> string) (s : string) :
  VARIABLE_PATTERN_sub repl s =
  match match_token s with
  | Some (n, rest) => repl n ++ VARIABLE_PATTERN_sub repl rest
  | None => match s with
            | EmptyString => ""
            | String c s' => String c (VARIABLE_PATTERN_sub repl s')
            end
  end.
Proof.
  unfold VARIABLE_PATTERN_sub. rewrite VARIABLE_PATTERN_scan_eq.
  destruct (match_token s) as [[n r]|].
  - simpl map. now rewrite concat_nil_cons.
  - destruct s as [|c s']; auto. simpl map. now rewrite concat_nil_cons.
Qed.

(** A text without a token is left as it is. *)
Lemma sub_token_free (repl : string -> string) (s : string) :
  token_free s -> VARIABLE_PATTERN_sub repl s = s.
Proof.
  induction s as [|c s IH]; intros H; rewrite VARIABLE_PATTERN_sub_eq.
  - reflexivity.
  - rewrite (token_free_no_match _ H). f_equal.
    apply IH. now apply token_free_tail in H.
Qed.

(** The first token of a text is replaced, and the rest of the text is
    treated on its own. *)
Lemma sub_first_token (repl : string -> string) (lit n rest : string) :
  token_free lit -> is_identifier n = true ->
  VARIABLE_PATTERN_sub repl (lit ++ token n ++ rest) =
  lit ++ repl n ++ VARIABLE_PATTERN_sub repl rest.
Proof.
  intros Hlit Hn. induction lit as [|c lit IH].
  - cbn [append]. rewrite VARIABLE_PATTERN_sub_eq.
    now rewrite match_token_complete.
  - rewrite VARIABLE_PATTERN_sub_eq.
    destruct (match_token (String c lit ++ token n ++ rest))
      as [[m r]|] eqn:E.
    + exfalso. unfold token in E. rewrite append_assoc in E.
      apply match_token_inside in E as (r' & E & _); [|discriminate].
      rewrite (token_free_no_match _ Hlit) in E. discriminate.
    + cbn [append]. f_equal. apply IH. now apply token_free_tail in Hlit.
Qed.

Lemma no_token_eq (s : string) :
  no_token s =
  match match_token s with
  | Some _ => false
  | None => match s with
            | EmptyString => true
            | String _ s' => no_token s'
            end
  end.
Proof. destruct s; reflexivity. Qed.

Lemma no_token_free (s : string) : no_token s = true -> token_free s.
Proof.
  intros H pre. revert s H.
  induction pre as [|c pre IH]; intros s H n post Hn E; subst s;
    rewrite no_token_eq in H; cbn [append] in H.
  - rewrite match_token_complete in H by assumption. discriminate.
  - destruct (match_token (String c (pre ++ token n ++ post)));
      [discriminate|].
    apply (IH _ H n post Hn). reflexivity.
Qed.

(** ** Resolution and validation of the variables *)

Lemma dict_get_update_absent {A} (e d : dict A) (k : string) :
  dict_get e k = None -> dict_get (dict_update d e) k = dict_get d k.
Proof.
  unfold dict_update. revert d.
  induction e as [|[k1 v1] e IH]; intros d H; simpl in *; auto.
  destruct (String.eqb_spec k1 k) as [->|Hne]; [discriminate|].
  rewrite IH by assumption. now apply dict_get_set_other.
Qed.

Lemma add_defaults_get (tvars : dict TemplateVariable.t)
      (variables all_variables : dict pyval) (k : string) :
  dict_wf tvars ->
  dict_get (add_defaults tvars variables all_variables) k =
  match dict_get tvars k with
  | Some var =>
      if (negb (dict_contains variables k)
          && negb (is_None (TemplateVariable.default var)))%bool
      then Some (TemplateVariable.default var)
      else dict_get all_variables k
  | None => dict_get all_variables k
  end.
Proof.
  unfold dict_wf, dict_keys. revert all_variables.
  induction tvars as [|[k1 var1] tvars IH]; intros all_variables Hnd;
    simpl; auto.
  inversion Hnd as [|? ? Hni Hnd']; subst.
  rewrite IH by assumption.
  destruct (String.eqb_spec k1 k) as [->|Hne].
  - assert (H : dict_get tvars k = None) by now apply dict_get_None.
    rewrite H.
    destruct (negb (dict_contains variables k)
              && negb (is_None (TemplateVariable.default var1)))%bool; auto.
    apply dict_get_set_same.
  - assert (H : dict_get
                  (if (negb (dict_contains variables k1)
                       && negb (is_None (TemplateVariable.default var1)))%bool
                   then dict_set all_variables k1
                                 (TemplateVariable.default var1)
                   else all_variables) k = dict_get all_variables k).
    { destruct (negb (dict_contains variables k1)
                && negb (is_None (TemplateVariable.default var1)))%bool; auto.
      now apply dict_get_set_other. }
    now rewrite H.
Qed.

Lemma validate_variables_app (pre post : dict TemplateVariable.t)
      (all_variables : dict pyval) :
  validate_variables (pre ++ post)%list all_variables =
  match validate_variables pre all_variables with
  | Ok _ => validate_variables post all_variables
  | Raise e => Raise e
  end.
Proof.
  induction pre as [|[k var] pre IH]; simpl; auto.
  destruct (truthy (TemplateVariable.required var)
            && negb (dict_contains all_variables k))%bool; auto.
  destruct (TemplateVariable.validate_value var _) as [[] ?]; auto.
Qed.

Lemma validate_variables_raises (tvars : dict TemplateVariable.t)
      (all_variables : dict pyval) (e : exn) :
  validate_variables tvars all_variables = Raise e ->
  exists msg, e = ValueError msg.
Proof.
  induction tvars as [|[k var] tvars IH]; simpl; [discriminate|].
  destruct (truthy (TemplateVariable.required var)
            && negb (dict_contains all_variables k))%bool.
  - intros [= <-]. eauto.
  - destruct (TemplateVariable.validate_value var _) as [[] ?]; auto.
    intros [= <-]. eauto.
Qed.

Section ApplicationProperties.

Variable repr_str : string -> string.

(** C6. [substitute_variables] is a total function of the text and the
    map: it has no failing case.  A text without a token is returned as it
    is; in a text that starts with a token-free part [lit] followed by a
    token, the token is replaced by [str] of the value the map has for
    its name, or kept verbatim when the map has no such key, and the text
    after the token is substituted in the same way. *)
Theorem substitute_variables_tokens :
  forall (variables : dict pyval),
    (forall s : string,
        token_free s -> substitute_variables repr_str s variables = s) /\
    (forall lit n rest : string,
        token_free lit -> is_identifier n = true ->
        substitute_variables repr_str (lit ++ token n ++ rest) variables =
        lit ++ match dict_get variables n with
               | Some v => py_str repr_str v
               | None => token n
               end
            ++ substitute_variables repr_str rest variables).
Proof.
  intros variables. unfold substitute_variables. split.
  - intros s H. now apply sub_token_free.
  - intros lit n rest Hlit Hn. rewrite sub_first_token by assumption.
    unfold replace_var. now destruct (dict_get variables n).
Qed.

(** C1, as the code has it.  The resolved variables are the built-ins,
    overridden by the non-null defaults of the declared variables the
    caller did not supply, overridden by the caller-supplied values: a
    value the caller passes for [project_name], [date] or [year] wins
    over the built-in value, which is used when neither the caller nor a
    declared default gives the name.  A token with that name is replaced
    by the resolved value. *)
Theorem resolve_variables_precedence :
  forall (tvars : dict TemplateVariable.t) (variables : dict pyval)
         (project_name : string) (w : world) (n : string),
    dict_wf tvars -> dict_wf variables ->
    let builtins := builtin_variables project_name w in
    let all_variables := resolve_variables tvars variables builtins in
    dict_get all_variables n =
    match dict_get variables n with
    | Some v => Some v
    | None =>
        match dict_get tvars n with
        | Some var =>
            if is_None (TemplateVariable.default var)
            then dict_get builtins n
            else Some (TemplateVariable.default var)
        | None => dict_get builtins n
        end
    end
    /\ (is_identifier n = true ->
        substitute_variables repr_str (token n) all_variables =
        match dict_get all_variables n with
        | Some v => py_str repr_str v
        | None => token n
        end).
Proof.
  intros tvars variables project_name w n Ht Hv builtins all_variables.
  split.
  - unfold all_variables, resolve_variables.
    rewrite dict_get_update by assumption.
    destruct (dict_get variables n) as [v|] eqn:E; auto.
    rewrite add_defaults_get by assumption.
    unfold dict_contains. rewrite E. simpl.
    destruct (dict_get tvars n) as [var|]; auto.
    now destruct (is_None (TemplateVariable.default var)).
  - intros Hn. unfold substitute_variables.
    pose proof (sub_first_token (replace_var repr_str all_variables) "" n ""
                                (no_token_free "" eq_refl) Hn) as H.
    cbn [append] in H. rewrite append_nil_r in H. rewrite H.
    rewrite (sub_token_free _ "" (no_token_free "" eq_refl)).
    rewrite append_nil_r. unfold replace_var.
    now destruct (dict_get all_variables n).
Qed.

(** C2, as the code has it.  When the project directory does not exist
    yet and the template declares a required variable that is not a
    built-in name, has no default (null) and gets no value from the
    caller, [apply_template] raises a ValueError and changes nothing; the
    error is the one that names this variable as missing as soon as the
    variables declared before it pass their validation.  (A non-null
    default is used as the value and meets the requirement.) *)
Theorem apply_template_missing_required :
  forall (template : Template.t) (project_name : string)
         (variables : dict pyval) (destination : option Path)
         (verbose : bool) (w : world)
         (pre post : dict TemplateVariable.t) (n : string)
         (var : TemplateVariable.t),
    let dest := match destination with
                | None => mkPath true (cwd w)
                | Some d => d
                end in
    let tvars := TemplateMetadata.variables (Template.metadata template) in
    let all_variables :=
      resolve_variables tvars variables (builtin_variables project_name w) in
    path_exists w (joinpath dest project_name) = false ->
    dict_wf tvars ->
    tvars = (pre ++ (n, var) :: post)%list ->
    truthy (TemplateVariable.required var) = true ->
    TemplateVariable.default var = PNone ->
    ~ In n builtin_names ->
    dict_get variables n = None ->
    (exists msg,
        apply_template repr_str template project_name variables destination
                       verbose w = (Raise (ValueError msg), w)) /\
    (validate_variables pre all_variables = Ok tt ->
     apply_template repr_str template project_name variables destination
                    verbose w =
     (Raise (ValueError ("Required variable '" ++ n ++ "' is missing")), w)).
Proof.
  intros template project_name variables destination verbose w pre post n
         var dest tvars all_variables Hex Hwf Htv Hreq Hdef Hnb Hvar.
  assert (Hall : dict_get all_variables n = None).
  { unfold all_variables, resolve_variables.
    rewrite dict_get_update_absent by assumption.
    rewrite add_defaults_get by assumption.
    assert (Hin : dict_get tvars n = Some var).
    { apply dict_get_wf_In; auto. rewrite Htv. apply in_or_app.
      right. now left. }
    rewrite Hin, Hdef. rewrite andb_false_r.
    unfold builtin_names in Hnb. cbn [In] in Hnb.
    unfold builtin_variables. cbn [dict_get andb negb].
    destruct (String.eqb_spec "project_name" n); [tauto|].
    destruct (String.eqb_spec "date" n); [tauto|].
    destruct (String.eqb_spec "year" n); [tauto|]. reflexivity. }
  assert (Hhere : validate_variables ((n, var) :: post) all_variables =
                  Raise (ValueError ("Required variable '" ++ n
                                     ++ "' is missing"))).
  { simpl. unfold dict_contains. now rewrite Hall, Hreq. }
  assert (Hrun : forall r,
             validate_variables tvars all_variables = Raise r ->
             apply_template repr_str template project_name variables
                            destination verbose w = (Raise r, w)).
  { intros r Hr. unfold all_variables, tvars in Hr. subst dest.
    unfold apply_template, bind, gets, raise, ret, lift.
    destruct destination as [d|]; cbv beta iota in *; rewrite Hex;
      cbv beta iota; rewrite Hr; reflexivity. }
  split.
  - destruct (validate_variables tvars all_variables) as [[]|e] eqn:E.
    + exfalso. rewrite Htv, validate_variables_app, Hhere in E.
      destruct (validate_variables pre all_variables); discriminate.
    + destruct (validate_variables_raises _ _ _ E) as [msg ->].
      exists msg. now apply Hrun.
  - intros Hpre. apply Hrun.
    now rewrite Htv, validate_variables_app, Hpre.
Qed.

(** C5. When [destination/project_name] exists, [apply_template] raises
    the error that says so and leaves the world as it was: no directory
    is made and no file is written, under the destination or anywhere
    else. *)
Theorem apply_template_existing_project :
  forall (template : Template.t) (project_name : string)
         (variables : dict pyval) (destination : option Path)
         (verbose : bool) (w : world),
    let dest := match destination with
                | None => mkPath true (cwd w)
                | Some d => d
                end in
    path_exists w (joinpath dest project_name) = true ->
    apply_template repr_str template project_name variables destination
                   verbose w =
    (Raise (ValueError ("Project directory already exists: "
                        ++ path_str (joinpath dest project_name))), w).
Proof.
  intros template project_name variables destination verbose w dest Hex.
  subst dest. unfold apply_template, bind, gets, raise, ret.
  destruct destination as [d|]; cbv beta iota in *; now rewrite Hex.
Qed.

End ApplicationProperties.

(** ** The file classifier *)

Lemma read_bytes_world (p : Path) (w : world) : snd (read_bytes p w) = w.
Proof.
  unfold read_bytes. destruct (stat w p) as [[[] d|es]| |]; reflexivity.
Qed.

Lemma read_text_world (p : Path) (w : world) : snd (read_text p w) = w.
Proof.
  unfold read_text, bind. pose proof (read_bytes_world p w) as H.
  destruct (read_bytes p w) as [[bs|e] w']; simpl in *; subst; auto.
  unfold decode_utf8. now destruct (utf8_valid bs).
Qed.

Lemma detect_file_type_sniffs (p : Path) (w : world) :
  str_in (lower (suffix p)) DEFAULT_TEXT_EXTENSIONS = false ->
  str_in (lower (suffix p)) binary_extensions = false ->
  detect_file_type p w =
  (Ok (match fst (read_bytes p w) with
       | Ok content => sniff content
       | Raise _ => "skip"
       end), w).
Proof.
  intros Ht Hb. unfold detect_file_type. rewrite Ht, Hb.
  unfold try_except, read_chunk, bind, ret, sniff.
  pose proof (read_bytes_world p w) as H.
  destruct (read_bytes p w) as [[bs|e] w'];
    cbv beta iota delta [fst snd any_exception] in *; subst; auto.
  destruct (has_null (firstn 8192 bs)); auto.
  unfold decode_utf8. now destruct (utf8_valid (firstn 8192 bs)).
Qed.

(** [detect_file_type] always answers, and changes nothing. *)
Lemma detect_file_type_total (p : Path) (w : world) :
  exists r, detect_file_type p w = (Ok r, w).
Proof.
  destruct (str_in (lower (suffix p)) DEFAULT_TEXT_EXTENSIONS) eqn:Ht.
  - exists "text". unfold detect_file_type. now rewrite Ht.
  - destruct (str_in (lower (suffix p)) binary_extensions) eqn:Hb.
    + exists "binary". unfold detect_file_type. now rewrite Ht, Hb.
    + eexists. now apply detect_file_type_sniffs.
Qed.

(** C4. The extension checks come first: an extension of the text list
    gives 'text' and, failing that, one of the binary list gives 'binary',
    whatever the file holds.  For any other extension the answer is decided
    by the first 8192 bytes of the file at most: 'binary' when that chunk
    has a null byte, else 'text' when the chunk is well-formed UTF-8 and
    'binary' when it is not; and it is 'skip' when the file cannot be
    opened or read.  Nothing is changed. *)
Theorem detect_file_type_spec :
  forall (file_path : Path) (w : world),
    let ext := lower (suffix file_path) in
    (str_in ext DEFAULT_TEXT_EXTENSIONS = true ->
     detect_file_type file_path w = (Ok "text", w)) /\
    (str_in ext DEFAULT_TEXT_EXTENSIONS = false ->
     str_in ext binary_extensions = true ->
     detect_file_type file_path w = (Ok "binary", w)) /\
    (str_in ext DEFAULT_TEXT_EXTENSIONS = false ->
     str_in ext binary_extensions = false ->
     (forall e, fst (read_bytes file_path w) = Raise e ->
                detect_file_type file_path w = (Ok "skip", w)) /\
     (forall content,
         fst (read_bytes file_path w) = Ok content ->
         let chunk := firstn 8192 content in
         length chunk <= 8192 /\
         detect_file_type file_path w =
         (Ok (if has_null chunk then "binary"
              else if utf8_valid chunk then "text" else "binary"), w))).
Proof.
  intros file_path w ext. subst ext. repeat split.
  - intros Ht. unfold detect_file_type. now rewrite Ht.
  - intros Ht Hb. unfold detect_file_type. now rewrite Ht, Hb.
  - intros e He. rewrite detect_file_type_sniffs by assumption.
    now rewrite He.
  - apply firstn_le_length.
  - rewrite detect_file_type_sniffs by assumption. now rewrite H1.
Qed.

(** ** The scanner *)

Lemma scan_item_spec (source_path : Path) (exclude_dirs : list string)
      (rel : list string)
      (acc : list Path * list Path * list Path * list string) (w : world) :
  exists acc',
    scan_item source_path exclude_dirs rel acc w = (Ok acc', w) /\
    files_of acc' =
    if scanned w source_path exclude_dirs rel
    then (files_of acc ++ [mkPath false rel])%list
    else files_of acc.
Proof.
  destruct acc as [[[fs ts] bs] vs]. unfold scan_item, scanned, files_of.
  destruct (excluded_path exclude_dirs (extend source_path rel)).
  { eexists. split; reflexivity. }
  unfold bind, gets. cbv beta iota.
  destruct (is_file w (extend source_path rel)).
  2:{ eexists. split; reflexivity. }
  destruct (detect_file_type_total (extend source_path rel) w) as [r Hr].
  rewrite Hr. cbv beta iota.
  destruct (String.eqb r "text").
  - unfold try_except, bind.
    pose proof (read_text_world (extend source_path rel) w) as Hw.
    destruct (read_text (extend source_path rel) w) as [[c|e] w'];
      cbv beta iota delta [fst snd any_exception ret] in *; subst;
      eexists; split; reflexivity.
  - destruct (String.eqb r "binary"); eexists; split; reflexivity.
Qed.

Lemma scan_items_spec (source_path : Path) (exclude_dirs : list string)
      (rels : list (list string))
      (acc : list Path * list Path * list Path * list string) (w : world) :
  exists acc',
    scan_items source_path exclude_dirs rels acc w = (Ok acc', w) /\
    files_of acc' =
    (files_of acc
     ++ map (mkPath false) (filter (scanned w source_path exclude_dirs) rels))%list.
Proof.
  revert acc. induction rels as [|rel rels IH]; intros acc.
  - exists acc. split; [reflexivity|]. simpl. now rewrite app_nil_r.
  - destruct (scan_item_spec source_path exclude_dirs rel acc w)
      as (acc1 & H1 & F1).
    destruct (IH acc1) as (acc2 & H2 & F2).
    exists acc2. split.
    + cbn [scan_items]. unfold bind. now rewrite H1.
    + rewrite F2, F1. cbn [filter].
      destruct (scanned w source_path exclude_dirs rel); auto.
      cbn [map]. now rewrite <- app_assoc.
Qed.

Lemma set_add_In (x y : string) (l : list string) :
  In y (set_add x l) <-> In y l \/ y = x.
Proof.
  unfold set_add. destruct (str_in x l) eqn:E.
  - split; auto. intros [H| ->]; auto.
    induction l as [|z l IH]; simpl in *; [discriminate|].
    apply orb_true_iff in E as [E|E]; auto.
    apply String.eqb_eq in E. auto.
  - rewrite in_app_iff. simpl. intuition.
Qed.

Lemma set_update_In (l xs : list string) (y : string) :
  In y (set_update l xs) <-> In y l \/ In y xs.
Proof.
  unfold set_update. revert l.
  induction xs as [|x xs IH]; intros l; simpl.
  - tauto.
  - rewrite IH, set_add_In. intuition.
Qed.

Lemma str_in_In (x : string) (l : list string) :
  str_in x l = true <-> In x l.
Proof.
  induction l as [|y l IH]; simpl.
  - split; [discriminate | tauto].
  - rewrite orb_true_iff, IH, String.eqb_eq. tauto.
Qed.

Lemma excluded_path_spec (exclude_dirs : list string) (item : Path) :
  excluded_path exclude_dirs item = true <->
  exists c, In c (parts item) /\ In c exclude_dirs.
Proof.
  unfold excluded_path. rewrite existsb_exists.
  split; intros (c & H1 & H2); exists c.
  - apply str_in_In in H2. tauto.
  - rewrite str_in_In. tauto.
Qed.

(** The scan always returns, and changes nothing. *)
Lemma scan_project_structure_total (source_path : Path)
      (exclude_patterns : option (list string)) (w : world) :
  exists r, scan_project_structure source_path exclude_patterns w = (Ok r, w).
Proof.
  unfold scan_project_structure.
  match goal with
  | |- context [scan_items ?s ?ex _ ?acc] =>
      destruct (scan_items_spec s ex (rglob w source_path) acc w)
        as (acc' & H & _)
  end.
  unfold bind, gets. cbv beta iota. rewrite H.
  destruct acc' as [[[fs ts] bs] vs]. eexists. reflexivity.
Qed.

(** C8. The scan always returns, changing nothing, and the files it
    reports are exactly the files of the walk below the source none of
    whose path components (those of the source path included) is
    string-equal to an entry of the exclusion set, which is the default set
    and the caller's extra patterns.  No entry is read as a glob: of the
    default entries only the literal name [*.egg-info] ends in [.egg-info],
    so a directory such as [foo.egg-info] is not excluded by it and its
    files are reported. *)
Theorem scan_excludes_by_exact_component :
  forall (source_path : Path) (exclude_patterns : option (list string))
         (w : world),
    let extra := match exclude_patterns with Some l => l | None => [] end in
    (exists r,
        scan_project_structure source_path exclude_patterns w = (Ok r, w) /\
        total_files r = length (files r) /\
        forall rel : list string,
          In (mkPath false rel) (files r) <->
          (In rel (rglob w source_path) /\
           is_file w (extend source_path rel) = true /\
           ~ exists c, In c (parts (extend source_path rel)) /\
                       (In c DEFAULT_EXCLUDE_DIRS \/ In c extra))) /\
    (forall c, In c DEFAULT_EXCLUDE_DIRS -> ends_with ".egg-info" c = true ->
               c = "*.egg-info").
Proof.
  intros source_path exclude_patterns w extra. split.
  - unfold scan_project_structure. fold extra.
    set (ex := set_update DEFAULT_EXCLUDE_DIRS extra).
    destruct (scan_items_spec source_path ex (rglob w source_path)
                              ([], [], [], []) w) as (acc & H & F).
    unfold bind, gets. cbv beta iota. rewrite H.
    destruct acc as [[[fs ts] bs] vs]. cbv beta iota.
    eexists. split; [reflexivity|]. split; [reflexivity|].
    intros rel. cbn [files]. unfold files_of in F. cbn [fst app] in F.
    rewrite F, in_map_iff. split.
    + intros (rel' & E & I). inversion E; subst rel'.
      apply filter_In in I as [I S]. unfold scanned in S.
      apply andb_true_iff in S as [S1 S2]. repeat split; auto.
      intros (c & C1 & C2). apply negb_true_iff in S1.
      assert (X : excluded_path ex (extend source_path rel) = true).
      { apply excluded_path_spec. exists c. split; auto.
        unfold ex. now apply set_update_In. }
      congruence.
    + intros (I & S2 & N). exists rel. split; auto.
      apply filter_In. split; auto. unfold scanned. rewrite S2.
      rewrite andb_true_r. apply negb_true_iff.
      destruct (excluded_path ex (extend source_path rel)) eqn:X; auto.
      exfalso. apply N. apply excluded_path_spec in X as (c & C1 & C2).
      exists c. split; auto. unfold ex in C2. now apply set_update_In in C2.
  - intros c H E. unfold DEFAULT_EXCLUDE_DIRS in H. cbn [In] in H.
    repeat (destruct H as [<-|H]; [try reflexivity; discriminate|]).
    contradiction.
Qed.

(** The files of [foo.egg-info] are scanned; those of [node_modules] are
    not. *)
Example scan_keeps_egg_info_directory :
  let w := example_world [] egg_info_project in
  exists r,
    scan_project_structure (mkPath false ["proj"]) None w = (Ok r, w) /\
    files r = [mkPath false ["a.py"];
               mkPath false ["foo.egg-info"; "PKG-INFO"]].
Proof. eexists. split; vm_compute; reflexivity. Qed.

(** ** Concrete runs *)

(** C1 fails as stated: with a stored file that holds the token for [date],
    applying the template with the caller-supplied value [x] for [date]
    writes [x], not the current date. *)
Lemma caller_value_replaces_builtin_date :
  let w := example_world (example_store "{{date}}") [] in
  let r := apply_template repr_plain (example_template []) "demo"
                          [("date", PStr "x")] None false w in
  fst r = Ok (mkPath true ["home"; "u"; "demo"]) /\
  text_at (snd r) ["home"; "u"; "demo"; "f.txt"] = Ok "x" /\
  today w = "2026-11-04".
Proof. vm_compute. repeat split. Qed.

Lemma resolve_variables_precedence_witness :
  let w := example_world (example_store "{{date}}") [] in
  dict_get (resolve_variables [] [("date", PStr "x")]
                              (builtin_variables "demo" w)) "date" =
  Some (PStr "x").
Proof.
  intros w.
  refine (proj1 (resolve_variables_precedence repr_plain []
                   [("date", PStr "x")] "demo" w "date" _ _));
    unfold dict_wf; simpl; repeat constructor; simpl; tauto.
Defined.

(** C2 fails as stated: a required variable with the default [localhost]
    and no caller-supplied value does not stop the application; the default
    is substituted. *)
Lemma required_default_is_used :
  let w := example_world (example_store "{{db_host}}") [] in
  let r := apply_template repr_plain
                          (example_template
                             [("db_host", db_host (PStr "localhost"))])
                          "demo" [] None false w in
  fst r = Ok (mkPath true ["home"; "u"; "demo"]) /\
  text_at (snd r) ["home"; "u"; "demo"; "f.txt"] = Ok "localhost".
Proof. vm_compute. repeat split. Qed.

Lemma apply_template_missing_required_witness :
  let w := example_world (example_store "{{db_host}}") [] in
  apply_template repr_plain (example_template [("db_host", db_host PNone)])
                 "demo" [] None false w =
  (Raise (ValueError "Required variable 'db_host' is missing"), w).
Proof.
  intros w.
  refine (proj2 (apply_template_missing_required repr_plain
                   (example_template [("db_host", db_host PNone)])
                   "demo" [] None false w [] [] "db_host" (db_host PNone)
                   eq_refl _ eq_refl eq_refl eq_refl _ eq_refl) eq_refl).
  - unfold dict_wf; simpl; repeat constructor; simpl; tauto.
  - unfold builtin_names. simpl. intuition discriminate.
Defined.

Lemma apply_template_existing_project_witness :
  let w := example_world (example_store "{{date}}") [("demo", Dir [])] in
  apply_template repr_plain (example_template []) "demo" [] None false w =
  (Raise (ValueError "Project directory already exists: /home/u/demo"), w).
Proof.
  intros w.
  exact (apply_template_existing_project repr_plain (example_template [])
           "demo" [] None false w eq_refl).
Defined.

Lemma substitute_variables_tokens_witness :
  substitute_variables repr_plain "Hi {{name}}, {{unknown_var}}"
                       [("name", PStr "Ada")] =
  "Hi Ada, {{unknown_var}}".
Proof.
  destruct (substitute_variables_tokens repr_plain [("name", PStr "Ada")])
    as [H0 H1].
  change "Hi {{name}}, {{unknown_var}}"
    with ("Hi " ++ token "name" ++ ", " ++ token "unknown_var" ++ "").
  rewrite (H1 "Hi " "name" (", " ++ token "unknown_var" ++ "")
              (no_token_free "Hi " eq_refl) eq_refl).
  rewrite (H1 ", " "unknown_var" "" (no_token_free ", " eq_refl) eq_refl).
  rewrite (H0 "" (no_token_free "" eq_refl)).
  reflexivity.
Defined.

Lemma detect_file_type_spec_witness :
  let w := example_world []
             [("LICENSE", File true (encode_utf8 "MIT"));
              ("blob", File true [x00; x01]);
              ("locked", File false [])] in
  detect_file_type (mkPath false ["LICENSE"]) w = (Ok "text", w) /\
  detect_file_type (mkPath false ["blob"]) w = (Ok "binary", w) /\
  detect_file_type (mkPath false ["locked"]) w = (Ok "skip", w).
Proof.
  intros w. split; [|split].
  - exact (proj2 (proj2 (proj2 (proj2 (detect_file_type_spec
                                         (mkPath false ["LICENSE"]) w))
                               eq_refl eq_refl)
                        (encode_utf8 "MIT") eq_refl)).
  - exact (proj2 (proj2 (proj2 (proj2 (detect_file_type_spec
                                         (mkPath false ["blob"]) w))
                               eq_refl eq_refl)
                        [x00; x01] eq_refl)).
  - exact (proj1 (proj2 (proj2 (detect_file_type_spec
                                  (mkPath false ["locked"]) w))
                        eq_refl eq_refl)
                 (PermissionError "Permission denied: locked") eq_refl).
Defined.

(** C7 fails on the code: a store with the well-formed template [good] and
    a directory [bad] whose metadata file holds the JSON array [[]].
    Loading [bad] raises AttributeError, which the loop does not catch, so
    [list_custom_templates] raises instead of returning [good]. *)
Lemma list_custom_templates_raises :
  let w := example_world [stored_template "good";
                          stored_with_metadata "bad" "[]"] [] in
  list_custom_templates w =
  (Raise (AttributeError "'list' object has no attribute 'get'"), w).
Proof. vm_compute. reflexivity. Qed.

(** The scenario of the specification: the directory [bad] has no metadata
    file.  It is skipped with a warning and [good] is returned. *)
Lemma list_custom_templates_skips_missing_metadata :
  let w := example_world [stored_template "good";
                          ("bad", Dir [("structure", Dir [])])] [] in
  let r := list_custom_templates w in
  option_map (map Template.name)
             (match fst r with Ok l => Some l | Raise _ => None end) =
  Some ["good"] /\
  console_out (snd r) =
  ["[yellow]Warning: Skipping invalid template 'bad': Template 'bad' is missing template.json[/yellow]"] /\
  root (snd r) = root w.
Proof. vm_compute. repeat split. Qed.

(** ** The json library: reading back what was written *)
Lemma scan_escape_char (c : ascii) (t : string) :
  scan_string (escape_char c ++ t) = prepend (String c "") (scan_string t).
Proof.
  destruct c as [[] [] [] [] [] [] [] []]; reflexivity.
Qed.

Lemma scan_string_escape (s rest : string) :
  scan_string (escape s ++ String dquote rest) = Some (s, rest).
Proof.
  induction s as [|c s IH].
  - reflexivity.
  - cbn [escape]. rewrite append_assoc, scan_escape_char, IH. reflexivity.
Qed.

Lemma scan_string_quote (s rest : string) :
  exists t, quote s ++ rest = String dquote t /\ scan_string t = Some (s, rest).
Proof.
  exists (escape s ++ String dquote rest). split.
  - unfold quote. cbn [append]. now rewrite append_assoc.
  - apply scan_string_escape.
Qed.

Lemma uint_digits (d : Decimal.uint) :
  all_chars is_digit (NilEmpty.string_of_uint d) = true.
Proof. induction d; simpl; auto. Qed.

Lemma value_end_not_digit (rest : string) :
  value_end rest = true ->
  match rest with EmptyString => True | String c _ => is_digit c = false end.
Proof.
  destruct rest as [|c r]; simpl; auto.
  intros H. apply orb_true_iff in H as [H|H];
    apply Ascii.eqb_eq in H; subst; reflexivity.
Qed.

Lemma value_end_not_float (rest : string) :
  value_end rest = true -> float_follows rest = false.
Proof.
  destruct rest as [|c r]; simpl; auto.
  intros H. apply orb_true_iff in H as [H|H];
    apply Ascii.eqb_eq in H; subst; reflexivity.
Qed.

Lemma span_digits_all (s rest : string) :
  all_chars is_digit s = true ->
  match rest with EmptyString => True | String c _ => is_digit c = false end ->
  span_digits (s ++ rest) = (s, rest).
Proof.
  intros Hs Hr. induction s as [|c s IH];
    cbn [span_digits all_chars append] in *.
  - destruct rest as [|c r]; auto. cbn [span_digits]. now rewrite Hr.
  - apply andb_true_iff in Hs as [Hc Hs]. rewrite Hc, IH; auto.
Qed.

Lemma to_int_norm (z : Z) : Decimal.norm (Z.to_int z) = Z.to_int z.
Proof. rewrite <- (DecimalZ.to_of (Z.to_int z)). now rewrite DecimalZ.of_to. Qed.

Lemma unorm_fixed (d : Decimal.uint) :
  Decimal.unorm d = d -> d = Decimal.D0 Decimal.Nil \/ (d <> Decimal.Nil /\ forall d', d <> Decimal.D0 d').
Proof.
  intros H. destruct (Decimal.uint_eq_dec (Decimal.nzhead d) Decimal.Nil) as [E|E].
  - left. apply DecimalFacts.unorm_0 in E. congruence.
  - right. rewrite DecimalFacts.unorm_nzhead in H by assumption. split.
    + congruence.
    + intros d' E'. apply (DecimalFacts.nzhead_nonzero d d'). congruence.
Qed.

Lemma scan_number_digits (neg : bool) (d : Decimal.uint) (rest : string) :
  d <> Decimal.Nil -> (forall d', d <> Decimal.D0 d') ->
  value_end rest = true ->
  scan_number ((if neg then "-" else "") ++ NilEmpty.string_of_uint d ++ rest) =
  match NilZero.int_of_string
          ((if neg then "-" else "") ++ NilEmpty.string_of_uint d) with
  | Some i => Some (Z.of_int i, rest)
  | None => None
  end.
Proof.
  intros Hn H0 Hr.
  destruct d as [|d|d|d|d|d|d|d|d|d|d]; try congruence;
    try (exfalso; now apply (H0 d));
    destruct neg; unfold scan_number;
    cbn [NilEmpty.string_of_uint append];
    cbv beta iota delta [is_digit in_range N_of_ascii N_of_digits N.add N.mul N.leb N.compare Pos.compare Pos.compare_cont andb Pos.add Pos.mul Pos.succ Ascii.eqb Bool.eqb].
  all: rewrite (span_digits_all _ rest (uint_digits d)
                (value_end_not_digit rest Hr)).
  all: cbv beta iota; now rewrite value_end_not_float.
Qed.

Lemma scan_number_str_of_Z (z : Z) (rest : string) :
  value_end rest = true ->
  scan_number (str_of_Z z ++ rest) = Some (z, rest).
Proof.
  intros Hr. unfold str_of_Z.
  pose proof (to_int_norm z) as Hnorm. pose proof (DecimalZ.of_to z) as Hz.
  destruct (Z.to_int z) as [d|d].
  - assert (Hu : Decimal.unorm d = d) by (simpl in Hnorm; congruence).
    destruct (unorm_fixed d Hu) as [->|[Hn H0]].
    + unfold scan_number. cbn. rewrite value_end_not_float by assumption.
      cbn in Hz. now subst z.
    + cbn [NilZero.string_of_int].
      assert (E : NilZero.string_of_uint d = NilEmpty.string_of_uint d)
        by (destruct d; auto; congruence).
      rewrite E.
      pose proof (scan_number_digits false d rest Hn H0 Hr) as S.
      cbn [append] in S. rewrite S.
      pose proof (NilZero.isi (Decimal.Pos d)) as I.
      cbn [NilZero.string_of_int] in I. rewrite E in I.
      rewrite I by congruence. now rewrite Hz.
  - assert (Hd : Decimal.nzhead d = d /\ d <> Decimal.Nil).
    { simpl in Hnorm. destruct (Decimal.nzhead d) eqn:E; try discriminate;
        split; congruence. }
    destruct Hd as [Hh Hn].
    assert (H0 : forall d', d <> Decimal.D0 d').
    { intros d' E. apply (DecimalFacts.nzhead_nonzero d d'). congruence. }
    cbn [NilZero.string_of_int].
    assert (E : NilZero.string_of_uint d = NilEmpty.string_of_uint d)
      by (destruct d; auto; congruence).
    rewrite E.
    pose proof (scan_number_digits true d rest Hn H0 Hr) as S.
    cbn [append] in S. cbn [append]. rewrite S.
    pose proof (NilZero.isi (Decimal.Neg d)) as I.
    cbn [NilZero.string_of_int] in I. rewrite E in I.
    rewrite I by congruence. now rewrite Hz.
Qed.

Lemma pyval_nested_ind (P : pyval -> Prop) :
  P PNone -> (forall b, P (PBool b)) -> (forall z, P (PInt z)) ->
  (forall s, P (PStr s)) ->
  (forall l, Forall P l -> P (PList l)) ->
  (forall d, Forall (fun kv => P (snd kv)) d -> P (PDict d)) ->
  forall v, P v.
Proof.
  intros HN HB HZ HS HL HD. fix IH 1.
  intros [ |b|z|s|l|d]; [exact HN|apply HB|apply HZ|apply HS| | ].
  - apply HL. revert l. fix IHl 1. intros [|x l]; constructor.
    + apply IH.
    + apply IHl.
  - apply HD. revert d. fix IHd 1. intros [|[k x] d]; constructor.
    + apply IH.
    + apply IHd.
Qed.

Lemma skip_ws_spaces (n : nat) (s : string) :
  skip_ws (spaces n ++ s) = skip_ws s.
Proof. induction n; simpl; auto. Qed.

Lemma skip_ws_newline_indent (level : nat) (s : string) :
  skip_ws (newline_indent level ++ s) = skip_ws s.
Proof. unfold newline_indent. cbn [append skip_ws is_ws Ascii.eqb]. simpl. apply skip_ws_spaces. Qed.

Lemma starts_value_skip (s : string) : starts_value s -> skip_ws s = s.
Proof. intros (c & r & -> & H & _). simpl. now rewrite H. Qed.

Lemma scan_number_head (s : string) (z : Z) (r : string) :
  scan_number s = Some (z, r) ->
  exists c t, s = String c t /\ (c = "-"%char \/ is_digit c = true).
Proof.
  unfold scan_number. destruct s as [|c t]; [discriminate|].
  destruct (Ascii.eqb_spec c "-") as [->|N]; [eauto|].
  intros H. exists c, t. split; auto. right.
  destruct (is_digit c) eqn:D; auto.
  destruct c as [[] [] [] [] [] [] [] []]; try discriminate; now exfalso.
Qed.

Lemma str_of_Z_head (z : Z) :
  exists c t, str_of_Z z = String c t /\ (c = "-"%char \/ is_digit c = true).
Proof.
  pose proof (scan_number_str_of_Z z "" eq_refl) as H.
  rewrite append_nil_r in H. eapply scan_number_head; eauto.
Qed.

Lemma digit_facts (c : ascii) :
  c = "-"%char \/ is_digit c = true ->
  is_ws c = false /\ Ascii.eqb c "]" = false /\ Ascii.eqb c "}" = false /\
  Ascii.eqb c dquote = false /\ Ascii.eqb c "{" = false /\
  Ascii.eqb c "[" = false /\ Ascii.eqb c "n" = false /\
  Ascii.eqb c "t" = false /\ Ascii.eqb c "f" = false.
Proof.
  intros [->|H]; [repeat split|].
  destruct c as [[] [] [] [] [] [] [] []]; try discriminate; repeat split.
Qed.

Lemma dumps_starts_value (level : nat) (v : pyval) (rest : string) :
  starts_value (dumps level v ++ rest).
Proof.
  unfold starts_value.
  destruct v as [ |[]|z|s|[|x l]|[|kv d]]; cbn [dumps quote append];
    try (eexists; eexists; split; [reflexivity|repeat split]).
  destruct (str_of_Z_head z) as (c & t & E & H). rewrite E.
  exists c, (t ++ rest). split; auto.
  apply digit_facts in H. tauto.
Qed.

Lemma value_end_newline_indent (level : nat) (s : string) :
  value_end (newline_indent level ++ s) = true.
Proof. reflexivity. Qed.

Lemma parse_elements_S (fuel : nat) (s : string) (acc : list pyval) :
  parse_elements (S fuel) s acc =
  match parse_value fuel s with
  | Some (v, r) =>
      match skip_ws r with
      | String "," r' => parse_elements fuel (skip_ws r') (acc ++ [v])%list
      | String "]" r' => Some (PList (acc ++ [v])%list, r')
      | _ => None
      end
  | None => None
  end.
Proof. reflexivity. Qed.

Lemma join_cons_starts (sep x : string) (l : list string) (tail : string) :
  (forall t, starts_value (x ++ t)) ->
  starts_value (join sep (x :: l) ++ tail).
Proof.
  intros H. destruct l as [|y l]; cbn [join]; [apply H|].
  rewrite append_assoc. apply H.
Qed.

Lemma parse_elements_dumps (l : list pyval) :
  Forall reads_back l -> l <> [] ->
  forall acc level rest fuel,
    2 * String.length (join ("," ++ newline_indent (S level))
                            (map (dumps (S level)) l)) + 1 <= fuel ->
    parse_elements fuel
      (join ("," ++ newline_indent (S level)) (map (dumps (S level)) l)
       ++ newline_indent level ++ String "]" rest) acc =
    Some (PList (acc ++ l)%list, rest).
Proof.
  induction l as [|x l IH]; intros HF Hne acc level rest fuel Hf;
    [congruence|].
  inversion HF as [|? ? Hx HF']; subst.
  destruct fuel as [|fuel]; [lia|]. rewrite parse_elements_S.
  destruct l as [|y l].
  - cbn [map join] in *.
    rewrite (Hx (S level) _ fuel (value_end_newline_indent _ _)) by lia.
    rewrite skip_ws_newline_indent. reflexivity.
  - change (join ("," ++ newline_indent (S level))
                 (map (dumps (S level)) (x :: y :: l)))
      with (dumps (S level) x ++ ("," ++ newline_indent (S level))
            ++ join ("," ++ newline_indent (S level))
                    (map (dumps (S level)) (y :: l))) in *.
    rewrite !length_append in Hf. change (String.length ",") with 1 in Hf.
    rewrite !append_assoc.
    rewrite (Hx (S level)); [|reflexivity|lia].
    cbn [append skip_ws is_ws Ascii.eqb Bool.eqb orb].
    rewrite skip_ws_newline_indent.
    rewrite starts_value_skip.
    2:{ cbn [map]. apply join_cons_starts. intros t.
        apply dumps_starts_value. }
    change (String "," (newline_indent (S level)))
      with ("," ++ newline_indent (S level)).
    rewrite (IH HF' ltac:(discriminate) (acc ++ [x])%list level rest fuel)
      by lia.
    now rewrite <- app_assoc.
Qed.

Lemma dict_set_fresh {A} (d : dict A) (k : string) (v : A) :
  str_in k (map fst d) = false -> dict_set d k v = (d ++ [(k, v)])%list.
Proof.
  induction d as [|[k' v'] d IH]; simpl; auto.
  intros H. apply orb_false_iff in H as [H1 H2].
  rewrite H1. now rewrite IH.
Qed.

Lemma distinct_app_cons (a : list string) (k : string) (b : list string) :
  distinct (a ++ k :: b) = true ->
  str_in k a = false /\ distinct ((a ++ [k]) ++ b) = true.
Proof.
  intros H. split.
  - induction a as [|x a IH]; simpl in *; auto.
    apply andb_true_iff in H as [H1 H2]. apply negb_true_iff in H1.
    destruct (String.eqb_spec x k) as [->|Hne]; simpl.
    + exfalso. assert (X : str_in k (a ++ k :: b) = true).
      { clear. induction a; simpl; [now rewrite String.eqb_refl|].
        rewrite IHa. apply orb_true_r. }
      congruence.
    + auto.
  - now rewrite <- app_assoc.
Qed.

Lemma parse_members_S (fuel : nat) (s : string) (acc : dict pyval) :
  parse_members (S fuel) s acc =
  match s with
  | String q r =>
      if Ascii.eqb q dquote then
        match scan_string r with
        | Some (k, r1) =>
            match skip_ws r1 with
            | String ":" r2 =>
                match parse_value fuel (skip_ws r2) with
                | Some (v, r3) =>
                    match skip_ws r3 with
                    | String "," r4 =>
                        parse_members fuel (skip_ws r4) (dict_set acc k v)
                    | String "}" r4 => Some (PDict (dict_set acc k v), r4)
                    | _ => None
                    end
                | None => None
                end
            | _ => None
            end
        | None => None
        end
      else None
  | EmptyString => None
  end.
Proof. reflexivity. Qed.

Lemma parse_members_dumps (d : dict pyval) :
  Forall (fun kv => reads_back (snd kv)) d -> d <> [] ->
  forall acc level rest fuel,
    distinct (map fst (acc ++ d)) = true ->
    2 * String.length (join ("," ++ newline_indent (S level))
                            (map (member level) d)) + 1 <= fuel ->
    parse_members fuel
      (join ("," ++ newline_indent (S level)) (map (member level) d)
       ++ newline_indent level ++ String "}" rest) acc =
    Some (PDict (acc ++ d)%list, rest).
Proof.
  induction d as [|[k x] d IH]; intros HF Hne acc level rest fuel Hd Hf;
    [congruence|].
  inversion HF as [|? ? Hx HF']; subst. cbn [snd] in Hx.
  destruct fuel as [|fuel]; [lia|]. rewrite parse_members_S.
  rewrite map_app in Hd. cbn [map fst] in Hd.
  apply distinct_app_cons in Hd as [Hk Hd].
  destruct d as [|y d].
  - cbn [map join] in *. unfold member in *. cbn [fst snd] in *.
    rewrite !length_append in Hf.
    unfold quote at 1. cbn [append]. rewrite Ascii.eqb_refl.
    rewrite !append_assoc. cbn [append]. rewrite scan_string_escape.
    cbn [append skip_ws is_ws Ascii.eqb Bool.eqb orb].
    rewrite starts_value_skip by apply dumps_starts_value.
    rewrite (Hx (S level)); [|reflexivity|lia].
    rewrite skip_ws_newline_indent.
    cbn [skip_ws is_ws Ascii.eqb Bool.eqb orb].
    now rewrite dict_set_fresh.
  - change (join ("," ++ newline_indent (S level))
                 (map (member level) ((k, x) :: y :: d)))
      with (member level (k, x) ++ ("," ++ newline_indent (S level))
            ++ join ("," ++ newline_indent (S level))
                    (map (member level) (y :: d))) in *.
    unfold member at 1 in Hf. unfold member at 1. cbn [fst snd] in *.
    rewrite !length_append in Hf. change (String.length ",") with 1 in Hf.
    unfold quote at 1. cbn [append]. rewrite Ascii.eqb_refl.
    rewrite !append_assoc. cbn [append]. rewrite scan_string_escape.
    cbn [append skip_ws is_ws Ascii.eqb Bool.eqb orb].
    rewrite starts_value_skip by apply dumps_starts_value.
    rewrite (Hx (S level)); [|reflexivity|lia].
    cbn [append skip_ws is_ws Ascii.eqb Bool.eqb orb].
    rewrite !append_assoc. rewrite skip_ws_newline_indent.
    rewrite starts_value_skip.
    2:{ cbn [map]. apply join_cons_starts. intros t.
        unfold member, quote. cbn [append].
        eexists; eexists; (split; [reflexivity|repeat split]). }
    change (String "," (newline_indent (S level)))
      with ("," ++ newline_indent (S level)).
    rewrite dict_set_fresh by assumption.
    rewrite (IH HF' ltac:(discriminate) (acc ++ [(k, x)])%list level rest fuel).
    + now rewrite <- app_assoc.
    + rewrite !map_app. cbn [map fst]. exact Hd.
    + lia.
Qed.



Lemma prefix_app (p rest : string) : String.prefix p (p ++ rest) = true.
Proof.
  induction p as [|a p IH]; cbn [String.prefix append].
  - now destruct rest.
  - destruct (ascii_dec a a); congruence.
Qed.

Lemma prefix_char (a c : ascii) (r : string) :
  String.prefix (String a "") (String c r) = Ascii.eqb c a.
Proof.
  cbn [String.prefix]. destruct (ascii_dec a c) as [->|N].
  - rewrite Ascii.eqb_refl. now destruct r.
  - symmetry. apply Ascii.eqb_neq. congruence.
Qed.

Lemma prefix_other (a : ascii) (s : string) (c : ascii) (r : string) :
  Ascii.eqb c a = false -> String.prefix (String a s) (String c r) = false.
Proof.
  intros H. cbn [String.prefix]. destruct (ascii_dec a c) as [->|N]; auto.
  now rewrite Ascii.eqb_refl in H.
Qed.

Lemma parse_value_S (fuel : nat) (c : ascii) (r : string) :
  parse_value (S fuel) (String c r) =
  if Ascii.eqb c dquote then
    match scan_string r with
    | Some (x, r') => Some (PStr x, r')
    | None => None
    end
  else if Ascii.eqb c "{" then
    if String.prefix "}" (skip_ws r)
    then Some (PDict [], drop 1 (skip_ws r))
    else parse_members fuel (skip_ws r) []
  else if Ascii.eqb c "[" then
    if String.prefix "]" (skip_ws r)
    then Some (PList [], drop 1 (skip_ws r))
    else parse_elements fuel (skip_ws r) []
  else if String.prefix "null" (String c r) then Some (PNone, drop 4 (String c r))
  else if String.prefix "true" (String c r) then Some (PBool true, drop 4 (String c r))
  else if String.prefix "false" (String c r) then Some (PBool false, drop 5 (String c r))
  else match scan_number (String c r) with
       | Some (z, r') => Some (PInt z, r')
       | None => None
       end.
Proof. reflexivity. Qed.

Lemma forallb_Forall_keys (l : list pyval) :
  forallb keys_ok l = true ->
  Forall (fun v => keys_ok v = true -> reads_back v) l ->
  Forall reads_back l.
Proof.
  intros H F. induction F as [|x l Hx F IH]; constructor; simpl in H;
    apply andb_true_iff in H as [H1 H2]; auto.
Qed.

Lemma forallb_Forall_members (d : dict pyval) :
  forallb (fun kv => keys_ok (snd kv)) d = true ->
  Forall (fun kv => keys_ok (snd kv) = true -> reads_back (snd kv)) d ->
  Forall (fun kv => reads_back (snd kv)) d.
Proof.
  intros H F. induction F as [|x l Hx F IH]; constructor; simpl in H;
    apply andb_true_iff in H as [H1 H2]; auto.
Qed.

Lemma dumps_reads_back (v : pyval) : keys_ok v = true -> reads_back v.
Proof.
  induction v as [ |b|z|s|l IH|d IH] using pyval_nested_ind;
    intros Hk level rest fuel Hr Hf.
  - destruct fuel as [|fuel]; [simpl in Hf; lia|].
    cbn [dumps append]. rewrite parse_value_S.
    change (String "n" (String "u" (String "l" (String "l" rest))))
      with ("null" ++ rest).
    now rewrite prefix_app.
  - destruct fuel as [|fuel]; [destruct b; simpl in Hf; lia|].
    destruct b; cbn [dumps append]; rewrite parse_value_S.
    + change (String "t" (String "r" (String "u" (String "e" rest))))
        with ("true" ++ rest).
      now rewrite prefix_app.
    + change (String "f" (String "a" (String "l" (String "s" (String "e" rest)))))
        with ("false" ++ rest).
      now rewrite prefix_app.
  - destruct fuel as [|fuel].
    { destruct (str_of_Z_head z) as (c & t & E & _).
      cbn [dumps] in Hf. rewrite E in Hf. simpl in Hf. lia. }
    cbn [dumps]. destruct (str_of_Z_head z) as (c & t & E & H).
    pose proof (scan_number_str_of_Z z rest Hr) as S.
    rewrite E in *. cbn [append] in *. rewrite parse_value_S.
    apply digit_facts in H as (_ & _ & _ & H1 & H2 & H3 & H4 & H5 & H6).
    rewrite H1, H2, H3, !prefix_other by assumption. now rewrite S.
  - destruct fuel as [|fuel]; [simpl in Hf; lia|].
    cbn [dumps]. unfold quote. cbn [append]. rewrite parse_value_S.
    rewrite Ascii.eqb_refl, append_assoc. cbn [append].
    now rewrite scan_string_escape.
  - destruct fuel as [|fuel]; [destruct l; simpl in Hf; lia|].
    destruct l as [|x l].
    { cbn [dumps append]. rewrite parse_value_S. cbn [Ascii.eqb Bool.eqb dquote].
      cbn [skip_ws is_ws Ascii.eqb Bool.eqb orb]. now rewrite prefix_char. }
    cbn [keys_ok] in Hk. pose proof (forallb_Forall_keys _ Hk IH) as HF.
    change (dumps level (PList (x :: l)))
      with ("[" ++ newline_indent (S level)
            ++ join ("," ++ newline_indent (S level))
                    (map (dumps (S level)) (x :: l))
            ++ newline_indent level ++ "]") in *.
    rewrite !length_append in Hf. change (String.length "[") with 1 in Hf.
    rewrite !append_assoc. cbn [append]. rewrite parse_value_S.
    cbn [Ascii.eqb Bool.eqb dquote].
    change (String "," (newline_indent (S level)))
      with ("," ++ newline_indent (S level)).
    rewrite skip_ws_newline_indent.
    assert (St : starts_value
                   (join ("," ++ newline_indent (S level))
                         (map (dumps (S level)) (x :: l))
                    ++ newline_indent level ++ String "]" rest)).
    { cbn [map]. apply join_cons_starts. intros t. apply dumps_starts_value. }
    rewrite (starts_value_skip _ St).
    destruct St as (c & r & E & _ & Hb & _). rewrite E at 1.
    rewrite prefix_char, Hb.
    apply (parse_elements_dumps (x :: l) HF ltac:(discriminate) []). lia.
  - destruct fuel as [|fuel]; [destruct d; simpl in Hf; lia|].
    destruct d as [|kv d].
    { cbn [dumps append]. rewrite parse_value_S. cbn [Ascii.eqb Bool.eqb dquote].
      cbn [skip_ws is_ws Ascii.eqb Bool.eqb orb]. now rewrite prefix_char. }
    cbn [keys_ok] in Hk. apply andb_true_iff in Hk as [Hd Hk].
    pose proof (forallb_Forall_members _ Hk IH) as HF.
    change (dumps level (PDict (kv :: d)))
      with ("{" ++ newline_indent (S level)
            ++ join ("," ++ newline_indent (S level))
                    (map (member level) (kv :: d))
            ++ newline_indent level ++ "}") in *.
    rewrite !length_append in Hf. change (String.length "{") with 1 in Hf.
    rewrite !append_assoc. cbn [append]. rewrite parse_value_S.
    cbn [Ascii.eqb Bool.eqb dquote].
    change (String "," (newline_indent (S level)))
      with ("," ++ newline_indent (S level)).
    rewrite skip_ws_newline_indent.
    assert (St : starts_value
                   (join ("," ++ newline_indent (S level))
                         (map (member level) (kv :: d))
                    ++ newline_indent level ++ String "}" rest)).
    { cbn [map]. apply join_cons_starts. intros t.
      unfold member, quote. cbn [append].
      eexists; eexists; (split; [reflexivity|repeat split]). }
    rewrite (starts_value_skip _ St).
    destruct St as (c & r & E & _ & _ & Hb). rewrite E at 1.
    rewrite prefix_char, Hb.
    apply (parse_members_dumps (kv :: d) HF ltac:(discriminate) []); auto.
    lia.
Qed.

(** Reading back what [json.dump] wrote gives the value that was written. *)
Theorem json_loads_dumps (v : pyval) :
  keys_ok v = true -> json_loads (json_dumps v) = Ok v.
Proof.
  intros Hk. unfold json_loads, json_dumps.
  pose proof (dumps_starts_value 0 v "") as St. rewrite append_nil_r in St.
  rewrite (starts_value_skip _ St).
  pose proof (dumps_reads_back v Hk 0 "" (2 * String.length (dumps 0 v) + 2)
                               eq_refl ltac:(lia)) as H.
  rewrite append_nil_r in H. now rewrite H.
Qed.

(** ** The file system: reading what was written *)

Lemma lookup_put_same (c : list string) (t new : node) :
  c <> [] -> is_Dir (lookup t (removelast c)) = true ->
  lookup (put t c new) c = Found new.
Proof.
  revert t. induction c as [|n rest IH]; intros t Hne Hd; [congruence|].
  destruct rest as [|m rest].
  - cbn [removelast lookup] in Hd. destruct t as [r d|es]; [discriminate|].
    cbn [put lookup]. now rewrite dict_get_set_same.
  - change (removelast (n :: m :: rest)) with (n :: removelast (m :: rest)) in Hd.
    cbn [lookup] in Hd. destruct t as [r d|es]; [discriminate|].
    destruct (dict_get es n) as [ch|] eqn:E; [|discriminate].
    cbn [put]. rewrite E. cbn [lookup]. rewrite dict_get_set_same.
    apply IH; [discriminate|assumption].
Qed.

(** Writing a file keeps the directories: a path that led to a directory
    still does. *)
Lemma lookup_put_dir (c : list string) (t : node) (r : bool) (d : bytes)
      (acc : list string) :
  is_Dir (lookup t c) = false ->
  is_Dir (lookup t acc) = true ->
  is_Dir (lookup (put t c (File r d)) acc) = true.
Proof.
  revert t acc. induction c as [|n rest IH]; intros t acc Hc Ha.
  - cbn [lookup] in Hc. destruct t as [r0 d0|es]; [|discriminate].
    destruct acc; discriminate.
  - destruct t as [r0 d0|es]; [exact Ha|].
    cbn [put]. destruct rest as [|m rest].
    + destruct acc as [|a acc]; [reflexivity|].
      cbn [lookup] in *. rewrite dict_get_set.
      destruct (String.eqb_spec n a) as [->|Hne]; [|exact Ha].
      destruct (dict_get es a) as [ch|]; [|discriminate].
      cbn [lookup] in Hc. destruct acc as [|b acc].
      * cbn [lookup] in Ha. congruence.
      * destruct ch; cbn [lookup] in *; [discriminate|discriminate].
    + destruct (dict_get es n) as [ch|] eqn:E; [|exact Ha].
      destruct acc as [|a acc]; [reflexivity|].
      cbn [lookup] in *. rewrite dict_get_set.
      destruct (String.eqb_spec n a) as [->|Hne]; [|exact Ha].
      rewrite E in *. now apply IH.
Qed.

Lemma canon_put (c : list string) (t : node) (r : bool) (d : bytes)
      (ns acc x : list string) :
  is_Dir (lookup t c) = false ->
  canon t acc ns = Found x ->
  canon (put t c (File r d)) acc ns = Found x.
Proof.
  intros Hc. revert acc. induction ns as [|n ns IH]; intros acc H; [exact H|].
  cbn [canon] in *. destruct (String.eqb n "..").
  - pose proof (lookup_put_dir c t r d acc Hc) as P.
    destruct (lookup t acc) as [[r0 d0|es]| |]; try discriminate.
    specialize (P eq_refl).
    destruct (lookup (put t c (File r d)) acc) as [[r1 d1|es1]| |];
      try discriminate.
    now apply IH.
  - now apply IH.
Qed.

Lemma write_then_read (p : Path) (d : bytes) (w w' : world) :
  write_file false p d w = (Ok tt, w') ->
  (forall d0, stat w p <> Found (File false d0)) ->
  read_bytes p w' = (Ok d, w').
Proof.
  intros H Hr. unfold write_file in H. unfold stat in Hr.
  destruct (locate w p) as [c| |] eqn:Ec; try discriminate.
  destruct c as [|n c]; [discriminate|].
  destruct (lookup (root w) (removelast (n :: c))) as [[r0 d0|es]| |] eqn:Ep;
    try discriminate.
  assert (Hc : is_Dir (lookup (root w) (n :: c)) = false /\
               w' = set_root w (put (root w) (n :: c) (File true d))).
  { destruct (lookup (root w) (n :: c)) as [[[] d1|es1]| |];
      try discriminate; inversion H; subst; split; auto.
    exfalso. now apply (Hr d1). }
  destruct Hc as [Hc ->].
  unfold read_bytes, stat, locate in *. cbn [root cwd set_root].
  rewrite (canon_put (n :: c) (root w) true d _ _ _ Hc Ec).
  rewrite lookup_put_same; [reflexivity|discriminate|].
  now rewrite Ep.
Qed.

(** ** Metadata: saving and loading *)

Lemma universal_newlines_id (s : string) :
  all_chars not_cr s = true -> universal_newlines s = s.
Proof.
  induction s as [|c s IH]; cbn [all_chars universal_newlines]; auto.
  intros H. apply andb_true_iff in H as [Hc Hs].
  unfold not_cr in Hc. apply negb_true_iff in Hc. rewrite Hc.
  now rewrite IH.
Qed.

Lemma all_chars_app (f : ascii -> bool) (a b : string) :
  all_chars f (a ++ b) = (all_chars f a && all_chars f b)%bool.
Proof.
  induction a as [|c a IH]; cbn [all_chars append]; auto.
  now rewrite IH, andb_assoc.
Qed.

Lemma all_chars_join (f : ascii -> bool) (sep : string) (l : list string) :
  all_chars f sep = true -> Forall (fun x => all_chars f x = true) l ->
  all_chars f (join sep l) = true.
Proof.
  intros Hs F. induction F as [|x l Hx F IH]; [reflexivity|].
  destruct l as [|y l]; [exact Hx|].
  change (join sep (x :: y :: l)) with (x ++ sep ++ join sep (y :: l)).
  now rewrite !all_chars_app, Hx, Hs, IH.
Qed.

Lemma escape_no_cr (s : string) : all_chars not_cr (escape s) = true.
Proof.
  induction s as [|c s IH]; [reflexivity|].
  cbn [escape]. rewrite all_chars_app, IH, andb_true_r.
  destruct c as [[] [] [] [] [] [] [] []]; reflexivity.
Qed.

Lemma quote_no_cr (s : string) : all_chars not_cr (quote s) = true.
Proof.
  unfold quote. cbn [all_chars]. now rewrite all_chars_app, escape_no_cr.
Qed.

Lemma spaces_no_cr (n : nat) : all_chars not_cr (spaces n) = true.
Proof. induction n; auto. Qed.

Lemma newline_indent_no_cr (level : nat) :
  all_chars not_cr (newline_indent level) = true.
Proof. unfold newline_indent. cbn [all_chars]. now rewrite spaces_no_cr. Qed.

Lemma uint_no_cr (d : Decimal.uint) :
  all_chars not_cr (NilEmpty.string_of_uint d) = true.
Proof. induction d; simpl; auto. Qed.

Lemma str_of_Z_no_cr (z : Z) : all_chars not_cr (str_of_Z z) = true.
Proof.
  unfold str_of_Z. destruct (Z.to_int z) as [d|d]; cbn [NilZero.string_of_int].
  - destruct d; try reflexivity; apply uint_no_cr.
  - cbn [all_chars]. destruct d; try reflexivity; apply uint_no_cr.
Qed.

Lemma dumps_no_cr (v : pyval) :
  forall level, all_chars not_cr (dumps level v) = true.
Proof.
  induction v as [ |b|z|s|l IH|d IH] using pyval_nested_ind; intros level.
  - reflexivity.
  - now destruct b.
  - apply str_of_Z_no_cr.
  - apply quote_no_cr.
  - destruct l as [|x l]; [reflexivity|].
    change (dumps level (PList (x :: l)))
      with ("[" ++ newline_indent (S level)
            ++ join ("," ++ newline_indent (S level))
                    (map (dumps (S level)) (x :: l))
            ++ newline_indent level ++ "]").
    rewrite !all_chars_app, !newline_indent_no_cr, all_chars_join;
      [reflexivity|cbn [append all_chars]; now rewrite newline_indent_no_cr|].
    apply Forall_map. eapply Forall_impl; [|exact IH]. intros a Ha. apply Ha.
  - destruct d as [|kv d]; [reflexivity|].
    change (dumps level (PDict (kv :: d)))
      with ("{" ++ newline_indent (S level)
            ++ join ("," ++ newline_indent (S level))
                    (map (member level) (kv :: d))
            ++ newline_indent level ++ "}").
    rewrite !all_chars_app, !newline_indent_no_cr, all_chars_join;
      [reflexivity|cbn [append all_chars]; now rewrite newline_indent_no_cr|].
    apply Forall_map. eapply Forall_impl; [|exact IH]. intros a Ha.
    unfold member. rewrite !all_chars_app, quote_no_cr. now rewrite Ha.
Qed.

(** ** Texts: what is written can be decoded *)

Lemma utf8_from_fuel (f1 : nat) :
  forall bs f2, length bs < f1 -> length bs < f2 ->
                utf8_from f1 bs = utf8_from f2 bs.
Proof.
  induction f1 as [|f1 IH]; intros bs f2 H1 H2; [lia|].
  destruct f2 as [|f2]; [lia|].
  cbn [utf8_from].
  destruct bs as [|b0 [|b1 [|b2 [|b3 r]]]]; cbn [length] in *; try reflexivity;
    repeat match goal with
           | |- context [if ?c then _ else _] => destruct c
           end; try reflexivity;
    repeat first [reflexivity | apply IH; cbn [length]; lia | f_equal].
Qed.

Lemma utf8_valid_fuel (f : nat) (bs : bytes) :
  length bs < f -> utf8_from f bs = utf8_valid bs.
Proof. intros H. apply utf8_from_fuel; [exact H|lia]. Qed.

Lemma utf8_from_app (b : bytes) (Hb : utf8_valid b = true) (f : nat) :
  forall a g, utf8_from f a = true -> length (a ++ b)%list < g ->
              utf8_from g (a ++ b)%list = true.
Proof.
  induction f as [|f IH]; intros a g Ha Hg; [discriminate|].
  destruct a as [|b0 r0]; [now rewrite utf8_valid_fuel|].
  destruct g as [|g]; [lia|].
  cbn [utf8_from app length] in *.
  destruct (byte_in 0 127 b0).
  { apply (IH _ _ Ha). lia. }
  destruct r0 as [|b1 r1]; [discriminate|]. cbn [app length] in *.
  destruct (byte_in 194 223 b0).
  { apply andb_true_iff in Ha as [H1 Ha]. rewrite H1. cbn [andb].
    apply (IH _ _ Ha). lia. }
  destruct r1 as [|b2 r2]; [discriminate|]. cbn [app length] in *.
  destruct (byte_in 224 239 b0).
  { apply andb_true_iff in Ha as [H1 Ha]. rewrite H1. cbn [andb].
    apply (IH _ _ Ha). lia. }
  destruct r2 as [|b3 r3]; [discriminate|]. cbn [app length] in *.
  destruct (byte_in 240 244 b0); [|discriminate].
  apply andb_true_iff in Ha as [H1 Ha]. rewrite H1. cbn [andb].
  apply (IH _ _ Ha). lia.
Qed.

Lemma utf8_valid_app (a b : bytes) :
  utf8_valid a = true -> utf8_valid b = true -> utf8_valid (a ++ b)%list = true.
Proof.
  intros Ha Hb. unfold utf8_valid in *.
  apply (utf8_from_app b Hb _ _ _ Ha). lia.
Qed.

Lemma encode_utf8_app (a b : string) :
  encode_utf8 (a ++ b) = (encode_utf8 a ++ encode_utf8 b)%list.
Proof.
  unfold encode_utf8, list_byte_of_string.
  induction a as [|c a IH]; cbn [append list_ascii_of_string map app]; auto.
  now rewrite IH.
Qed.

Lemma is_text_app (a b : string) :
  is_text a = true -> is_text b = true -> is_text (a ++ b) = true.
Proof.
  unfold is_text. rewrite encode_utf8_app. apply utf8_valid_app.
Qed.

Lemma encode_utf8_String (c : ascii) (s : string) :
  encode_utf8 (String c s) = byte_of_ascii c :: encode_utf8 s.
Proof. reflexivity. Qed.

Lemma ascii_is_text (s : string) :
  all_chars is_ascii s = true -> is_text s = true.
Proof.
  induction s as [|c s IH]; [reflexivity|].
  cbn [all_chars]. intros H. apply andb_true_iff in H as [Hc Hs].
  unfold is_text, utf8_valid. rewrite encode_utf8_String.
  cbn [length utf8_from]. unfold is_ascii in Hc. rewrite Hc.
  apply (IH Hs).
Qed.

Lemma escape_char_ascii (c : ascii) :
  is_ascii c = true -> all_chars is_ascii (escape_char c) = true.
Proof. destruct c as [[] [] [] [] [] [] [] []]; intros H; try discriminate H; reflexivity. Qed.

Lemma escape_char_high (c : ascii) :
  (128 <= Byte.to_N (byte_of_ascii c))%N -> escape_char c = String c "".
Proof.
  destruct c as [[] [] [] [] [] [] [] []]; intros H; try reflexivity;
    exfalso; vm_compute in H; now apply H.
Qed.

Lemma byte_in_high (lo hi : N) (b : byte) :
  (128 <= lo)%N -> byte_in lo hi b = true -> (128 <= Byte.to_N b)%N.
Proof.
  unfold byte_in. intros H E. apply andb_true_iff in E as [E _].
  apply N.leb_le in E. lia.
Qed.

Ltac high_char H :=
  rewrite escape_char_high;
  [|first [ eapply byte_in_high; [|exact H]; lia
          | apply negb_true_iff, N.leb_gt in H; lia ]].

Lemma escape_text_from (f : nat) :
  forall s, utf8_from f (encode_utf8 s) = true -> is_text (escape s) = true.
Proof.
  induction f as [|f IH]; intros s H; [discriminate|].
  destruct s as [|c0 s0]; [reflexivity|].
  rewrite encode_utf8_String in H. cbn [utf8_from] in H.
  cbn [escape].
  destruct (byte_in 0 127 (byte_of_ascii c0)) eqn:E0.
  { apply is_text_app; [|apply (IH _ H)].
    apply ascii_is_text, escape_char_ascii, E0. }
  assert (H0 : (128 <= Byte.to_N (byte_of_ascii c0))%N).
  { unfold byte_in in E0.
    apply andb_false_iff in E0 as [E|E]; apply N.leb_gt in E; lia. }
  rewrite (escape_char_high c0 H0).
  destruct s0 as [|c1 s1]; [discriminate|].
  rewrite encode_utf8_String in H. cbn [escape].
  destruct (byte_in 194 223 (byte_of_ascii c0)) eqn:E1.
  { apply andb_true_iff in H as [H1 H]. high_char H1.
    unfold is_text, utf8_valid. cbn [append].
    remember (length _) as g eqn:Eg.
    rewrite !encode_utf8_String in *. cbn [utf8_from].
    rewrite E0, E1, H1. cbn [andb].
    rewrite utf8_valid_fuel by (subst g; cbn [length]; lia). apply (IH _ H). }
  destruct s1 as [|c2 s2]; [discriminate|].
  rewrite encode_utf8_String in H. cbn [escape].
  destruct (byte_in 224 239 (byte_of_ascii c0)) eqn:E2.
  { apply andb_true_iff in H as [H12 H].
    pose proof H12 as H12'. apply andb_true_iff in H12' as [H1 H2].
    assert (K1 : (128 <= Byte.to_N (byte_of_ascii c1))%N).
    { destruct (byte_in 224 224 (byte_of_ascii c0));
        [|destruct (byte_in 237 237 (byte_of_ascii c0))];
        (eapply byte_in_high; [|exact H1]; lia). }
    rewrite (escape_char_high c1 K1). high_char H2.
    unfold is_text, utf8_valid. cbn [append].
    remember (length _) as g eqn:Eg.
    rewrite !encode_utf8_String in *. cbn [utf8_from].
    rewrite E0, E1, E2, H12. cbn [andb].
    rewrite utf8_valid_fuel by (subst g; cbn [length]; lia). apply (IH _ H). }
  destruct s2 as [|c3 s3]; [discriminate|].
  rewrite encode_utf8_String in H. cbn [escape].
  destruct (byte_in 240 244 (byte_of_ascii c0)) eqn:E3; [|discriminate].
  apply andb_true_iff in H as [H123 H].
  pose proof H123 as H123'. apply andb_true_iff in H123' as [H12 H3].
  apply andb_true_iff in H12 as [H1 H2].
  assert (K1 : (128 <= Byte.to_N (byte_of_ascii c1))%N).
  { destruct (byte_in 240 240 (byte_of_ascii c0));
      [|destruct (byte_in 244 244 (byte_of_ascii c0))];
      (eapply byte_in_high; [|exact H1]; lia). }
  rewrite (escape_char_high c1 K1). high_char H2. high_char H3.
  unfold is_text, utf8_valid. cbn [append].
  remember (length _) as g eqn:Eg.
  rewrite !encode_utf8_String in *. cbn [utf8_from].
  rewrite E0, E1, E2, E3, H123. cbn [andb].
  rewrite utf8_valid_fuel by (subst g; cbn [length]; lia). apply (IH _ H).
Qed.

Lemma escape_text (s : string) : is_text s = true -> is_text (escape s) = true.
Proof. apply escape_text_from. Qed.

Lemma quote_text (s : string) : is_text s = true -> is_text (quote s) = true.
Proof.
  intros H. unfold quote.
  change (String dquote (escape s ++ String dquote ""))
    with (String dquote "" ++ escape s ++ String dquote "").
  apply is_text_app; [reflexivity|].
  apply is_text_app; [now apply escape_text|reflexivity].
Qed.

Lemma spaces_ascii (n : nat) : all_chars is_ascii (spaces n) = true.
Proof. induction n; auto. Qed.

Lemma newline_indent_text (level : nat) :
  is_text (newline_indent level) = true.
Proof.
  apply ascii_is_text. unfold newline_indent. cbn [all_chars].
  now rewrite spaces_ascii.
Qed.

Lemma uint_ascii (d : Decimal.uint) :
  all_chars is_ascii (NilEmpty.string_of_uint d) = true.
Proof. induction d; simpl; auto. Qed.

Lemma str_of_Z_text (z : Z) : is_text (str_of_Z z) = true.
Proof.
  apply ascii_is_text.
  unfold str_of_Z. destruct (Z.to_int z) as [d|d]; cbn [NilZero.string_of_int].
  - destruct d; try reflexivity; apply uint_ascii.
  - cbn [all_chars]. destruct d; try reflexivity; apply uint_ascii.
Qed.

Lemma join_text (sep : string) (l : list string) :
  is_text sep = true -> Forall (fun x => is_text x = true) l ->
  is_text (join sep l) = true.
Proof.
  intros Hs F. induction F as [|x l Hx F IH]; [reflexivity|].
  destruct l as [|y l]; [exact Hx|].
  change (join sep (x :: y :: l)) with (x ++ sep ++ join sep (y :: l)).
  now repeat apply is_text_app.
Qed.

Lemma dumps_text (v : pyval) :
  text_ok v = true -> forall level, is_text (dumps level v) = true.
Proof.
  induction v as [ |b|z|s|l IH|d IH] using pyval_nested_ind;
    intros Ht level.
  - reflexivity.
  - now destruct b.
  - apply str_of_Z_text.
  - now apply quote_text.
  - destruct l as [|x l]; [reflexivity|].
    change (dumps level (PList (x :: l)))
      with ("[" ++ newline_indent (S level)
            ++ join ("," ++ newline_indent (S level))
                    (map (dumps (S level)) (x :: l))
            ++ newline_indent level ++ "]").
    cbn [text_ok] in Ht. rewrite forallb_forall in Ht.
    rewrite Forall_forall in IH.
    repeat apply is_text_app;
      try reflexivity; try apply newline_indent_text.
    apply join_text;
      [apply is_text_app; [reflexivity|apply newline_indent_text]|].
    apply Forall_map, Forall_forall. intros a Ha. apply IH; auto.
  - destruct d as [|kv d]; [reflexivity|].
    change (dumps level (PDict (kv :: d)))
      with ("{" ++ newline_indent (S level)
            ++ join ("," ++ newline_indent (S level))
                    (map (member level) (kv :: d))
            ++ newline_indent level ++ "}").
    cbn [text_ok] in Ht. rewrite forallb_forall in Ht.
    rewrite Forall_forall in IH.
    repeat apply is_text_app;
      try reflexivity; try apply newline_indent_text.
    apply join_text;
      [apply is_text_app; [reflexivity|apply newline_indent_text]|].
    apply Forall_map, Forall_forall. intros a Ha.
    specialize (Ht a Ha). apply andb_true_iff in Ht as [Hk Hv].
    unfold member. apply is_text_app; [now apply quote_text|].
    apply is_text_app; [reflexivity|]. apply IH; auto.
Qed.

(** A document written and read back as text. *)
Lemma read_text_written (p : Path) (v : pyval) (w w' : world) :
  write_text p (json_dumps v) w = (Ok tt, w') ->
  (forall d0, stat w p <> Found (File false d0)) ->
  text_ok v = true ->
  read_text p w' = (Ok (json_dumps v), w').
Proof.
  intros H Hr Ht.
  pose proof (dumps_text v Ht 0) as Hu. unfold is_text in Hu.
  fold (json_dumps v) in Hu.
  unfold write_text, write_bytes in H.
  unfold read_text, bind. rewrite (write_then_read _ _ _ _ H Hr).
  unfold decode_utf8. rewrite Hu. unfold encode_utf8.
  rewrite string_of_list_byte_of_string. unfold ret.
  now rewrite universal_newlines_id by apply dumps_no_cr.
Qed.

Lemma variables_of_items_to_dict (items acc : dict TemplateVariable.t) :
  Forall (fun kv => String.eqb (fst kv) (TemplateVariable.name (snd kv)) = true)
         items ->
  distinct (map fst (acc ++ items)) = true ->
  TemplateMetadata.variables_of_items
    (map (fun kv => (fst kv, TemplateVariable.to_dict (snd kv))) items) acc =
  Ok (acc ++ items)%list.
Proof.
  intros F. revert acc. induction F as [|[k var] items Hk F IH]; intros acc Hd.
  - cbn [map TemplateMetadata.variables_of_items]. now rewrite app_nil_r.
  - cbn [map fst snd TemplateMetadata.variables_of_items] in *.
    apply String.eqb_eq in Hk. subst k.
    rewrite map_app in Hd. cbn [map fst] in Hd.
    apply distinct_app_cons in Hd as [Hk Hd].
    unfold TemplateVariable.to_dict.
    cbn [py_get dict_get rbind]. simpl String.eqb. cbn [rbind].
    rewrite dict_set_fresh by assumption.
    rewrite IH.
    + rewrite <- app_assoc. cbn [app]. now destruct var.
    + rewrite !map_app. cbn [map fst]. destruct var. exact Hd.
Qed.

Lemma flat_map_nil {A B} (f : A -> list B) (l : list A) :
  flat_map f l = [] -> Forall (fun x => f x = []) l.
Proof.
  induction l as [|x l IH]; cbn [flat_map]; intros H; constructor;
    apply app_eq_nil in H as [H1 H2]; auto.
Qed.

Lemma validate_nil (M : TemplateMetadata.t) :
  TemplateMetadata.validate M = [] ->
  truthy (TemplateMetadata.name M) = true /\
  truthy (TemplateMetadata.version M) = true /\
  Forall (fun kv => String.eqb (fst kv) (TemplateVariable.name (snd kv)) = true)
         (TemplateMetadata.variables M).
Proof.
  unfold TemplateMetadata.validate. intros H.
  apply app_eq_nil in H as [H1 H]. apply app_eq_nil in H as [H2 H3].
  repeat split.
  - destruct (truthy (TemplateMetadata.name M)); [auto|discriminate].
  - destruct (truthy (TemplateMetadata.version M)); [auto|discriminate].
  - apply flat_map_nil in H3. eapply Forall_impl; [|exact H3].
    intros [k var] E. cbn [fst snd] in *.
    destruct (String.eqb k (TemplateVariable.name var)); [auto|discriminate].
Qed.

Lemma of_data_to_dict (now : string) (M : TemplateMetadata.t) :
  Forall (fun kv => String.eqb (fst kv) (TemplateVariable.name (snd kv)) = true)
         (TemplateMetadata.variables M) ->
  distinct (map fst (TemplateMetadata.variables M)) = true ->
  TemplateMetadata.of_data now (TemplateMetadata.to_dict M) =
  Ok (TemplateMetadata.new now
        (TemplateMetadata.version M) (TemplateMetadata.name M)
        (TemplateMetadata.description M) (TemplateMetadata.author M)
        (TemplateMetadata.created_at M) (TemplateMetadata.prozes_version M)
        (TemplateMetadata.variables M) (TemplateMetadata.dependencies M)
        (TemplateMetadata.variable_substitution M)
        (TemplateMetadata.file_patterns M)).
Proof.
  intros F D. unfold TemplateMetadata.of_data, TemplateMetadata.to_dict.
  cbn [py_get dict_get rbind py_items]. simpl String.eqb.
  cbn [rbind py_items].
  rewrite (variables_of_items_to_dict _ [] F D). reflexivity.
Qed.

Lemma truthy_default (v dflt : pyval) :
  truthy dflt = true -> truthy (if truthy v then v else dflt) = true.
Proof. intros H. destruct (truthy v) eqn:E; auto. Qed.

(** C3. Take a metadata object [M] as the constructor builds it, which
    passes [validate], whose dicts have each key once and whose strs are
    texts.  When [save] writes it to a path that is not an unreadable
    file, [from_json] on that path succeeds and gives an object with the
    same name, version, variables (names, types, required flags, defaults
    and descriptions), dependencies and the same keys of
    [variable_substitution] and [file_patterns]. *)
Theorem metadata_save_load :
  forall (now : string)
         (version name description author created_at prozes_version : pyval)
         (variables : dict TemplateVariable.t)
         (dependencies variable_substitution file_patterns : pyval)
         (path : Path) (w w' : world),
    let M := TemplateMetadata.new now version name description author
               created_at prozes_version variables dependencies
               variable_substitution file_patterns in
    TemplateMetadata.validate M = [] ->
    keys_ok (TemplateMetadata.to_dict M) = true ->
    text_ok (TemplateMetadata.to_dict M) = true ->
    (forall d, stat w path <> Found (File false d)) ->
    TemplateMetadata.save M path w = (Ok tt, w') ->
    exists M',
      TemplateMetadata.from_json path w' = (Ok M', w') /\
      TemplateMetadata.name M' = TemplateMetadata.name M /\
      TemplateMetadata.version M' = TemplateMetadata.version M /\
      TemplateMetadata.variables M' = TemplateMetadata.variables M /\
      TemplateMetadata.dependencies M' = TemplateMetadata.dependencies M /\
      keys_of (TemplateMetadata.variable_substitution M') =
      keys_of (TemplateMetadata.variable_substitution M) /\
      keys_of (TemplateMetadata.file_patterns M') =
      keys_of (TemplateMetadata.file_patterns M).
Proof.
  intros now version name description author created_at prozes_version
         variables dependencies variable_substitution file_patterns path w w'
         M Hv Hk Hu Hr Hs.
  destruct (validate_nil M Hv) as (_ & _ & HF).
  assert (HD : distinct (map fst (TemplateMetadata.variables M)) = true).
  { unfold TemplateMetadata.to_dict in Hk. cbn [keys_ok forallb snd] in Hk.
    repeat (apply andb_true_iff in Hk as [? Hk]).
    repeat match goal with
           | H : (_ && _)%bool = true |- _ => apply andb_true_iff in H as [? ?]
           end.
    rewrite map_map in *. cbn [fst] in *. 
    match goal with
    | H : distinct (map _ (TemplateMetadata.variables M)) = true |- _ =>
        erewrite map_ext; [exact H|]; reflexivity
    end. }
  unfold TemplateMetadata.save in Hs.
  unfold TemplateMetadata.from_json, bind, lift, gets.
  rewrite (read_text_written _ _ _ _ Hs Hr Hu).
  rewrite (json_loads_dumps _ Hk).
  rewrite (of_data_to_dict _ M HF HD).
  eexists. split; [reflexivity|].
  unfold M, TemplateMetadata.new, TemplateMetadata.post_init.
  cbn [TemplateMetadata.name TemplateMetadata.version
       TemplateMetadata.variables TemplateMetadata.dependencies
       TemplateMetadata.variable_substitution TemplateMetadata.file_patterns].
  repeat split.
  - now rewrite truthy_default.
  - now rewrite truthy_default.
Qed.

Lemma metadata_save_load_witness :
  let w := example_world [("tpl", Dir [])] [] in
  let path := mkPath true ["home"; "u"; ".prozes"; "templates"; "tpl";
                           "template.json"] in
  let M := Template.metadata
             (example_template [("db_host", db_host (PStr "localhost"))]) in
  exists M',
    TemplateMetadata.from_json path (snd (TemplateMetadata.save M path w)) =
    (Ok M', snd (TemplateMetadata.save M path w)) /\
    TemplateMetadata.name M' = PStr "tpl" /\
    TemplateMetadata.variables M' = [("db_host", db_host (PStr "localhost"))].
Proof.
  intros w path M.
  destruct (metadata_save_load "2026-11-04T10:00:00" (PStr "1.0") (PStr "tpl")
              (PStr "") (PStr "") (PStr "") (PStr "1.0.0")
              [("db_host", db_host (PStr "localhost"))]
              (PDict []) (PDict []) (PDict []) path w
              (snd (TemplateMetadata.save M path w)))
    as (M' & H & Hn & _ & Hv & _).
  - reflexivity.
  - vm_compute. reflexivity.
  - vm_compute. reflexivity.
  - intros d. vm_compute. discriminate.
  - vm_compute. reflexivity.
  - exists M'. split; [exact H|]. split; [exact Hn|exact Hv].
Defined.

(** ** What the operations leave unchanged *)

Section Frames.

Variable R : world -> world -> Prop.
Hypothesis R_refl : forall w, R w w.
Hypothesis R_trans : forall a b c, R a b -> R b c -> R a c.

Lemma preserves_ret {A} (a : A) : preserves R (ret a).
Proof. intros w. apply R_refl. Qed.

Lemma preserves_raise {A} (e : exn) : preserves R (@raise A e).
Proof. intros w. apply R_refl. Qed.

Lemma preserves_gets {A} (f : world -> A) : preserves R (gets f).
Proof. intros w. apply R_refl. Qed.

Lemma preserves_lift {A} (r : result A) : preserves R (lift r).
Proof. intros w. apply R_refl. Qed.

Lemma preserves_bind {A B} (c : M A) (k : A -> M B) :
  preserves R c -> (forall a, preserves R (k a)) -> preserves R (bind c k).
Proof.
  intros Hc Hk w. unfold bind. specialize (Hc w).
  destruct (c w) as [[a|e] w1]; cbn [snd] in *; auto.
  eapply R_trans; [exact Hc|apply Hk].
Qed.

Lemma preserves_try_except {A} (c : M A) (handled : exn -> bool)
      (h : exn -> M A) :
  preserves R c -> (forall e, preserves R (h e)) ->
  preserves R (try_except c handled h).
Proof.
  intros Hc Hh w. unfold try_except. specialize (Hc w).
  destruct (c w) as [[a|e] w1]; cbn [snd] in *; auto.
  destruct (handled e); cbn [snd]; auto.
  eapply R_trans; [exact Hc|apply Hh].
Qed.

Lemma preserves_for_each {A} (l : list A) (body : A -> M unit) :
  (forall x, preserves R (body x)) -> preserves R (for_each l body).
Proof.
  intros Hb. induction l as [|x l IH]; cbn [for_each].
  - apply preserves_ret.
  - apply preserves_bind; auto.
Qed.

Lemma preserves_when (b : bool) (c : M unit) :
  preserves R c -> preserves R (when b c).
Proof. intros Hc. destruct b; [exact Hc|apply preserves_ret]. Qed.

End Frames.

Lemma same_env_refl (w : world) : same_env w w.
Proof. repeat split. Qed.

Lemma same_env_trans (a b c : world) :
  same_env a b -> same_env b c -> same_env a c.
Proof. unfold same_env. intuition congruence. Qed.

Lemma extends_refl (t : node) : extends t t.
Proof. intros acc. destruct (lookup t acc) as [[r d|es]| |]; auto. Qed.

Lemma extends_trans (a b c : node) : extends a b -> extends b c -> extends a c.
Proof.
  intros H1 H2 acc. specialize (H1 acc). specialize (H2 acc).
  destruct (lookup a acc) as [[r d|es]| |]; auto.
  - now rewrite H1 in H2.
  - destruct (lookup b acc) as [[r d|es']| |]; try discriminate. exact H2.
Qed.

Lemma grows_refl (w : world) : grows w w.
Proof. split; [apply same_env_refl|apply extends_refl]. Qed.

Lemma grows_trans (a b c : world) : grows a b -> grows b c -> grows a c.
Proof.
  intros [E1 X1] [E2 X2]. split.
  - eapply same_env_trans; eauto.
  - eapply extends_trans; eauto.
Qed.

Lemma same_env_set_root (w : world) (t : node) : same_env w (set_root w t).
Proof. repeat split. Qed.

(** Making a node where there was none keeps what was there. *)
Lemma extends_put_fresh (c : list string) (t new : node) :
  (forall x, lookup t c <> Found x) -> extends t (put t c new).
Proof.
  revert t. induction c as [|n rest IH]; intros t Hc acc.
  - exfalso. now apply (Hc t).
  - destruct t as [r0 d0|es]; [apply extends_refl|].
    cbn [put]. destruct rest as [|m rest].
    + destruct acc as [|a acc]; [reflexivity|].
      cbn [lookup]. rewrite dict_get_set.
      destruct (String.eqb_spec n a) as [->|Hne].
      * destruct (dict_get es a) as [ch|] eqn:E; [|exact I].
        exfalso. apply (Hc ch). cbn [lookup]. now rewrite E.
      * destruct (dict_get es a) as [ch|]; [|exact I].
        destruct (lookup ch acc) as [[r d|es']| |]; auto.
    + destruct (dict_get es n) as [ch|] eqn:E; [|apply extends_refl].
      destruct acc as [|a acc]; [reflexivity|].
      cbn [lookup]. rewrite dict_get_set.
      destruct (String.eqb_spec n a) as [->|Hne].
      * rewrite E. apply IH. intros x Hx. apply (Hc x).
        cbn [lookup]. now rewrite E.
      * destruct (dict_get es a) as [ch'|]; [|exact I].
        destruct (lookup ch' acc) as [[r d|es']| |]; auto.
Qed.

Lemma canon_extends (t t' : node) (ns acc x : list string) :
  extends t t' -> canon t acc ns = Found x -> canon t' acc ns = Found x.
Proof.
  intros Hx. revert acc. induction ns as [|n ns IH]; intros acc H; [exact H|].
  cbn [canon] in *. destruct (String.eqb n "..").
  - specialize (Hx acc).
    destruct (lookup t acc) as [[r0 d0|es]| |]; try discriminate.
    destruct (lookup t' acc) as [[r1 d1|es1]| |]; try discriminate.
    now apply IH.
  - now apply IH.
Qed.

Lemma stat_grows (w w' : world) (p : Path) (r : bool) (d : bytes) :
  grows w w' -> stat w p = Found (File r d) -> stat w' p = Found (File r d).
Proof.
  intros [(Hc & _) Hx]. unfold stat, locate. rewrite Hc.
  destruct (canon (root w) (if absolute p then [] else cwd w) (names p))
    as [c| |] eqn:E; try discriminate.
  rewrite (canon_extends _ _ _ _ _ Hx E). intros H.
  specialize (Hx c). now rewrite H in Hx.
Qed.

Lemma os_mkdir_grows (p : Path) : preserves grows (os_mkdir p).
Proof.
  intros w. unfold os_mkdir.
  destruct (locate w p) as [[|n c]| |]; try apply grows_refl.
  destruct (lookup (root w) (removelast (n :: c))) as [[r d|es]| |];
    try apply grows_refl.
  destruct (lookup (root w) (n :: c)) as [x| |] eqn:E; try apply grows_refl;
    (split; [apply same_env_set_root|]); cbn [snd set_root root];
    apply extends_put_fresh; intros y; congruence.
Qed.

Lemma mkdir_one_grows (p : Path) (exist_ok : bool) :
  preserves grows (mkdir_one p exist_ok).
Proof.
  intros w. unfold mkdir_one. pose proof (os_mkdir_grows p w) as H.
  destruct (os_mkdir p w) as [[a|e] w']; cbn [snd] in *; auto.
  destruct (is_FileNotFoundError e); auto.
  destruct (exist_ok && is_dir w' p)%bool; auto.
Qed.

Lemma mkdir_parents_from_grows (fuel : nat) (p : Path) (exist_ok : bool) :
  preserves grows (mkdir_parents_from fuel p exist_ok).
Proof.
  revert p exist_ok. induction fuel as [|fuel IH]; intros p exist_ok w;
    cbn [mkdir_parents_from]; pose proof (os_mkdir_grows p w) as H;
    destruct (os_mkdir p w) as [[a|e] w']; cbn [snd] in *; auto;
    destruct (is_FileNotFoundError e); auto;
    try (destruct (exist_ok && is_dir w' p)%bool; auto; fail).
  - destruct (names p); auto.
  - destruct (names p); auto.
    eapply grows_trans; [exact H|].
    apply (preserves_bind grows grows_trans); auto.
    intros _. apply mkdir_one_grows.
Qed.

Lemma mkdir_parents_grows (p : Path) (exist_ok : bool) :
  preserves grows (mkdir_parents p exist_ok).
Proof. apply mkdir_parents_from_grows. Qed.

Lemma get_templates_directory_grows : preserves grows get_templates_directory.
Proof.
  unfold get_templates_directory.
  apply (preserves_bind grows grows_trans).
  - apply preserves_gets, grows_refl.
  - intros h. apply (preserves_bind grows grows_trans).
    + apply mkdir_parents_grows.
    + intros _. apply preserves_ret, grows_refl.
Qed.

Lemma grows_same_env {A} (c : M A) : preserves grows c -> preserves same_env c.
Proof. intros H w. apply H. Qed.

Lemma unchanged_preserves (R : world -> world -> Prop) {A} (c : M A) :
  (forall w, R w w) -> (forall w, snd (c w) = w) -> preserves R c.
Proof. intros HR H w. rewrite H. apply HR. Qed.

Lemma console_print_grows (s : string) : preserves grows (console_print s).
Proof. intros w. split; [repeat split|apply extends_refl]. Qed.

Lemma print_info_t_grows (key : string) : preserves grows (print_info_t key).
Proof. intros w. apply console_print_grows. Qed.

Lemma print_success_t_grows (key : string) :
  preserves grows (print_success_t key).
Proof. intros w. apply console_print_grows. Qed.

Lemma write_file_env (chmod : bool) (p : Path) (d : bytes) :
  preserves same_env (write_file chmod p d).
Proof.
  intros w. unfold write_file.
  destruct (locate w p) as [[|n c]| |]; try apply same_env_refl.
  destruct (lookup (root w) (removelast (n :: c))) as [[r0 d0|es]| |];
    try apply same_env_refl.
  destruct (lookup (root w) (n :: c)) as [[r1 d1|es1]| |];
    try apply same_env_refl; apply same_env_set_root.
Qed.

Lemma read_text_env (p : Path) : preserves same_env (read_text p).
Proof.
  apply unchanged_preserves; [apply same_env_refl|]. apply read_text_world.
Qed.

Lemma read_bytes_env (p : Path) : preserves same_env (read_bytes p).
Proof.
  apply unchanged_preserves; [apply same_env_refl|]. apply read_bytes_world.
Qed.

Lemma copy2_env (src dst : Path) : preserves same_env (copy2 src dst).
Proof.
  intros w. unfold copy2.
  destruct (samefile w src _); [apply same_env_refl|].
  apply (preserves_bind same_env same_env_trans).
  - apply read_bytes_env.
  - intros d. apply write_file_env.
Qed.

Lemma copy_item_env (source_path structure_path : Path) (scan : scan_result)
      (verbose : bool) (file_path : Path) :
  preserves same_env
            (copy_item source_path structure_path scan verbose file_path).
Proof.
  unfold copy_item.
  apply (preserves_bind same_env same_env_trans).
  - apply grows_same_env, mkdir_parents_grows.
  - intros _. apply (preserves_try_except same_env same_env_trans).
    + apply (preserves_bind same_env same_env_trans).
      * destruct (path_in file_path (text_files scan)).
        -- apply (preserves_bind same_env same_env_trans).
           ++ apply read_text_env.
           ++ intros content. apply write_file_env.
        -- apply copy2_env.
      * intros _. apply (preserves_when same_env same_env_refl).
        apply grows_same_env, console_print_grows.
    + intros e. apply grows_same_env, console_print_grows.
Qed.

(** Inversion of a successful sequence. *)
Lemma bind_Ok {A B} (c : M A) (k : A -> M B) (w w' : world) (b : B) :
  bind c k w = (Ok b, w') ->
  exists a w1, c w = (Ok a, w1) /\ k a w1 = (Ok b, w').
Proof.
  unfold bind. destruct (c w) as [[a|e] w1]; [eauto|discriminate].
Qed.

Lemma preserves_run (R : world -> world -> Prop) {A} (c : M A)
      (w w' : world) (r : result A) :
  preserves R c -> c w = (r, w') -> R w w'.
Proof. intros H E. specialize (H w). now rewrite E in H. Qed.

Lemma get_templates_directory_value (w w' : world) (d : Path) :
  get_templates_directory w = (Ok d, w') ->
  d = joinpath (joinpath (mkPath true (home w)) ".prozes") "templates".
Proof.
  unfold get_templates_directory, bind, gets, ret.
  destruct (mkdir_parents _ true w) as [[[]|e] w1]; [|discriminate].
  now intros [= <- _].
Qed.

Lemma extract_from_world (source_path : Path) (dep_files : list string)
      (deps : dict string) (w : world) :
  exists r, extract_from source_path dep_files deps w = (Ok r, w).
Proof.
  revert deps. induction dep_files as [|f l IH]; intros deps.
  - eexists. reflexivity.
  - cbn [extract_from]. unfold bind, gets. apply IH.
Qed.

Lemma write_then_stat (chmod : bool) (p : Path) (d : bytes) (w w' : world) :
  write_file chmod p d w = (Ok tt, w') ->
  exists r, stat w' p = Found (File r d).
Proof.
  intros H. unfold write_file in H.
  destruct (locate w p) as [c| |] eqn:Ec; try discriminate.
  destruct c as [|n c]; [discriminate|].
  destruct (lookup (root w) (removelast (n :: c))) as [[r0 d0|es]| |] eqn:Ep;
    try discriminate.
  assert (Hc : is_Dir (lookup (root w) (n :: c)) = false /\
               exists r, w' = set_root w (put (root w) (n :: c) (File r d))).
  { destruct (lookup (root w) (n :: c)) as [[r1 d1|es1]| |];
      try discriminate; inversion H; subst;
      (split; [reflexivity|eexists; reflexivity]). }
  destruct Hc as [Hc [r ->]]. exists r.
  unfold stat, locate in *. cbn [root cwd set_root].
  rewrite (canon_put (n :: c) (root w) r d _ _ _ Hc Ec).
  apply lookup_put_same; [discriminate|]. now rewrite Ep.
Qed.

(** ** Capture *)

Lemma add_detected_get (detected : list string)
      (variables : dict TemplateVariable.t) (n : string) :
  dict_get (add_detected detected variables) n =
  match dict_get variables n with
  | Some v => Some v
  | None => if str_in n detected then Some (detected_variable n) else None
  end.
Proof.
  revert variables. induction detected as [|x l IH]; intros variables.
  - cbn [add_detected str_in]. now destruct (dict_get variables n).
  - cbn [add_detected str_in]. rewrite IH. unfold dict_contains.
    destruct (dict_get variables x) as [vx|] eqn:Ex.
    + destruct (dict_get variables n) as [vn|] eqn:En; auto.
      destruct (String.eqb_spec x n) as [->|Hne]; [congruence|reflexivity].
    + rewrite dict_get_set.
      destruct (String.eqb_spec x n) as [->|Hne].
      * now rewrite Ex.
      * reflexivity.
Qed.

Lemma add_detected_Forall (P : string * TemplateVariable.t -> Prop)
      (detected : list string) (variables : dict TemplateVariable.t) :
  (forall n, P (n, detected_variable n)) ->
  Forall P variables -> Forall P (add_detected detected variables).
Proof.
  intros Hd. revert variables.
  induction detected as [|x l IH]; intros variables F; [exact F|].
  cbn [add_detected]. apply IH. unfold dict_contains.
  destruct (dict_get variables x) eqn:E; [exact F|].
  clear IH. induction F as [|[k' v'] d Hx F IH']; cbn [dict_set].
  - constructor; auto.
  - cbn [dict_get] in E. destruct (String.eqb k' x); [discriminate|].
    constructor; auto.
Qed.

Lemma str_in_app (x : string) (a b : list string) :
  str_in x (a ++ b) = (str_in x a || str_in x b)%bool.
Proof.
  induction a as [|y a IH]; cbn [str_in app]; auto.
  now rewrite IH, orb_assoc.
Qed.

Lemma distinct_snoc (l : list string) (k : string) :
  distinct l = true -> str_in k l = false -> distinct (l ++ [k]) = true.
Proof.
  induction l as [|x l IH]; cbn [distinct app str_in]; auto.
  intros H1 H2. apply andb_true_iff in H1 as [Hx Hl].
  apply orb_false_iff in H2 as [Hk Hkl].
  rewrite IH by assumption. rewrite str_in_app. cbn [str_in].
  apply negb_true_iff in Hx. rewrite Hx, orb_false_r.
  rewrite String.eqb_sym in Hk. now rewrite Hk.
Qed.

Lemma str_in_keys {A} (d : dict A) (k : string) :
  str_in k (map fst d) = dict_contains d k.
Proof.
  unfold dict_contains. induction d as [|[k' v] d IH]; cbn [map fst str_in dict_get]; auto.
  destruct (String.eqb k' k); auto.
Qed.

Lemma dict_set_distinct {A} (d : dict A) (k : string) (v : A) :
  distinct (map fst d) = true -> distinct (map fst (dict_set d k v)) = true.
Proof.
  intros H. pose proof (dict_keys_set d k v) as E. unfold dict_keys in E.
  rewrite E. destruct (dict_contains d k) eqn:C; auto.
  apply distinct_snoc; auto. now rewrite str_in_keys.
Qed.

Lemma add_detected_distinct (detected : list string)
      (variables : dict TemplateVariable.t) :
  distinct (map fst variables) = true ->
  distinct (map fst (add_detected detected variables)) = true.
Proof.
  revert variables. induction detected as [|x l IH]; intros variables H;
    [exact H|].
  cbn [add_detected]. apply IH.
  destruct (dict_contains variables x); auto. now apply dict_set_distinct.
Qed.

Lemma distinct_NoDup (l : list string) : distinct l = true -> NoDup l.
Proof.
  induction l as [|x l IH]; cbn [distinct]; intros H; constructor;
    apply andb_true_iff in H as [H1 H2]; auto.
  apply negb_true_iff in H1. intros I. apply str_in_In in I. congruence.
Qed.

Lemma extract_from_distinct (source_path : Path) (dep_files : list string)
      (deps r : dict string) (w w' : world) :
  distinct (map fst deps) = true ->
  extract_from source_path dep_files deps w = (Ok r, w') ->
  distinct (map fst r) = true.
Proof.
  revert deps. induction dep_files as [|f l IH]; intros deps H.
  - cbn [extract_from]. unfold ret. now intros [= <- _].
  - cbn [extract_from]. unfold bind, gets. apply IH.
    destruct (path_exists w _); auto. now apply dict_set_distinct.
Qed.

Lemma from_json_written (path : Path) (doc : pyval) (w w' : world)
      (M' : TemplateMetadata.t) (r : bool) :
  stat w path = Found (File r (encode_utf8 (json_dumps doc))) ->
  keys_ok doc = true ->
  TemplateMetadata.from_json path w = (Ok M', w') ->
  TemplateMetadata.of_data (now_iso w) doc = Ok M'.
Proof.
  intros Hs Hk. unfold TemplateMetadata.from_json, read_text, bind, read_bytes.
  rewrite Hs. destruct r; [|discriminate].
  unfold decode_utf8. destruct (utf8_valid _); [|discriminate].
  unfold encode_utf8. rewrite string_of_list_byte_of_string.
  unfold ret, lift, gets.
  rewrite universal_newlines_id by apply dumps_no_cr.
  rewrite (json_loads_dumps _ Hk).
  destruct (TemplateMetadata.of_data (now_iso w) doc); [|discriminate].
  now intros [= <- _].
Qed.

Lemma load_Ok (name : string) (w w' : world) (tpl : Template.t) :
  Template.load name w = (Ok tpl, w') ->
  exists dir w1,
    get_templates_directory w = (Ok dir, w1) /\
    TemplateMetadata.from_json
      (joinpath (joinpath dir name) "template.json") w1 =
    (Ok (Template.metadata tpl), w').
Proof.
  unfold Template.load. intros H.
  apply bind_Ok in H as (dir & w1 & Hd & H). exists dir, w1. split; auto.
  unfold bind, gets in H. cbv beta iota in H.
  destruct (path_exists w1 (joinpath dir name)); [|discriminate].
  cbv beta iota delta [negb] in H.
  destruct (path_exists w1 (joinpath (joinpath dir name) "template.json"));
    [|discriminate].
  cbv beta iota delta [negb] in H.
  destruct (path_exists w1 (joinpath (joinpath dir name) "structure"));
    [|discriminate].
  cbv beta iota delta [negb] in H.
  destruct (TemplateMetadata.from_json _ w1) as [[M'|e] w2]; [|discriminate].
  destruct (TemplateMetadata.validate M'); [|discriminate].
  unfold ret in H. now inversion H.
Qed.

Lemma capture_variables_names (detect : bool) (detected : list string) :
  Forall (fun kv => String.eqb (fst kv) (TemplateVariable.name (snd kv)) = true)
         (capture_variables detect detected).
Proof.
  unfold capture_variables. destruct detect.
  - apply add_detected_Forall.
    + intros n. apply String.eqb_refl.
    + repeat constructor.
  - repeat constructor.
Qed.

Lemma capture_variables_distinct (detect : bool) (detected : list string) :
  distinct (map fst (capture_variables detect detected)) = true.
Proof.
  unfold capture_variables. destruct detect; [|reflexivity].
  now apply add_detected_distinct.
Qed.

Lemma capture_variables_keys_ok (detect : bool) (detected : list string) :
  Forall (fun kv => keys_ok (TemplateVariable.to_dict (snd kv)) = true)
         (capture_variables detect detected).
Proof.
  unfold capture_variables. destruct detect.
  - apply add_detected_Forall.
    + intros n. reflexivity.
    + repeat constructor.
  - repeat constructor.
Qed.

Lemma forallb_map_Forall {A B} (f : A -> B) (p : B -> bool) (l : list A) :
  Forall (fun x => p (f x) = true) l -> forallb p (map f l) = true.
Proof.
  intros F. induction F as [|x l Hx F IH]; cbn [map forallb]; auto.
  now rewrite Hx, IH.
Qed.

(** The document [create_template_from_directory] writes has each key
    once. *)
Lemma capture_document_keys_ok (now template_name description author : string)
      (detect : bool) (detected : list string) (deps : dict string) :
  distinct (map fst deps) = true ->
  keys_ok
    (TemplateMetadata.to_dict
       (TemplateMetadata.new now (PStr TEMPLATE_VERSION) (PStr template_name)
          (PStr description) (PStr author) (PStr "") (PStr "1.0.0")
          (capture_variables detect detected)
          (PDict (map (fun kv => (fst kv, PStr (snd kv))) deps))
          (PDict []) (PDict []))) = true.
Proof.
  intros Hd.
  unfold TemplateMetadata.to_dict, TemplateMetadata.new,
    TemplateMetadata.post_init.
  cbn [TemplateMetadata.version TemplateMetadata.name
       TemplateMetadata.description TemplateMetadata.author
       TemplateMetadata.created_at TemplateMetadata.prozes_version
       TemplateMetadata.variables TemplateMetadata.dependencies
       TemplateMetadata.variable_substitution TemplateMetadata.file_patterns
       truthy].
  cbn [keys_ok forallb snd map fst]. 
  assert (K1 : keys_ok (TemplateMetadata.default_variable_substitution) = true)
    by reflexivity.
  assert (K2 : keys_ok (TemplateMetadata.default_file_patterns) = true)
    by reflexivity.
  rewrite K1, K2.
  rewrite !map_map. cbn [fst snd].
  assert (E1 : map (fun x : string * TemplateVariable.t => fst x)
                   (capture_variables detect detected)
               = map fst (capture_variables detect detected)) by reflexivity.
  rewrite E1, capture_variables_distinct.
  assert (E2 : map (fun x : string * string => fst x) deps = map fst deps)
    by reflexivity.
  rewrite E2, Hd.
  rewrite (forallb_map_Forall _ (fun kv => keys_ok (snd kv))).
  2:{ cbn [snd]. apply capture_variables_keys_ok. }
  rewrite (forallb_map_Forall _ (fun kv => keys_ok (snd kv))).
  2:{ cbn [snd]. clear. induction deps; constructor; auto. }
  destruct (match PStr "" with PStr s => negb (String.eqb s "") | _ => false end);
    reflexivity.
Qed.

Lemma make_template_dirs_value (template_name : string) (w w' : world)
      (dirs : Path * Path) :
  make_template_dirs template_name w = (Ok dirs, w') ->
  fst dirs =
  joinpath (joinpath (joinpath (mkPath true (home w)) ".prozes") "templates")
           template_name.
Proof.
  unfold make_template_dirs. intros H.
  apply bind_Ok in H as (dir & w1 & Hd & H).
  apply get_templates_directory_value in Hd. subst dir.
  apply bind_Ok in H as ([] & w2 & _ & H).
  apply bind_Ok in H as ([] & w3 & _ & H).
  unfold ret in H. now inversion H.
Qed.

Lemma make_template_dirs_grows (template_name : string) :
  preserves grows (make_template_dirs template_name).
Proof.
  unfold make_template_dirs.
  apply (preserves_bind grows grows_trans);
    [apply get_templates_directory_grows|intros dir].
  apply (preserves_bind grows grows_trans);
    [apply mkdir_parents_grows|intros _].
  apply (preserves_bind grows grows_trans);
    [apply mkdir_one_grows|intros _].
  apply preserves_ret, grows_refl.
Qed.

Lemma capture_variables_get (detect : bool) (detected : list string)
      (n : string) :
  dict_get (capture_variables detect detected) n =
  if String.eqb "project_name" n then Some project_name_variable
  else if String.eqb "author" n then Some author_variable
  else if (detect && str_in n detected)%bool then Some (detected_variable n)
  else None.
Proof.
  unfold capture_variables.
  change (dict_set (dict_set [] "project_name" project_name_variable)
                   "author" author_variable)
    with [("project_name", project_name_variable);
          ("author", author_variable)].
  destruct detect; [rewrite add_detected_get|]; cbn [dict_get andb];
    destruct (String.eqb "project_name" n); try reflexivity;
    destruct (String.eqb "author" n); reflexivity.
Qed.

(** C9. When [create_template_from_directory] succeeds, the variables of
    the template it returns (read back from the metadata file it wrote)
    have each name once and are: [project_name], a required string without
    default; [author], an optional string with the default "Anonymous"; and,
    when detection is enabled, for every other name in the set the scan
    detected in the text files, an optional string variable without
    default.  Nothing else is declared.  The scan is the one taken once the
    directories of the template exist. *)
Theorem capture_variable_set :
  forall (source_path : Path) (template_name description author : string)
         (exclude_patterns : option (list string))
         (detect_variables verbose : bool) (w w' : world) (tpl : Template.t),
    create_template_from_directory source_path template_name description
      author exclude_patterns detect_variables verbose w = (Ok tpl, w') ->
    let variables := TemplateMetadata.variables (Template.metadata tpl) in
    exists dirs w0 w1 scan,
      make_template_dirs template_name w = (Ok dirs, w0) /\
      when verbose (print_info_t "scanning_project") w0 = (Ok tt, w1) /\
      scan_project_structure source_path exclude_patterns w1 = (Ok scan, w1) /\
      NoDup (dict_keys variables) /\
      dict_get variables "project_name" =
      Some (TemplateVariable.mk "project_name" (PStr "string")
              (PStr "Nome do projeto") (PBool true) PNone) /\
      dict_get variables "author" =
      Some (TemplateVariable.mk "author" (PStr "string")
              (PStr "Nome do autor") (PBool false) (PStr "Anonymous")) /\
      forall n : string,
        n <> "project_name" -> n <> "author" ->
        dict_get variables n =
        if (detect_variables && str_in n (detected_variables scan))%bool
        then Some (TemplateVariable.mk n (PStr "string")
                     (PStr ("Variable " ++ n)) (PBool false) PNone)
        else None.
Proof.
  intros source_path template_name description author exclude_patterns
         detect_variables verbose w w' tpl H variables.
  unfold create_template_from_directory in H.
  unfold bind at 1, gets at 1 in H. cbv beta iota in H.
  destruct (path_exists w source_path); [|discriminate].
  cbv beta iota delta [negb] in H.
  unfold bind at 1, gets at 1 in H. cbv beta iota in H.
  destruct (is_dir w source_path); [|discriminate].
  cbv beta iota delta [negb] in H.
  destruct (validate_template_name template_name) as [[] err]; [|discriminate].
  apply bind_Ok in H as (dirs & w0 & Hdirs & H).
  apply bind_Ok in H as ([] & w1 & Hp1 & H).
  apply bind_Ok in H as (scan & w2 & Hscan & H).
  apply bind_Ok in H as ([] & w3 & Hp2 & H).
  apply bind_Ok in H as ([] & w4 & Hp3 & H).
  apply bind_Ok in H as (deps & w5 & Hdeps & H).
  apply bind_Ok in H as (now & w6 & Hnow & H).
  apply bind_Ok in H as ([] & w7 & Hp4 & H).
  apply bind_Ok in H as ([] & w8 & Hcopy & H).
  apply bind_Ok in H as ([] & w9 & Hsave & H).
  apply bind_Ok in H as ([] & w10 & Hp5 & H).
  (* the paths *)
  pose proof (make_template_dirs_value _ _ _ _ Hdirs) as Hpath.
  (* the environment is the same all along *)
  assert (E0 : same_env w w0)
    by (eapply preserves_run;
        [apply grows_same_env, make_template_dirs_grows|exact Hdirs]).
  assert (G1 : grows w0 w1).
  { eapply preserves_run; [|exact Hp1].
    apply (preserves_when grows grows_refl), print_info_t_grows. }
  assert (S2 : w2 = w1).
  { destruct (scan_project_structure_total source_path exclude_patterns w1)
      as [r Hr]. rewrite Hr in Hscan. now inversion Hscan. }
  subst w2.
  assert (G3 : grows w1 w3).
  { eapply preserves_run; [|exact Hp2].
    apply (preserves_when grows grows_refl).
    repeat (apply (preserves_bind grows grows_trans);
            [apply console_print_grows|intros _]).
    apply console_print_grows. }
  assert (G4 : grows w3 w4).
  { eapply preserves_run; [|exact Hp3].
    apply (preserves_when grows grows_refl).
    apply (preserves_bind grows grows_trans);
      [apply print_info_t_grows|intros _]. apply console_print_grows. }
  assert (S5 : w5 = w4).
  { unfold extract_dependencies in Hdeps.
    destruct (extract_from_world source_path
                ["requirements.txt"; "requirements-dev.txt"; "Pipfile";
                 "poetry.lock"; "pyproject.toml"] [] w4) as [r Hr].
    rewrite Hr in Hdeps. now inversion Hdeps. }
  subst w5.
  assert (Dd : distinct (map fst deps) = true)
    by (eapply extract_from_distinct; [|exact Hdeps]; reflexivity).
  unfold gets in Hnow. inversion Hnow; subst now w6. clear Hnow.
  assert (G7 : grows w4 w7).
  { eapply preserves_run; [|exact Hp4].
    apply (preserves_when grows grows_refl), print_info_t_grows. }
  assert (E8 : same_env w7 w8).
  { eapply preserves_run; [|exact Hcopy].
    apply (preserves_for_each same_env same_env_refl same_env_trans).
    intros x. apply copy_item_env. }
  assert (E9 : same_env w8 w9).
  { eapply preserves_run; [|exact Hsave]. apply write_file_env. }
  assert (G10 : grows w9 w10).
  { eapply preserves_run; [|exact Hp5].
    apply (preserves_when grows grows_refl), print_success_t_grows. }
  assert (Hhome : home w10 = home w).
  { destruct E0 as (_ & E0 & _), G1 as ((_ & G1 & _) & _),
      G3 as ((_ & G3 & _) & _), G4 as ((_ & G4 & _) & _),
      G7 as ((_ & G7 & _) & _), E8 as (_ & E8 & _), E9 as (_ & E9 & _),
      G10 as ((_ & G10' & _) & _). congruence. }
  (* the metadata file holds the document that was saved *)
  unfold TemplateMetadata.save, write_text, write_bytes in Hsave.
  apply write_then_stat in Hsave as [r Hstat].
  apply (stat_grows _ _ _ _ _ G10) in Hstat.
  apply load_Ok in H as (dir & w11 & Hdir & Hload).
  assert (G11 : grows w10 w11)
    by (eapply preserves_run; [apply get_templates_directory_grows|exact Hdir]).
  apply get_templates_directory_value in Hdir. rewrite Hhome in Hdir.
  rewrite <- Hdir in Hpath. rewrite <- Hpath in Hload.
  apply (stat_grows _ _ _ _ _ G11) in Hstat.
  pose proof (from_json_written _ _ _ _ _ _ Hstat
                (capture_document_keys_ok _ _ _ _ _ _ _ Dd) Hload) as Hdata.
  rewrite of_data_to_dict in Hdata.
  2:{ apply capture_variables_names. }
  2:{ apply capture_variables_distinct. }
  assert (Hvars : variables =
                  capture_variables detect_variables (detected_variables scan)).
  { unfold variables. inversion Hdata as [HM]. reflexivity. }
  (* the statement *)
  exists dirs, w0, w1, scan.
  split; [exact Hdirs|]. split; [exact Hp1|]. split; [exact Hscan|].
  rewrite Hvars. split.
  { apply distinct_NoDup. apply capture_variables_distinct. }
  split; [now rewrite capture_variables_get|].
  split; [now rewrite capture_variables_get|].
  intros n N1 N2. rewrite capture_variables_get.
  destruct (String.eqb_spec "project_name" n); [congruence|].
  destruct (String.eqb_spec "author" n); [congruence|]. reflexivity.
Qed.

Lemma capture_variable_set_witness :
  let w := example_world []
             [("proj",
               Dir [("app.py",
                     File true
                       (encode_utf8
                          "APP = '{{project_name}}' v{{version}}"))])] in
  exists tpl w',
    create_template_from_directory (mkPath false ["proj"]) "tpl" "" "" None
                                   true false w = (Ok tpl, w') /\
    dict_get (TemplateMetadata.variables (Template.metadata tpl)) "version" =
    Some (detected_variable "version").
Proof.
  intros w.
  destruct (create_template_from_directory (mkPath false ["proj"]) "tpl" ""
              "" None true false w) as [[tpl|e] w'] eqn:E;
    [|vm_compute in E; discriminate].
  exists tpl, w'. split; [reflexivity|].
  destruct (capture_variable_set _ _ _ _ _ _ _ _ _ _ E)
    as (dirs & w0 & w1 & scan & Hd & Hp & Hs & _ & _ & _ & Hn).
  rewrite (Hn "version") by discriminate.
  vm_compute in Hd. inversion Hd; subst dirs w0; clear Hd.
  vm_compute in Hp. inversion Hp; subst w1; clear Hp.
  vm_compute in Hs. inversion Hs; subst scan. reflexivity.
Defined.

(* ===================================================================== *)
(** * Further properties *)
(* ===================================================================== *)

(** ** Detection and substitution of the tokens *)

Lemma findall_eq (s : string) :
  VARIABLE_PATTERN_findall s =
  match match_token s with
  | Some (n, rest) => n :: VARIABLE_PATTERN_findall rest
  | None => match s with
            | EmptyString => []
            | String c s' => VARIABLE_PATTERN_findall s'
            end
  end.
Proof.
  unfold VARIABLE_PATTERN_findall. rewrite VARIABLE_PATTERN_scan_eq.
  destruct (match_token s) as [[n r]|]; [reflexivity|].
  now destruct s.
Qed.

(** The names found are those of the tokens of the text. *)
Lemma findall_sound (k : nat) :
  forall s n, String.length s < k -> In n (VARIABLE_PATTERN_findall s) ->
              is_identifier n = true /\
              exists pre post, s = pre ++ token n ++ post.
Proof.
  induction k as [|k IH]; intros s n Hk H; [lia|].
  rewrite findall_eq in H.
  destruct (match_token s) as [[m r]|] eqn:E.
  - pose proof (match_token_shorter _ _ _ E) as Hr.
    apply match_token_sound in E as [E Hm].
    destruct H as [<-|H].
    + split; [exact Hm|]. now exists "", r.
    + destruct (IH r n ltac:(lia) H) as (Hn & pre & post & ->).
      split; [exact Hn|]. exists (token m ++ pre), post.
      now rewrite E, append_assoc.
  - destruct s as [|c s]; [contradiction|]. cbn [String.length] in Hk.
    destruct (IH s n ltac:(lia) H) as (Hn & pre & post & ->).
    split; [exact Hn|]. now exists (String c pre), post.
Qed.

Lemma findall_complete (k : nat) :
  forall pre n post, String.length (pre ++ token n ++ post) < k ->
                     is_identifier n = true ->
                     In n (VARIABLE_PATTERN_findall (pre ++ token n ++ post)).
Proof.
  induction k as [|k IH]; intros pre n post Hk Hn; [lia|].
  rewrite findall_eq.
  destruct pre as [|c pre].
  - cbn [append]. rewrite match_token_complete by assumption. now left.
  - destruct (match_token (String c pre ++ token n ++ post)) as [[m r]|] eqn:E.
    + pose proof (match_token_shorter _ _ _ E) as Hr.
      unfold token in E. rewrite append_assoc in E.
      apply match_token_inside in E as (r' & _ & ->); [|discriminate].
      right. apply (IH r' n post); auto.
      unfold token. rewrite append_assoc. lia.
    + cbn [append]. apply IH; auto. cbn [append String.length] in Hk. lia.
Qed.

Lemma set_add_NoDup (x : string) (l : list string) :
  NoDup l -> NoDup (set_add x l).
Proof.
  intros H. unfold set_add. destruct (str_in x l) eqn:E; auto.
  apply NoDup_app; auto.
  - repeat constructor. intros [].
  - intros a Ha [<-|[]]. apply str_in_In in Ha. congruence.
Qed.

Lemma set_update_NoDup (xs l : list string) :
  NoDup l -> NoDup (set_update l xs).
Proof.
  unfold set_update. revert l. induction xs as [|x xs IH]; intros l H; auto.
  cbn [fold_left]. apply IH. now apply set_add_NoDup.
Qed.

(** X1. [detect_variables_in_file] returns, each once, exactly the names [n]
    for which the token of [n] occurs in the content. *)
Theorem detect_variables_exact :
  forall (content n : string),
    NoDup (detect_variables_in_file content) /\
    (In n (detect_variables_in_file content) <->
     is_identifier n = true /\
     exists pre post, content = pre ++ token n ++ post).
Proof.
  intros content n. unfold detect_variables_in_file. split.
  - apply set_update_NoDup. constructor.
  - rewrite set_update_In. split.
    + intros [[]|H]. eapply findall_sound; [|exact H]. apply Nat.lt_succ_diag_r.
    + intros (Hn & pre & post & ->). right.
      eapply findall_complete; [apply Nat.lt_succ_diag_r|exact Hn].
Qed.

Lemma sub_ext (k : nat) (f g : string -> string) :
  forall s, String.length s < k ->
            (forall n, In n (VARIABLE_PATTERN_findall s) -> f n = g n) ->
            VARIABLE_PATTERN_sub f s = VARIABLE_PATTERN_sub g s.
Proof.
  induction k as [|k IH]; intros s Hk H; [lia|].
  rewrite (VARIABLE_PATTERN_sub_eq f), (VARIABLE_PATTERN_sub_eq g).
  rewrite findall_eq in H.
  destruct (match_token s) as [[m r]|] eqn:E.
  - apply match_token_shorter in E.
    rewrite (H m (or_introl eq_refl)). f_equal.
    apply IH; [lia|]. intros n Hn. apply H. now right.
  - destruct s as [|c s]; [reflexivity|]. cbn [String.length] in Hk.
    f_equal. apply IH; [lia|exact H].
Qed.

Lemma sub_token (k : nat) :
  forall s, String.length s < k -> VARIABLE_PATTERN_sub token s = s.
Proof.
  induction k as [|k IH]; intros s Hk; [lia|].
  rewrite VARIABLE_PATTERN_sub_eq.
  destruct (match_token s) as [[m r]|] eqn:E.
  - pose proof (match_token_shorter _ _ _ E) as Hr.
    apply match_token_sound in E as [E _].
    rewrite IH by lia. now rewrite E.
  - destruct s as [|c s]; [reflexivity|]. cbn [String.length] in Hk.
    now rewrite IH by lia.
Qed.

Section SubstitutionProperties.
Variable repr_str : string -> string.

(** X2. Only the variables whose token occurs in a text matter when it is
    substituted: two maps that agree on the names detected in the text give
    the same result, and the empty map gives the text back. *)
Theorem substitute_depends_on_detected :
  forall (content : string) (variables variables' : dict pyval),
    (forall n, In n (detect_variables_in_file content) ->
               dict_get variables n = dict_get variables' n) ->
    substitute_variables repr_str content variables =
    substitute_variables repr_str content variables'.
Proof.
  intros content variables variables' H. unfold substitute_variables.
  apply (sub_ext (S (String.length content))); [lia|].
  intros n Hn. unfold replace_var. rewrite H; [reflexivity|].
  unfold detect_variables_in_file. apply set_update_In. now right.
Qed.

(** X3. A text none of whose tokens names a key of the map is returned as
    it is; so is every text when the map is empty. *)
Theorem substitute_unresolved_unchanged :
  forall (content : string) (variables : dict pyval),
    (forall n, In n (detect_variables_in_file content) ->
               dict_get variables n = None) ->
    substitute_variables repr_str content variables = content.
Proof.
  intros content variables H. unfold substitute_variables.
  rewrite (sub_ext (S (String.length content)) _ token);
    [apply (sub_token (S (String.length content))); lia|lia|].
  intros n Hn. unfold replace_var. rewrite H; [reflexivity|].
  unfold detect_variables_in_file. apply set_update_In. now right.
Qed.
End SubstitutionProperties.

(** ** Names of templates and of projects *)

Lemma name_tail_spec (s : string) :
  name_tail s = true <->
  exists body, all_chars name_char body = true /\
               (s = body \/ s = body ++ String newline "").
Proof.
  induction s as [|c s IH]; cbn [name_tail].
  - split; [|reflexivity]. intros _. exists "". auto.
  - destruct (name_char c) eqn:Ec.
    + rewrite IH. split.
      * intros (body & Hb & [->| ->]); exists (String c body);
          cbn [all_chars append]; rewrite Ec, Hb; auto.
      * intros (body & Hb & H). destruct body as [|b body].
        { destruct H as [H|H]; [discriminate|].
          cbn [append] in H. injection H as -> ->. discriminate Ec. }
        cbn [all_chars] in Hb. apply andb_true_iff in Hb as [_ Hb].
        exists body. split; [exact Hb|].
        destruct H as [H|H]; cbn [append] in H; injection H as _ ->; auto.
    + rewrite andb_true_iff, Ascii.eqb_eq, String.eqb_eq. split.
      * intros [-> ->]. exists "". auto.
      * intros (body & Hb & H). destruct body as [|b body].
        { destruct H as [H|H]; [discriminate|].
          cbn [append] in H. now injection H as -> ->. }
        cbn [all_chars] in Hb. apply andb_true_iff in Hb as [Hc _].
        destruct H as [H|H]; cbn [append] in H; injection H as -> _;
          congruence.
Qed.

(** X4. [validate_template_name] accepts exactly the names made of a letter
    or underscore followed by letters, digits, underscores and hyphens,
    with or without one newline at the very end; every rejection comes
    with a message. *)
Theorem validate_template_name_accepts :
  forall name : string,
    (validate_template_name name = (true, None) <->
     exists c body,
       ident_start c = true /\ all_chars name_char body = true /\
       (name = String c body \/ name = String c (body ++ String newline "")))
    /\ (validate_template_name name = (true, None) \/
        exists msg, validate_template_name name = (false, Some msg)).
Proof.
  intros name. unfold validate_template_name.
  destruct name as [|c rest].
  - split; [|right; eauto]. split; [discriminate|].
    intros (c & body & _ & _ & [H|H]); discriminate.
  - destruct (ident_start c) eqn:Ec; cbn [negb].
    + destruct (name_tail rest) eqn:Et; cbn [negb].
      * split; [|now left]. split; [|reflexivity]. intros _.
        apply name_tail_spec in Et as (body & Hb & H).
        exists c, body. repeat split; auto. destruct H as [->| ->]; auto.
      * split; [|right; eauto]. split; [discriminate|].
        intros (c' & body & _ & Hb & H). exfalso.
        assert (name_tail rest = true); [|congruence].
        apply name_tail_spec. exists body. split; auto.
        destruct H as [H|H]; injection H as _ ->; auto.
    + split; [|right; eauto]. split; [discriminate|].
      intros (c' & body & Hc & _ & H). exfalso.
      destruct H as [H|H]; injection H as -> _; congruence.
Qed.

Lemma split_on_no_sep (s : string) :
  all_chars not_slash s = true -> split_on "/" s = [s].
Proof.
  induction s as [|c s IH]; cbn [all_chars split_on]; [reflexivity|].
  intros H. apply andb_true_iff in H as [Hc Hs]. unfold not_slash in Hc.
  apply negb_true_iff in Hc. rewrite Hc, (IH Hs). reflexivity.
Qed.

Lemma name_char_not_slash (c : ascii) : name_char c = true -> not_slash c = true.
Proof. destruct c as [[] [] [] [] [] [] [] []]; intros H; try discriminate H; reflexivity. Qed.

Lemma name_tail_no_slash (s : string) :
  name_tail s = true -> all_chars not_slash s = true.
Proof.
  induction s as [|c s IH]; cbn [name_tail all_chars]; [reflexivity|].
  destruct (name_char c) eqn:Ec.
  - intros H. now rewrite (name_char_not_slash c Ec), IH.
  - intros H. apply andb_true_iff in H as [H1 H2].
    apply Ascii.eqb_eq in H1. apply String.eqb_eq in H2. subst. reflexivity.
Qed.

Lemma ident_start_plain (c : ascii) :
  ident_start c = true ->
  Ascii.eqb c "/" = false /\ Ascii.eqb c "." = false.
Proof. destruct c as [[] [] [] [] [] [] [] []]; intros H; try discriminate H; split; reflexivity. Qed.

Lemma parse_path_component (c : ascii) (rest : string) :
  ident_start c = true -> all_chars not_slash rest = true ->
  parse_path (String c rest) = mkPath false [String c rest].
Proof.
  intros Hc Hr. destruct (ident_start_plain c Hc) as [H1 H2].
  unfold parse_path. rewrite split_on_no_sep
    by (cbn [all_chars]; unfold not_slash at 1; now rewrite H1, Hr).
  cbn [filter String.eqb]. rewrite H2. cbn [orb negb].
  f_equal. now apply prefix_other.
Qed.

(** X5. A name that [validate_template_name] accepts is one path component:
    joined to a directory it names an entry of that directory, never a
    path outside it. *)
Theorem valid_template_name_is_component :
  forall (name : string) (d : Path),
    fst (validate_template_name name) = true ->
    joinpath d name = mkPath (absolute d) (names d ++ [name]).
Proof.
  intros name d H. unfold validate_template_name in H.
  destruct name as [|c rest]; [discriminate|].
  destruct (ident_start c) eqn:Ec; [|discriminate]. cbn [negb] in H.
  destruct (name_tail rest) eqn:Et; [|discriminate].
  unfold joinpath.
  rewrite (parse_path_component c rest Ec (name_tail_no_slash _ Et)).
  reflexivity.
Qed.

Lemma valid_template_name_is_component_witness :
  joinpath (mkPath true ["home"; "u"; ".prozes"; "templates"]) "my-app" =
  mkPath true ["home"; "u"; ".prozes"; "templates"; "my-app"].
Proof.
  apply (valid_template_name_is_component "my-app"
           (mkPath true ["home"; "u"; ".prozes"; "templates"])).
  reflexivity.
Defined.

Lemma name_char_split (c : ascii) :
  name_char c = (ident_char c || Ascii.eqb c "-")%bool.
Proof. reflexivity. Qed.

Lemma ident_char_not_hyphen (c : ascii) :
  ident_char c = true -> not_hyphen c = true.
Proof. destruct c as [[] [] [] [] [] [] [] []]; intros H; try discriminate H; reflexivity. Qed.

Lemma ident_tail_name_tail (s : string) :
  ident_tail s = true <->
  name_tail s = true /\ all_chars not_hyphen s = true.
Proof.
  induction s as [|c s IH]; cbn [ident_tail name_tail all_chars]; [tauto|].
  rewrite name_char_split.
  destruct (ident_char c) eqn:Ec; cbn [orb].
  - rewrite (ident_char_not_hyphen c Ec). cbn [andb]. exact IH.
  - unfold not_hyphen at 1. destruct (Ascii.eqb c "-") eqn:Eh; cbn [negb andb].
    + apply Ascii.eqb_eq in Eh. subst c. cbn. split; [discriminate|].
      intros [_ H]. discriminate.
    + split.
      * intros H. split; [exact H|].
        apply andb_true_iff in H as [_ H]. apply String.eqb_eq in H.
        now subst s.
      * tauto.
Qed.

(** X6. The names [validate_project_name] accepts are the names
    [validate_template_name] accepts that contain no hyphen and are not a
    Python keyword. *)
Theorem project_names_among_template_names :
  forall (t : string -> list (string * string) -> string) (name : string),
    fst (validate_project_name t name) = true <->
    (validate_template_name name = (true, None) /\
     all_chars not_hyphen name = true /\ ~ In name keywords).
Proof.
  intros t name. unfold validate_project_name, validate_template_name.
  destruct name as [|c rest].
  - cbn [fst]. split; [discriminate|]. intros [H _]. discriminate.
  - destruct (ident_start c) eqn:Ec; cbn [negb].
    2:{ cbn [fst]. split; [discriminate|]. intros [H _]. discriminate. }
    pose proof (ident_tail_name_tail rest) as T.
    assert (Hc : not_hyphen c = true)
      by (apply ident_char_not_hyphen, ident_start_char, Ec).
    destruct (ident_tail rest) eqn:Ei; cbn [negb].
    + destruct T as [[Tn Th] _]; [reflexivity|]. rewrite Tn. cbn [negb].
      destruct (str_in (String c rest) keywords) eqn:Ek; cbn [fst].
      * split; [discriminate|]. intros (_ & _ & H). exfalso. apply H.
        now apply str_in_In.
      * split; [|reflexivity]. intros _. repeat split.
        -- cbn [all_chars]. now rewrite Hc, Th.
        -- intros H. apply str_in_In in H. congruence.
    + cbn [fst]. split; [discriminate|]. intros (Hn & Hh & _). exfalso.
      destruct (name_tail rest) eqn:En; [|discriminate].
      cbn [all_chars] in Hh. apply andb_true_iff in Hh as [_ Hh].
      assert (X : false = true) by (apply T; split; [reflexivity|assumption]).
      discriminate X.
Qed.

(** ** The store: loading and listing *)



Lemma from_json_world (p : Path) (w : world) :
  snd (TemplateMetadata.from_json p w) = w.
Proof.
  unfold TemplateMetadata.from_json, bind, lift, gets.
  pose proof (read_text_world p w) as H.
  destruct (read_text p w) as [[s|e] w1]; cbn [snd] in *; subst; auto.
  destruct (json_loads s); cbn [snd]; auto.
Qed.




Lemma lookup_parent (t : node) (c : list string) (x : node) :
  c <> [] -> lookup t c = Found x -> is_Dir (lookup t (removelast c)) = true.
Proof.
  revert t. induction c as [|n rest IH]; intros t Hne H; [congruence|].
  destruct t as [r d|es]; [discriminate|].
  destruct rest as [|m rest]; [reflexivity|].
  change (removelast (n :: m :: rest)) with (n :: removelast (m :: rest)).
  cbn [lookup] in *. destruct (dict_get es n) as [ch|]; [|discriminate].
  apply IH; [discriminate|exact H].
Qed.

Lemma is_dir_grows (w w' : world) (p : Path) :
  grows w w' -> is_dir w p = true -> is_dir w' p = true.
Proof.
  intros [(Hc & _) Hx]. unfold is_dir, stat, locate. rewrite Hc.
  destruct (canon (root w) (if absolute p then [] else cwd w) (names p))
    as [c| |] eqn:E; try discriminate.
  rewrite (canon_extends _ _ _ _ _ Hx E). intros H.
  specialize (Hx c).
  destruct (lookup (root w) c) as [[r d|es]| |]; try discriminate.
  destruct (lookup (root w') c) as [[r d|es']| |]; try discriminate.
  reflexivity.
Qed.

Lemma os_mkdir_is_dir (p : Path) (w w' : world) :
  os_mkdir p w = (Ok tt, w') -> is_dir w' p = true.
Proof.
  unfold os_mkdir. intros H.
  destruct (locate w p) as [[|n c]| |] eqn:Ec; try discriminate.
  destruct (lookup (root w) (removelast (n :: c))) as [[r d|es]| |] eqn:Ep;
    try discriminate.
  assert (Hf : forall x, lookup (root w) (n :: c) <> Found x).
  { intros x Hx. rewrite Hx in H. discriminate. }
  assert (Hw : w' = set_root w (put (root w) (n :: c) (Dir []))).
  { destruct (lookup (root w) (n :: c)) as [x| |];
      [exfalso; now apply (Hf x)| |]; now injection H as <-. }
  subst w'. unfold is_dir, stat, locate in *. cbn [root cwd set_root].
  rewrite (canon_extends _ _ _ _ _ (extends_put_fresh _ _ (Dir []) Hf) Ec).
  rewrite lookup_put_same; [reflexivity|discriminate|now rewrite Ep].
Qed.

Lemma mkdir_one_is_dir (p : Path) (w w' : world) :
  mkdir_one p true w = (Ok tt, w') -> is_dir w' p = true.
Proof.
  unfold mkdir_one. destruct (os_mkdir p w) as [[[]|e] w1] eqn:E.
  - intros [= <-]. now apply os_mkdir_is_dir in E.
  - destruct (is_FileNotFoundError e); [discriminate|]. cbn [andb].
    destruct (is_dir w1 p) eqn:D; [|discriminate]. now intros [= <-].
Qed.

Lemma mkdir_parents_from_is_dir (fuel : nat) (p : Path) (w w' : world) :
  mkdir_parents_from fuel p true w = (Ok tt, w') -> is_dir w' p = true.
Proof.
  destruct fuel as [|fuel]; cbn [mkdir_parents_from];
    destruct (os_mkdir p w) as [[[]|e] w1] eqn:E;
    try (intros [= <-]; now apply os_mkdir_is_dir in E);
    destruct (is_FileNotFoundError e).
  - destruct (names p); intros X; discriminate X.
  - cbn [andb]. destruct (is_dir w1 p) eqn:D; [|discriminate].
    now intros [= <-].
  - destruct (names p); [intros X; discriminate X|]. unfold bind.
    destruct (mkdir_parents_from fuel (parent p) true w1) as [[[]|e'] w2];
      [|discriminate].
    apply mkdir_one_is_dir.
  - cbn [andb]. destruct (is_dir w1 p) eqn:D; [|discriminate].
    now intros [= <-].
Qed.

Lemma os_mkdir_existing (p : Path) (w : world) :
  path_exists w p = true ->
  os_mkdir p w = (Raise (FileExistsError ("File exists: " ++ path_str p)), w).
Proof.
  unfold path_exists, stat, os_mkdir.
  destruct (locate w p) as [[|n c]| |]; try discriminate; [reflexivity|].
  destruct (lookup (root w) (n :: c)) as [x| |] eqn:E; try discriminate.
  intros _.
  assert (P : is_Dir (lookup (root w) (removelast (n :: c))) = true)
    by (apply (lookup_parent _ _ x); [discriminate|exact E]).
  destruct (lookup (root w) (removelast (n :: c))) as [[r d|es]| |];
    try discriminate. reflexivity.
Qed.

Lemma mkdir_parents_existing (p : Path) (w : world) :
  is_dir w p = true -> mkdir_parents p true w = (Ok tt, w).
Proof.
  intros D. unfold mkdir_parents.
  assert (X : path_exists w p = true).
  { unfold is_dir, path_exists in *. destruct (stat w p) as [[|]| |]; auto. }
  destruct (length (names p)); cbn [mkdir_parents_from];
    rewrite (os_mkdir_existing p w X); cbn [is_FileNotFoundError andb];
    now rewrite D.
Qed.

Lemma get_templates_directory_existing (w : world) :
  is_dir w (store_path w) = true ->
  get_templates_directory w = (Ok (store_path w), w).
Proof.
  intros D. unfold get_templates_directory, bind, gets, ret.
  fold (store_path w). now rewrite (mkdir_parents_existing _ _ D).
Qed.

Lemma get_templates_directory_is_dir (w w' : world) (d : Path) :
  get_templates_directory w = (Ok d, w') ->
  d = store_path w /\ is_dir w' d = true /\ home w' = home w.
Proof.
  intros H. pose proof (get_templates_directory_value _ _ _ H) as ->.
  pose proof (preserves_run grows _ _ _ _ get_templates_directory_grows H)
    as [(_ & Hh & _) _].
  split; [reflexivity|]. split; [|exact Hh].
  unfold get_templates_directory, bind, gets, ret in H.
  destruct (mkdir_parents _ true w) as [[[]|e] w1] eqn:E; [|discriminate].
  injection H as <-. now apply mkdir_parents_from_is_dir in E.
Qed.

(** X8. When [get_templates_directory] returns, it returns
    [~/.prozes/templates], which is then a directory; the files that were
    there are unchanged and the directories are still directories; and a
    second call returns the same path and changes nothing.  When the
    directory is already there, nothing changes at all. *)
Theorem get_templates_directory_spec :
  forall (w w' : world) (d : Path),
    get_templates_directory w = (Ok d, w') ->
    d = store_path w /\ is_dir w' d = true /\ grows w w' /\
    get_templates_directory w' = (Ok d, w') /\
    (is_dir w d = true -> w' = w).
Proof.
  intros w w' d H.
  destruct (get_templates_directory_is_dir _ _ _ H) as (-> & D & Hh).
  split; [reflexivity|]. split; [exact D|]. split.
  { apply (preserves_run grows _ _ _ _ get_templates_directory_grows H). }
  assert (S : store_path w' = store_path w) by (unfold store_path; now rewrite Hh).
  split.
  - rewrite <- S in *. now apply get_templates_directory_existing.
  - intros D0. rewrite (get_templates_directory_existing _ D0) in H.
    now injection H as <-.
Qed.

Lemma load_world (name : string) (w : world) :
  snd (Template.load name w) = snd (get_templates_directory w).
Proof.
  unfold Template.load, bind.
  destruct (get_templates_directory w) as [[d|e] w1]; [|reflexivity].
  unfold gets, raise, ret. cbn [snd].
  destruct (path_exists w1 (joinpath d name)); [|reflexivity].
  cbv beta iota delta [negb].
  destruct (path_exists w1 (joinpath (joinpath d name) "template.json"));
    [|reflexivity].
  cbv beta iota delta [negb].
  destruct (path_exists w1 (joinpath (joinpath d name) "structure"));
    [|reflexivity].
  cbv beta iota delta [negb].
  pose proof (from_json_world (joinpath (joinpath d name) "template.json") w1)
    as H.
  destruct (TemplateMetadata.from_json _ w1) as [[M|e] w2]; cbn [snd] in *;
    [|exact H].
  now destruct (TemplateMetadata.validate M).
Qed.


Lemma load_Ok_fields (name : string) (w w' : world) (tpl : Template.t) :
  Template.load name w = (Ok tpl, w') ->
  get_templates_directory w = (Ok (store_path w), w') /\
  Template.name tpl = name /\
  Template.path tpl = joinpath (store_path w) name /\
  TemplateMetadata.validate (Template.metadata tpl) = [] /\
  path_exists w' (joinpath (Template.path tpl) "template.json") = true /\
  path_exists w' (Template.get_structure_path tpl) = true.
Proof.
  intros H.
  pose proof (load_world name w) as Hw. rewrite H in Hw. cbn [snd] in Hw.
  unfold Template.load in H.
  apply bind_Ok in H as (d & w1 & Hd & Hk).
  rewrite Hd in Hw. cbn [snd] in Hw. subst w1.
  destruct (get_templates_directory_is_dir _ _ _ Hd) as (-> & D & Hh).
  split; [exact Hd|].
  unfold bind, gets, raise, ret in Hk; cbv beta iota in Hk.
  destruct (path_exists w' (joinpath (store_path w) name)) eqn:E1;
    try discriminate; cbv beta iota delta [negb] in Hk.
  destruct (path_exists w' (joinpath (joinpath (store_path w) name)
                                     "template.json")) eqn:E2;
    try discriminate; cbv beta iota delta [negb] in Hk.
  destruct (path_exists w' (joinpath (joinpath (store_path w) name)
                                     "structure")) eqn:E3;
    try discriminate; cbv beta iota delta [negb] in Hk.
  destruct (TemplateMetadata.from_json _ w') as [[M|e] w2];
    try discriminate.
  destruct (TemplateMetadata.validate M) eqn:V; try discriminate.
  injection Hk as <- _. cbn [Template.name Template.path Template.metadata
                             Template.get_structure_path]. auto.
Qed.

Lemma load_again (name : string) (w w' : world) (tpl : Template.t) :
  Template.load name w = (Ok tpl, w') -> Template.load name w' = (Ok tpl, w').
Proof.
  intros H.
  destruct (load_Ok_fields _ _ _ _ H) as (Hd & _).
  destruct (get_templates_directory_is_dir _ _ _ Hd) as (_ & D & Hh).
  assert (S : store_path w' = store_path w)
    by (unfold store_path; now rewrite Hh).
  assert (Hd' : get_templates_directory w' = (Ok (store_path w), w')).
  { rewrite <- S in *. now apply get_templates_directory_existing. }
  unfold Template.load in H. apply bind_Ok in H as (d & w1 & Hd1 & Hk).
  rewrite Hd in Hd1. injection Hd1 as <- <-.
  unfold Template.load, bind at 1. rewrite Hd'. exact Hk.
Qed.


Lemma load_missing (name : string) (w w1 : world) (d : Path) :
  get_templates_directory w = (Ok d, w1) ->
  path_exists w1 (joinpath d name) = false ->
  Template.load name w =
  (Raise (FileNotFoundError ("Template '" ++ name ++ "' not found")), w1).
Proof.
  intros Hd E. unfold Template.load, bind at 1. rewrite Hd.
  unfold bind, gets. cbv beta iota. now rewrite E.
Qed.

Lemma load_Ok_exists (name : string) (w w' : world) (tpl : Template.t) :
  Template.load name w = (Ok tpl, w') ->
  exists d, get_templates_directory w = (Ok d, w') /\
            path_exists w' (joinpath d name) = true.
Proof.
  intros H. pose proof (load_world name w) as Hw. rewrite H in Hw.
  cbn [snd] in Hw. unfold Template.load in H.
  apply bind_Ok in H as (d & w1 & Hd & Hk).
  rewrite Hd in Hw. cbn [snd] in Hw. subst w1. exists d. split; [exact Hd|].
  unfold bind, gets in Hk. cbv beta iota in Hk.
  destruct (path_exists w' (joinpath d name)); [reflexivity|discriminate].
Qed.

(** X11. [get_template] agrees with [template_exists]: a name for which
    [template_exists] answers False gets None, and a name for which
    [get_template] returns a template is one for which [template_exists]
    answers True; both leave the same world. *)
Theorem get_template_template_exists :
  forall (name : string) (w w' : world),
    (template_exists name w = (Ok false, w') ->
     get_template name w = (Ok None, w')) /\
    (forall tpl, get_template name w = (Ok (Some tpl), w') ->
                 template_exists name w = (Ok true, w')).
Proof.
  intros name w w'. split.
  - intros H. unfold template_exists in H.
    apply bind_Ok in H as (d & w1 & Hd & H). unfold gets in H.
    injection H as E <-.
    unfold get_template, try_except, bind.
    now rewrite (load_missing name w w1 d Hd E).
  - intros tpl H. unfold get_template, try_except, bind in H.
    destruct (Template.load name w) as [[tpl'|e] w1] eqn:L.
    + unfold ret in H. injection H as <- <-.
      apply load_Ok_exists in L as (d & Hd & E).
      unfold template_exists, bind, gets. now rewrite Hd, E.
    + destruct (FileNotFoundError_or_ValueError e); discriminate.
Qed.


Lemma ascii_compare_spec (a b : ascii) :
  CompareSpec (a = b) (N_of_ascii a < N_of_ascii b)%N
              (N_of_ascii b < N_of_ascii a)%N (Ascii.compare a b).
Proof.
  unfold Ascii.compare. destruct (N.compare_spec (N_of_ascii a) (N_of_ascii b));
    constructor; auto.
  rewrite <- (ascii_N_embedding a), <- (ascii_N_embedding b). now f_equal.
Qed.

Lemma string_leb_trans (a : string) :
  forall b c, String.leb a b = true -> String.leb b c = true ->
              String.leb a c = true.
Proof.
  unfold String.leb.
  induction a as [|x a IH]; intros [|y b] [|z c]; cbn [String.compare];
    try discriminate; auto.
  destruct (ascii_compare_spec x y) as [->|Hxy|Hxy];
    destruct (ascii_compare_spec y z) as [->|Hyz|Hyz];
    try discriminate;
    try (destruct (ascii_compare_spec x z) as [->|Hxz|Hxz]; auto; lia).
  - apply IH.
  - reflexivity.
Qed.

Lemma string_ltb_leb (a b : string) :
  String.ltb a b = true -> String.leb a b = true.
Proof. unfold String.ltb, String.leb. now destruct (String.compare a b). Qed.

Lemma string_nltb_leb (a b : string) :
  String.ltb a b = false -> String.leb b a = true.
Proof.
  unfold String.ltb, String.leb. rewrite (String.compare_antisym b a).
  now destruct (String.compare a b).
Qed.

Lemma insert_sorted_In {A} (key : A -> string) (x y : A) (l : list A) :
  In y (insert_sorted key x l) <-> y = x \/ In y l.
Proof.
  induction l as [|z l IH]; cbn [insert_sorted In]; [intuition|].
  destruct (String.ltb (key x) (key z)); cbn [In]; [intuition|].
  rewrite IH. intuition.
Qed.

Lemma insert_sorted_sorted {A} (key : A -> string) (x : A) (l : list A) :
  StronglySorted (fun a b => String.leb (key a) (key b) = true) l ->
  StronglySorted (fun a b => String.leb (key a) (key b) = true)
                 (insert_sorted key x l).
Proof.
  induction 1 as [|z l S IH F]; cbn [insert_sorted].
  - repeat constructor.
  - destruct (String.ltb (key x) (key z)) eqn:E.
    + constructor; [now constructor|]. constructor.
      * now apply string_ltb_leb.
      * eapply Forall_impl; [|exact F]. intros a Ha.
        eapply string_leb_trans; [|exact Ha]. now apply string_ltb_leb.
    + constructor; [exact IH|]. apply Forall_forall. intros y Hy.
      apply insert_sorted_In in Hy as [->|Hy].
      * now apply string_nltb_leb.
      * rewrite Forall_forall in F. now apply F.
Qed.

Lemma sorted_by_spec {A} (key : A -> string) (l : list A) :
  StronglySorted (fun a b => String.leb (key a) (key b) = true)
                 (sorted_by key l) /\
  forall y, In y (sorted_by key l) <-> In y l.
Proof.
  unfold sorted_by.
  assert (G : forall acc,
             StronglySorted (fun a b => String.leb (key a) (key b) = true) acc ->
             StronglySorted (fun a b => String.leb (key a) (key b) = true)
               (fold_left (fun acc x => insert_sorted key x acc) l acc) /\
             forall y, In y (fold_left (fun acc x => insert_sorted key x acc)
                                       l acc) <-> In y acc \/ In y l).
  { induction l as [|x l IH]; intros acc S; cbn [fold_left In].
    - split; [exact S|]. intuition.
    - destruct (IH (insert_sorted key x acc) (insert_sorted_sorted key x acc S))
        as [S' I]. split; [exact S'|]. intros y. rewrite I, insert_sorted_In.
      intuition. }
  destruct (G [] (SSorted_nil _)) as [S I]. split; [exact S|].
  intros y. rewrite I. cbn [In]. intuition.
Qed.

Lemma load_grows (name : string) : preserves grows (Template.load name).
Proof.
  intros w. rewrite load_world. apply get_templates_directory_grows.
Qed.

Lemma load_step_grows (item : Path) (templates : list Template.t) :
  preserves grows
    (try_except
       (template <- Template.load (path_name item) ;;
        ret (templates ++ [template])%list)
       FileNotFoundError_or_ValueError
       (fun e =>
          console_print ("[yellow]Warning: Skipping invalid template '"
                         ++ path_name item ++ "': " ++ exn_msg e
                         ++ "[/yellow]") ;;;
          ret templates)).
Proof.
  apply (preserves_try_except grows grows_trans).
  - apply (preserves_bind grows grows_trans); [apply load_grows|].
    intros a. apply preserves_ret, grows_refl.
  - intros e. apply (preserves_bind grows grows_trans);
      [apply console_print_grows|].
    intros a. apply preserves_ret, grows_refl.
Qed.

Lemma load_each_grows (items : list Path) :
  forall templates, preserves grows (load_each items templates).
Proof.
  induction items as [|item items IH]; intros templates; cbn [load_each].
  - apply preserves_ret, grows_refl.
  - apply (preserves_bind grows grows_trans);
      [apply preserves_gets, grows_refl|].
    intros [|]; [|apply IH].
    apply (preserves_bind grows grows_trans); [apply load_step_grows|].
    intros a. apply IH.
Qed.

Lemma load_each_members (Q : list string -> Template.t -> Prop)
      (HQ : forall name w w' tpl,
          Template.load name w = (Ok tpl, w') -> Q (home w) tpl)
      (items : list Path) :
  forall templates w l w',
    load_each items templates w = (Ok l, w') ->
    (forall tpl, In tpl templates -> Q (home w) tpl) ->
    forall tpl, In tpl l -> Q (home w) tpl.
Proof.
  induction items as [|item items IH]; intros templates w l w' H Hacc;
    cbn [load_each] in H.
  - unfold ret in H. now injection H as <- _.
  - unfold bind at 1, gets in H. cbv beta iota in H.
    destruct (is_dir w item); [|now apply (IH _ _ _ _ H)].
    apply bind_Ok in H as (templates' & w1 & Hs & H).
    pose proof (preserves_run grows _ _ _ _ (load_step_grows item templates) Hs)
      as [(_ & Hh & _) _].
    rewrite <- Hh. apply (IH _ _ _ _ H). rewrite Hh.
    unfold try_except, bind in Hs.
    destruct (Template.load (path_name item) w) as [[tpl0|e] w2] eqn:L.
    + unfold ret in Hs. injection Hs as <- _. intros tpl I.
      apply in_app_or in I as [I|[<-|[]]]; [now apply Hacc|].
      now apply (HQ _ _ _ _ L).
    + destruct (FileNotFoundError_or_ValueError e); [|discriminate].
      destruct (console_print _ w2) as [[[]|e'] w3]; [|discriminate].
      unfold ret in Hs. injection Hs as <- _. exact Hacc.
Qed.

(** X12. When [list_custom_templates] returns, the templates are in the
    order of their names, each one has metadata that passes [validate] and
    the path of its directory in the store, and the files that were there
    are unchanged. *)
Theorem list_custom_templates_sorted :
  forall (w w' : world) (l : list Template.t),
    list_custom_templates w = (Ok l, w') ->
    StronglySorted
      (fun a b => String.leb (Template.name a) (Template.name b) = true) l /\
    (forall tpl, In tpl l ->
       TemplateMetadata.validate (Template.metadata tpl) = [] /\
       Template.path tpl = joinpath (store_path w) (Template.name tpl)) /\
    grows w w'.
Proof.
  intros w w' l H. unfold list_custom_templates in H.
  apply bind_Ok in H as (d & w1 & Hd & H).
  apply bind_Ok in H as (items & w2 & Hi & H).
  apply bind_Ok in H as (templates & w3 & Hl & H).
  unfold ret in H. injection H as <- <-.
  destruct (sorted_by_spec Template.name templates) as [S I].
  split; [exact S|]. split.
  - intros tpl Ht. apply I in Ht.
    pose proof (preserves_run grows _ _ _ _ get_templates_directory_grows Hd)
      as [(_ & Hh1 & _) _].
    assert (Hh2 : home w2 = home w1).
    { unfold iterdir in Hi. destruct (stat w1 d) as [[|]| |];
        injection Hi as _ <-; reflexivity. }
    pose (Q := fun (h : list string) (t : Template.t) =>
                 TemplateMetadata.validate (Template.metadata t) = [] /\
                 Template.path t =
                 joinpath (joinpath (joinpath (mkPath true h) ".prozes")
                                    "templates") (Template.name t)).
    assert (X : Q (home w2) tpl).
    { apply (load_each_members Q) with (items := items) (templates := [])
                                        (l := templates) (w' := w3); auto.
      - intros name v v' t L. destruct (load_Ok_fields _ _ _ _ L)
          as (_ & Hn & Hp & Hv & _). split; [exact Hv|].
        rewrite Hp, Hn. reflexivity.
      - intros t []. }
    unfold Q in X. unfold store_path. now rewrite <- Hh1, <- Hh2.
  - eapply grows_trans;
      [apply (preserves_run grows _ _ _ _ get_templates_directory_grows Hd)|].
    eapply grows_trans; [|apply (preserves_run grows _ _ _ _
                                   (load_each_grows items []) Hl)].
    unfold iterdir in Hi. destruct (stat w1 d) as [[|]| |];
      injection Hi as _ <-; apply grows_refl.
Qed.

(** ** The scan, file by file *)

Lemma set_update_app (l a b : list string) :
  set_update l (a ++ b)%list = set_update (set_update l a) b.
Proof. unfold set_update. apply fold_left_app. Qed.

Lemma detect_file_type_value (p : Path) (w : world) :
  detect_file_type p w = (Ok (file_type w p), w).
Proof.
  unfold file_type. destruct (detect_file_type_total p w) as [r H].
  now rewrite H.
Qed.

Lemma scan_item_full (source_path : Path) (exclude_dirs : list string)
      (rel : list string) (fs ts bs : list Path) (vs : list string)
      (w : world) :
  scan_item source_path exclude_dirs rel (fs, ts, bs, vs) w =
  (Ok ((fs ++ map (mkPath false)
               (filter (scanned w source_path exclude_dirs) [rel]))%list,
       (ts ++ map (mkPath false)
               (filter (scanned_as "text" w source_path exclude_dirs) [rel]))%list,
       (bs ++ map (mkPath false)
               (filter (scanned_as "binary" w source_path exclude_dirs) [rel]))%list,
       set_update vs (names_in w source_path exclude_dirs rel)), w).
Proof.
  unfold scan_item, names_in, scanned_as, scanned. cbn [filter].
  destruct (excluded_path exclude_dirs (extend source_path rel)); cbn [negb andb].
  { cbn [map]. now rewrite !app_nil_r. }
  unfold bind, gets. cbv beta iota.
  destruct (is_file w (extend source_path rel)); cbn [andb].
  2:{ cbn [map]. now rewrite !app_nil_r. }
  rewrite detect_file_type_value. cbv beta iota.
  destruct (String.eqb (file_type w (extend source_path rel)) "text") eqn:Et.
  - apply String.eqb_eq in Et. rewrite Et. cbn [String.eqb Ascii.eqb Bool.eqb].
    cbn [map]. rewrite app_nil_r.
    unfold try_except, bind, text_of.
    pose proof (read_text_world (extend source_path rel) w) as Hw.
    destruct (read_text (extend source_path rel) w) as [[c|e] w'];
      cbv beta iota delta [fst snd any_exception ret] in *; subst;
      reflexivity.
  - destruct (String.eqb (file_type w (extend source_path rel)) "binary");
      cbn [map]; now rewrite ?app_nil_r.
Qed.

Lemma scan_items_full (source_path : Path) (exclude_dirs : list string)
      (rels : list (list string)) (w : world) :
  forall fs ts bs vs,
    scan_items source_path exclude_dirs rels (fs, ts, bs, vs) w =
    (Ok ((fs ++ map (mkPath false)
                 (filter (scanned w source_path exclude_dirs) rels))%list,
         (ts ++ map (mkPath false)
                 (filter (scanned_as "text" w source_path exclude_dirs)
                         rels))%list,
         (bs ++ map (mkPath false)
                 (filter (scanned_as "binary" w source_path exclude_dirs)
                         rels))%list,
         set_update vs
           (flat_map (names_in w source_path exclude_dirs) rels)), w).
Proof.
  induction rels as [|rel rels IH]; intros fs ts bs vs.
  - cbn [scan_items filter map flat_map]. now rewrite !app_nil_r.
  - cbn [scan_items]. unfold bind. rewrite scan_item_full. rewrite IH.
    cbn [flat_map]. rewrite set_update_app.
    change (rel :: rels) with ([rel] ++ rels)%list.
    rewrite !filter_app, !map_app, !app_assoc. reflexivity.
Qed.

Lemma scan_project_structure_value (source_path : Path)
      (exclude_patterns : option (list string)) (w : world) :
  let ex := set_update DEFAULT_EXCLUDE_DIRS
              (match exclude_patterns with Some l => l | None => [] end) in
  let rels := rglob w source_path in
  scan_project_structure source_path exclude_patterns w =
  (Ok (mkScan
         (map (mkPath false) (filter (scanned w source_path ex) rels))
         (map (mkPath false) (filter (scanned_as "text" w source_path ex) rels))
         (map (mkPath false)
              (filter (scanned_as "binary" w source_path ex) rels))
         (set_update [] (flat_map (names_in w source_path ex) rels))
         (length (map (mkPath false)
                      (filter (scanned w source_path ex) rels)))), w).
Proof.
  intros ex rels. unfold scan_project_structure, bind, gets. cbv beta iota.
  fold ex. fold rels. rewrite scan_items_full. reflexivity.
Qed.

Lemma In_map_mkPath (p : Path) (l : list (list string)) :
  In p (map (mkPath false) l) <-> absolute p = false /\ In (names p) l.
Proof.
  rewrite in_map_iff. split.
  - intros (rel & <- & I). auto.
  - intros [A I]. exists (names p). split; auto. destruct p. cbn in *.
    now subst.
Qed.

(** X13. In the result of the scan, [text_files] holds the files that
    [detect_file_type] answers 'text' for and [binary_files] those it
    answers 'binary' for; no file is in both, a file that gets 'skip' is in
    neither, and [total_files] counts all the files. *)
Theorem scan_classifies_files :
  forall (source_path : Path) (exclude_patterns : option (list string))
         (w : world),
  exists r,
    scan_project_structure source_path exclude_patterns w = (Ok r, w) /\
    total_files r = length (files r) /\
    forall p : Path,
      (In p (text_files r) <->
       In p (files r) /\
       file_type w (extend source_path (names p)) = "text") /\
      (In p (binary_files r) <->
       In p (files r) /\
       file_type w (extend source_path (names p)) = "binary") /\
      ~ (In p (text_files r) /\ In p (binary_files r)).
Proof.
  intros source_path exclude_patterns w.
  eexists. split; [apply scan_project_structure_value|].
  cbn [total_files files text_files binary_files].
  split; [reflexivity|]. intros p.
  rewrite !In_map_mkPath, !filter_In. unfold scanned_as.
  rewrite !andb_true_iff, !String.eqb_eq.
  split; [tauto|]. split; [tauto|].
  intros [(_ & _ & _ & E1) (_ & _ & _ & E2)]. rewrite E1 in E2. discriminate.
Qed.

(** X14. The names the scan detects are those of the tokens of the text
    files it lists: a name is detected exactly when it is found in the
    text of a listed text file that can be read as text. *)
Theorem scan_detects_from_text_files :
  forall (source_path : Path) (exclude_patterns : option (list string))
         (w : world),
  exists r,
    scan_project_structure source_path exclude_patterns w = (Ok r, w) /\
    NoDup (detected_variables r) /\
    forall n : string,
      In n (detected_variables r) <->
      exists p content,
        In p (text_files r) /\
        fst (read_text (extend source_path (names p)) w) = Ok content /\
        In n (detect_variables_in_file content).
Proof.
  intros source_path exclude_patterns w.
  eexists. split; [apply scan_project_structure_value|].
  cbn [detected_variables text_files]. split.
  { apply set_update_NoDup. constructor. }
  intros n. rewrite set_update_In, in_flat_map. split.
  - intros [[]|(rel & I & H)]. unfold names_in in H.
    destruct (scanned_as "text" w source_path _ rel) eqn:S; [|contradiction].
    unfold text_of in H.
    destruct (fst (read_text (extend source_path rel) w)) as [c|e] eqn:R;
      [|contradiction].
    exists (mkPath false rel), c. cbn [names]. repeat split; auto.
    apply In_map_mkPath. split; [reflexivity|]. apply filter_In. auto.
  - intros (p & c & I & R & H). right.
    apply In_map_mkPath in I as [_ I]. apply filter_In in I as [I S].
    exists (names p). split; [exact I|]. unfold names_in, text_of.
    now rewrite S, R.
Qed.

Lemma extract_from_get (source_path : Path) (w : world)
      (dep_files : list string) :
  forall deps,
  exists r,
    extract_from source_path dep_files deps w = (Ok r, w) /\
    forall n,
      dict_get r n =
      if (str_in n dep_files && path_exists w (joinpath source_path n))%bool
      then Some ("structure/" ++ n)
      else dict_get deps n.
Proof.
  induction dep_files as [|f l IH]; intros deps.
  - exists deps. split; [reflexivity|]. intros n. reflexivity.
  - cbn [extract_from]. unfold bind, gets. cbv beta iota.
    destruct (IH (if path_exists w (joinpath source_path f)
                  then dict_set deps f ("structure/" ++ f) else deps))
      as (r & H & G).
    exists r. split; [exact H|]. intros n. rewrite G. cbn [str_in].
    destruct (str_in n l && path_exists w (joinpath source_path n))%bool eqn:E.
    + apply andb_true_iff in E as [E1 E2]. rewrite E1, E2.
      now rewrite orb_true_r.
    + destruct (String.eqb_spec f n) as [->|N]; cbn [orb].
      * destruct (path_exists w (joinpath source_path n)) eqn:X.
        -- cbn [andb]. apply dict_get_set_same.
        -- now rewrite andb_false_r.
      * rewrite E. destruct (path_exists w (joinpath source_path f)); auto.
        now apply dict_get_set_other.
Qed.

(** X15. [extract_dependencies] changes nothing and returns a dict that maps
    each of the five dependency file names that exists in the source
    directory to [structure/<name>], and has no other key. *)
Theorem extract_dependencies_spec :
  forall (source_path : Path) (w : world),
  exists deps,
    extract_dependencies source_path w = (Ok deps, w) /\
    NoDup (dict_keys deps) /\
    forall n : string,
      dict_get deps n =
      if (str_in n ["requirements.txt"; "requirements-dev.txt"; "Pipfile";
                    "poetry.lock"; "pyproject.toml"]
          && path_exists w (joinpath source_path n))%bool
      then Some ("structure/" ++ n)
      else None.
Proof.
  intros source_path w. unfold extract_dependencies.
  destruct (extract_from_get source_path w
              ["requirements.txt"; "requirements-dev.txt"; "Pipfile";
               "poetry.lock"; "pyproject.toml"] []) as (r & H & G).
  exists r. split; [exact H|]. split; [|exact G].
  apply distinct_NoDup. eapply extract_from_distinct; [|exact H]. reflexivity.
Qed.

(** ** Capture and application, as a whole *)

Lemma same_env_sym (a b : world) : same_env a b -> same_env b a.
Proof. unfold same_env. intuition congruence. Qed.

Lemma new_again (now : string) (M : TemplateMetadata.t) :
  TemplateMetadata.created_at M = PStr now ->
  truthy (TemplateMetadata.variable_substitution M) = true ->
  truthy (TemplateMetadata.file_patterns M) = true ->
  TemplateMetadata.new now
    (TemplateMetadata.version M) (TemplateMetadata.name M)
    (TemplateMetadata.description M) (TemplateMetadata.author M)
    (TemplateMetadata.created_at M) (TemplateMetadata.prozes_version M)
    (TemplateMetadata.variables M) (TemplateMetadata.dependencies M)
    (TemplateMetadata.variable_substitution M)
    (TemplateMetadata.file_patterns M) = M.
Proof.
  destruct M as [v n d a c p vs ds vsub fp].
  cbn [TemplateMetadata.version TemplateMetadata.name
       TemplateMetadata.description TemplateMetadata.author
       TemplateMetadata.created_at TemplateMetadata.prozes_version
       TemplateMetadata.variables TemplateMetadata.dependencies
       TemplateMetadata.variable_substitution TemplateMetadata.file_patterns].
  intros -> Hv Hf. unfold TemplateMetadata.new, TemplateMetadata.post_init.
  cbn [TemplateMetadata.version TemplateMetadata.name
       TemplateMetadata.description TemplateMetadata.author
       TemplateMetadata.created_at TemplateMetadata.prozes_version
       TemplateMetadata.variables TemplateMetadata.dependencies
       TemplateMetadata.variable_substitution TemplateMetadata.file_patterns].
  rewrite Hv, Hf. now destruct (truthy (PStr now)).
Qed.

(** The run of a capture that returns a template. *)
Lemma create_Ok_run (source_path : Path)
      (template_name description author : string)
      (exclude_patterns : option (list string))
      (detect_variables verbose : bool) (w w' : world) (tpl : Template.t) :
  create_template_from_directory source_path template_name description
    author exclude_patterns detect_variables verbose w = (Ok tpl, w') ->
  is_dir w source_path = true /\
  fst (validate_template_name template_name) = true /\
  exists w1 w4 w10 scan deps,
    same_env w w1 /\
    scan_project_structure source_path exclude_patterns w1 = (Ok scan, w1) /\
    same_env w w4 /\
    extract_dependencies source_path w4 = (Ok deps, w4) /\
    same_env w w10 /\
    Template.load template_name w10 = (Ok tpl, w') /\
    Template.metadata tpl =
    TemplateMetadata.new (now_iso w) (PStr TEMPLATE_VERSION)
      (PStr template_name) (PStr description) (PStr author) (PStr "")
      (PStr "1.0.0")
      (capture_variables detect_variables (detected_variables scan))
      (PDict (map (fun kv => (fst kv, PStr (snd kv))) deps))
      (PDict []) (PDict []).
Proof.
  intros H.
  unfold create_template_from_directory in H.
  unfold bind at 1, gets at 1 in H. cbv beta iota in H.
  destruct (path_exists w source_path); [|discriminate].
  cbv beta iota delta [negb] in H.
  unfold bind at 1, gets at 1 in H. cbv beta iota in H.
  destruct (is_dir w source_path); [|discriminate].
  cbv beta iota delta [negb] in H.
  destruct (validate_template_name template_name) as [[] err]; [|discriminate].
  split; [reflexivity|]. split; [reflexivity|].
  apply bind_Ok in H as (dirs & w0 & Hdirs & H).
  apply bind_Ok in H as ([] & w1 & Hp1 & H).
  apply bind_Ok in H as (scan & w2 & Hscan & H).
  apply bind_Ok in H as ([] & w3 & Hp2 & H).
  apply bind_Ok in H as ([] & w4 & Hp3 & H).
  apply bind_Ok in H as (deps & w5 & Hdeps & H).
  apply bind_Ok in H as (now & w6 & Hnow & H).
  apply bind_Ok in H as ([] & w7 & Hp4 & H).
  apply bind_Ok in H as ([] & w8 & Hcopy & H).
  apply bind_Ok in H as ([] & w9 & Hsave & H).
  apply bind_Ok in H as ([] & w10 & Hp5 & H).
  pose proof (make_template_dirs_value _ _ _ _ Hdirs) as Hpath.
  assert (E0 : same_env w w0)
    by (eapply preserves_run;
        [apply grows_same_env, make_template_dirs_grows|exact Hdirs]).
  assert (G1 : grows w0 w1).
  { eapply preserves_run; [|exact Hp1].
    apply (preserves_when grows grows_refl), print_info_t_grows. }
  assert (S2 : w2 = w1).
  { destruct (scan_project_structure_total source_path exclude_patterns w1)
      as [r Hr]. rewrite Hr in Hscan. now inversion Hscan. }
  subst w2.
  assert (G3 : grows w1 w3).
  { eapply preserves_run; [|exact Hp2].
    apply (preserves_when grows grows_refl).
    repeat (apply (preserves_bind grows grows_trans);
            [apply console_print_grows|intros _]).
    apply console_print_grows. }
  assert (G4 : grows w3 w4).
  { eapply preserves_run; [|exact Hp3].
    apply (preserves_when grows grows_refl).
    apply (preserves_bind grows grows_trans);
      [apply print_info_t_grows|intros _]. apply console_print_grows. }
  assert (S5 : w5 = w4).
  { unfold extract_dependencies in Hdeps.
    destruct (extract_from_world source_path
                ["requirements.txt"; "requirements-dev.txt"; "Pipfile";
                 "poetry.lock"; "pyproject.toml"] [] w4) as [r Hr].
    rewrite Hr in Hdeps. now inversion Hdeps. }
  subst w5.
  assert (Dd : distinct (map fst deps) = true)
    by (eapply extract_from_distinct; [|exact Hdeps]; reflexivity).
  unfold gets in Hnow. inversion Hnow; subst now w6. clear Hnow.
  assert (G7 : grows w4 w7).
  { eapply preserves_run; [|exact Hp4].
    apply (preserves_when grows grows_refl), print_info_t_grows. }
  assert (E8 : same_env w7 w8).
  { eapply preserves_run; [|exact Hcopy].
    apply (preserves_for_each same_env same_env_refl same_env_trans).
    intros x. apply copy_item_env. }
  assert (E9 : same_env w8 w9).
  { eapply preserves_run; [|exact Hsave]. apply write_file_env. }
  assert (G10 : grows w9 w10).
  { eapply preserves_run; [|exact Hp5].
    apply (preserves_when grows grows_refl), print_success_t_grows. }
  assert (X1 : same_env w w1) by (eapply same_env_trans; [exact E0|apply G1]).
  assert (X4 : same_env w w4).
  { eapply same_env_trans; [exact X1|].
    eapply same_env_trans; [apply G3|apply G4]. }
  assert (X10 : same_env w w10).
  { eapply same_env_trans; [exact X4|].
    eapply same_env_trans; [apply G7|].
    eapply same_env_trans; [exact E8|].
    eapply same_env_trans; [exact E9|apply G10]. }
  exists w1, w4, w10, scan, deps.
  repeat (split; [assumption|]).
  unfold TemplateMetadata.save, write_text, write_bytes in Hsave.
  apply write_then_stat in Hsave as [r Hstat].
  apply (stat_grows _ _ _ _ _ G10) in Hstat.
  apply load_Ok in H as (dir & w11 & Hdir & Hload).
  assert (G11 : grows w10 w11)
    by (eapply preserves_run; [apply get_templates_directory_grows|exact Hdir]).
  apply get_templates_directory_value in Hdir.
  destruct X10 as (_ & Hh & _ & _ & Hn10 & _). rewrite Hh in Hdir.
  rewrite <- Hdir in Hpath. rewrite <- Hpath in Hload.
  apply (stat_grows _ _ _ _ _ G11) in Hstat.
  pose proof (from_json_written _ _ _ _ _ _ Hstat
                (capture_document_keys_ok _ _ _ _ _ _ _ Dd) Hload) as Hdata.
  rewrite of_data_to_dict in Hdata.
  2:{ apply capture_variables_names. }
  2:{ apply capture_variables_distinct. }
  destruct X4 as (_ & _ & _ & _ & Hn4 & _).
  destruct G11 as ((_ & _ & _ & _ & Hn11 & _) & _).
  rewrite Hn11, Hn10 in Hdata. rewrite Hn4 in Hdata.
  rewrite new_again in Hdata; [now injection Hdata as <-| |reflexivity|reflexivity].
  unfold TemplateMetadata.new, TemplateMetadata.post_init.
  reflexivity.
Qed.

(** X16. [create_template_from_directory] checks its arguments before it
    touches anything: a missing source, a source that is not a directory
    and a name that [validate_template_name] rejects each raise their
    error with the world as it was; not even the store is created. *)
Theorem create_rejects_before_writing :
  forall (source_path : Path) (template_name description author : string)
         (exclude_patterns : option (list string))
         (detect_variables verbose : bool) (w : world),
    let run := create_template_from_directory source_path template_name
                 description author exclude_patterns detect_variables
                 verbose w in
    (path_exists w source_path = false ->
     run = (Raise (FileNotFoundError ("Source directory not found: "
                                      ++ path_str source_path)), w)) /\
    (path_exists w source_path = true -> is_dir w source_path = false ->
     run = (Raise (ValueError ("Source path is not a directory: "
                               ++ path_str source_path)), w)) /\
    (is_dir w source_path = true ->
     forall msg, validate_template_name template_name = (false, Some msg) ->
                 run = (Raise (ValueError msg), w)).
Proof.
  intros source_path template_name description author exclude_patterns
         detect_variables verbose w run.
  unfold run, create_template_from_directory.
  split; [|split].
  - intros E. unfold bind at 1, gets at 1. cbv beta iota. now rewrite E.
  - intros E D. unfold bind at 1, gets at 1. cbv beta iota. rewrite E.
    cbv beta iota delta [negb]. unfold bind at 1, gets at 1. cbv beta iota.
    now rewrite D.
  - intros D msg V.
    assert (E : path_exists w source_path = true).
    { unfold is_dir, path_exists in *.
      destruct (stat w source_path) as [[|]| |]; auto. }
    unfold bind at 1, gets at 1. cbv beta iota. rewrite E.
    cbv beta iota delta [negb]. unfold bind at 1, gets at 1. cbv beta iota.
    rewrite D. cbv beta iota delta [negb]. now rewrite V.
Qed.

(** X17. A template that [create_template_from_directory] returns is in the
    store under the name given, which is a valid template name:
    [Template.load] and [get_template] return it again and
    [template_exists] answers True, all without changing anything. *)
Theorem created_template_is_stored :
  forall (source_path : Path) (template_name description author : string)
         (exclude_patterns : option (list string))
         (detect_variables verbose : bool) (w w' : world) (tpl : Template.t),
    create_template_from_directory source_path template_name description
      author exclude_patterns detect_variables verbose w = (Ok tpl, w') ->
    fst (validate_template_name template_name) = true /\
    Template.name tpl = template_name /\
    Template.path tpl = joinpath (store_path w) template_name /\
    Template.load template_name w' = (Ok tpl, w') /\
    get_template template_name w' = (Ok (Some tpl), w') /\
    template_exists template_name w' = (Ok true, w').
Proof.
  intros source_path template_name description author exclude_patterns
         detect_variables verbose w w' tpl H.
  destruct (create_Ok_run _ _ _ _ _ _ _ _ _ _ H)
    as (_ & V & w1 & w4 & w10 & scan & deps & _ & _ & _ & _ & E & L & _).
  split; [exact V|].
  destruct (load_Ok_fields _ _ _ _ L) as (_ & Hn & Hp & _).
  split; [exact Hn|]. split.
  { rewrite Hp. unfold store_path. destruct E as (_ & -> & _). reflexivity. }
  pose proof (load_again _ _ _ _ L) as L'. split; [exact L'|]. split.
  - unfold get_template, try_except, bind. now rewrite L'.
  - apply load_Ok_exists in L' as (d & Hd & X).
    unfold template_exists, bind, gets. now rewrite Hd, X.
Qed.


Lemma keeps_dirs_refl (w : world) : keeps_dirs w w.
Proof. split; [apply same_env_refl|auto]. Qed.

Lemma keeps_dirs_trans (a b c : world) :
  keeps_dirs a b -> keeps_dirs b c -> keeps_dirs a c.
Proof.
  intros [E1 K1] [E2 K2]. split; [eapply same_env_trans; eauto|auto].
Qed.

Lemma grows_keeps_dirs (w w' : world) : grows w w' -> keeps_dirs w w'.
Proof.
  intros [E X]. split; [exact E|]. intros acc H. specialize (X acc).
  destruct (lookup (root w) acc) as [[r d|es]| |]; try discriminate.
  exact X.
Qed.

Lemma grows_preserves_keeps {A} (c : M A) :
  preserves grows c -> preserves keeps_dirs c.
Proof. intros H w. apply grows_keeps_dirs, H. Qed.

Lemma canon_keeps (t t' : node) (ns acc x : list string) :
  (forall a, is_Dir (lookup t a) = true -> is_Dir (lookup t' a) = true) ->
  canon t acc ns = Found x -> canon t' acc ns = Found x.
Proof.
  intros K. revert acc. induction ns as [|n ns IH]; intros acc H; [exact H|].
  cbn [canon] in *. destruct (String.eqb n "..").
  - specialize (K acc).
    destruct (lookup t acc) as [[r0 d0|es]| |]; try discriminate.
    specialize (K eq_refl).
    destruct (lookup t' acc) as [[r1 d1|es1]| |]; try discriminate.
    now apply IH.
  - now apply IH.
Qed.

Lemma is_dir_keeps (w w' : world) (p : Path) :
  keeps_dirs w w' -> is_dir w p = true -> is_dir w' p = true.
Proof.
  intros [(Hc & _) K]. unfold is_dir, stat, locate. rewrite Hc.
  destruct (canon (root w) (if absolute p then [] else cwd w) (names p))
    as [c| |] eqn:E; try discriminate.
  rewrite (canon_keeps _ _ _ _ _ K E). intros H. specialize (K c).
  destruct (lookup (root w) c) as [[r d|es]| |]; try discriminate.
  specialize (K eq_refl).
  destruct (lookup (root w') c) as [[r d|es']| |]; try discriminate.
  reflexivity.
Qed.

Lemma write_file_keeps (chmod : bool) (p : Path) (d : bytes) :
  preserves keeps_dirs (write_file chmod p d).
Proof.
  intros w. unfold write_file.
  destruct (locate w p) as [[|n c]| |]; try apply keeps_dirs_refl.
  destruct (lookup (root w) (removelast (n :: c))) as [[r0 d0|es]| |];
    try apply keeps_dirs_refl.
  destruct (lookup (root w) (n :: c)) as [[r1 d1|es1]| |] eqn:E;
    try apply keeps_dirs_refl;
    (split; [apply same_env_set_root|]); cbn [snd set_root root];
    intros acc Ha; apply lookup_put_dir; auto; now rewrite E.
Qed.

Lemma unchanged_keeps {A} (c : M A) :
  (forall w, snd (c w) = w) -> preserves keeps_dirs c.
Proof. apply unchanged_preserves, keeps_dirs_refl. Qed.

Lemma copy2_keeps (src dst : Path) : preserves keeps_dirs (copy2 src dst).
Proof.
  intros w. unfold copy2.
  destruct (samefile w src _); [apply keeps_dirs_refl|].
  apply (preserves_bind keeps_dirs keeps_dirs_trans).
  - apply unchanged_keeps, read_bytes_world.
  - intros b. apply write_file_keeps.
Qed.

Lemma detect_file_type_world (p : Path) (w : world) :
  snd (detect_file_type p w) = w.
Proof. now rewrite detect_file_type_value. Qed.

Section ApplicationResults.
Variable repr_str : string -> string.

Lemma apply_template_validation_error (template : Template.t)
      (project_name : string) (variables : dict pyval)
      (destination : option Path) (verbose : bool) (w : world) (e : exn) :
  let dest := match destination with
              | None => mkPath true (cwd w)
              | Some d => d
              end in
  path_exists w (joinpath dest project_name) = false ->
  validate_variables
    (TemplateMetadata.variables (Template.metadata template))
    (resolve_variables
       (TemplateMetadata.variables (Template.metadata template)) variables
       (builtin_variables project_name w)) = Raise e ->
  apply_template repr_str template project_name variables destination
                 verbose w = (Raise e, w).
Proof.
  intros dest Hex Hr. subst dest.
  unfold apply_template, bind, gets, raise, ret, lift.
  destruct destination as [d|]; cbv beta iota in *; rewrite Hex;
    cbv beta iota; rewrite Hr; reflexivity.
Qed.

(** X19. A str given for a variable declared "integer" or "boolean" fails
    the validation of [apply_template]: once the variables declared before
    it pass, the error says that the variable must be an integer (a
    boolean), and nothing is created. *)
Theorem apply_template_rejects_str_for_number :
  forall (template : Template.t) (project_name : string)
         (variables : dict pyval) (destination : option Path)
         (verbose : bool) (w : world)
         (pre post : dict TemplateVariable.t) (n s : string)
         (var : TemplateVariable.t),
    let dest := match destination with
                | None => mkPath true (cwd w)
                | Some d => d
                end in
    let tvars := TemplateMetadata.variables (Template.metadata template) in
    let all_variables :=
      resolve_variables tvars variables (builtin_variables project_name w) in
    path_exists w (joinpath dest project_name) = false ->
    dict_wf variables ->
    tvars = (pre ++ (n, var) :: post)%list ->
    dict_get variables n = Some (PStr s) ->
    validate_variables pre all_variables = Ok tt ->
    (TemplateVariable.type var = PStr "integer" ->
     apply_template repr_str template project_name variables destination
                    verbose w =
     (Raise (ValueError ("Variable '" ++ TemplateVariable.name var
                         ++ "' must be an integer")), w)) /\
    (TemplateVariable.type var = PStr "boolean" ->
     apply_template repr_str template project_name variables destination
                    verbose w =
     (Raise (ValueError ("Variable '" ++ TemplateVariable.name var
                         ++ "' must be a boolean")), w)).
Proof.
  intros template project_name variables destination verbose w pre post n s
         var dest tvars all_variables Hex Hwf Htv Hvar Hpre.
  assert (Hall : dict_get all_variables n = Some (PStr s)).
  { unfold all_variables, resolve_variables.
    rewrite dict_get_update by assumption. now rewrite Hvar. }
  split; intros Hty; apply apply_template_validation_error; auto;
    fold tvars; fold all_variables;
    rewrite Htv, validate_variables_app, Hpre;
    cbn [validate_variables]; unfold dict_contains; rewrite Hall;
    rewrite andb_false_r; unfold TemplateVariable.validate_value;
    rewrite Hty; reflexivity.
Qed.

Lemma apply_item_keeps (structure_path project_path : Path)
      (all_variables : dict pyval) (verbose : bool) (rel : list string) :
  preserves keeps_dirs
    (apply_item repr_str structure_path project_path all_variables verbose
                rel).
Proof.
  unfold apply_item.
  apply (preserves_bind keeps_dirs keeps_dirs_trans);
    [apply preserves_gets, keeps_dirs_refl|].
  intros [|]; [|apply preserves_ret, keeps_dirs_refl].
  apply (preserves_bind keeps_dirs keeps_dirs_trans);
    [apply grows_preserves_keeps, mkdir_parents_grows|]. intros _.
  apply (preserves_bind keeps_dirs keeps_dirs_trans);
    [apply unchanged_keeps, detect_file_type_world|]. intros ty.
  apply (preserves_bind keeps_dirs keeps_dirs_trans).
  - destruct (String.eqb ty "text"); [|apply copy2_keeps].
    apply (preserves_try_except keeps_dirs keeps_dirs_trans).
    + apply (preserves_bind keeps_dirs keeps_dirs_trans);
        [apply unchanged_keeps, read_text_world|]. intros content.
      apply (preserves_bind keeps_dirs keeps_dirs_trans).
      * apply (preserves_when keeps_dirs keeps_dirs_refl).
        apply grows_preserves_keeps, print_info_t_grows.
      * intros _. apply write_file_keeps.
    + intros e. apply (preserves_bind keeps_dirs keeps_dirs_trans);
        [apply grows_preserves_keeps, console_print_grows|].
      intros _. apply copy2_keeps.
  - intros _. apply (preserves_when keeps_dirs keeps_dirs_refl).
    apply grows_preserves_keeps, console_print_grows.
Qed.

(** X20. When [apply_template] returns, it returns
    [destination/project_name], which did not exist before and is a
    directory now; the variables passed their validation; and every
    directory that was there is still a directory: nothing is removed or
    replaced by a file. *)
Theorem apply_template_result :
  forall (template : Template.t) (project_name : string)
         (variables : dict pyval) (destination : option Path)
         (verbose : bool) (w w' : world) (p : Path),
    apply_template repr_str template project_name variables destination
                   verbose w = (Ok p, w') ->
    let dest := match destination with
                | None => mkPath true (cwd w)
                | Some d => d
                end in
    let tvars := TemplateMetadata.variables (Template.metadata template) in
    p = joinpath dest project_name /\
    path_exists w p = false /\
    is_dir w' p = true /\
    validate_variables tvars
      (resolve_variables tvars variables (builtin_variables project_name w)) =
    Ok tt /\
    same_env w w' /\
    forall q, is_dir w q = true -> is_dir w' q = true.
Proof.
  intros template project_name variables destination verbose w w' p H dest
         tvars.
  unfold apply_template in H.
  apply bind_Ok in H as (d & w0 & Hd & H).
  assert (d = dest /\ w0 = w) as [-> ->].
  { unfold dest. destruct destination; unfold bind, gets, ret in Hd;
      now injection Hd as <- <-. }
  unfold bind at 1, gets at 1 in H. cbv beta iota in H.
  destruct (path_exists w (joinpath dest project_name)) eqn:Hex;
    [discriminate|].
  unfold bind at 1, gets at 1 in H. cbv beta iota in H.
  apply bind_Ok in H as ([] & w1 & Hv & H).
  unfold lift in Hv. fold tvars in Hv. injection Hv as Hv <-.
  apply bind_Ok in H as ([] & w2 & Hm & H).
  apply bind_Ok in H as ([] & w3 & Hp & H).
  unfold bind at 1, gets at 1 in H. cbv beta iota in H.
  apply bind_Ok in H as ([] & w4 & Hl & H).
  unfold ret in H. injection H as <- <-.
  assert (K2 : keeps_dirs w w2).
  { eapply preserves_run; [|exact Hm].
    apply grows_preserves_keeps, mkdir_parents_grows. }
  assert (K3 : keeps_dirs w2 w3).
  { eapply preserves_run; [|exact Hp].
    apply (preserves_when keeps_dirs keeps_dirs_refl).
    apply grows_preserves_keeps, print_info_t_grows. }
  assert (K4 : keeps_dirs w3 w4).
  { eapply preserves_run; [|exact Hl].
    apply (preserves_for_each keeps_dirs keeps_dirs_refl keeps_dirs_trans).
    intros x. apply apply_item_keeps. }
  assert (K : keeps_dirs w w4).
  { eapply keeps_dirs_trans; [exact K2|].
    eapply keeps_dirs_trans; [exact K3|exact K4]. }
  split; [reflexivity|]. split; [exact Hex|]. split.
  { apply (is_dir_keeps w2); [eapply keeps_dirs_trans; eauto|].
    now apply mkdir_parents_from_is_dir in Hm. }
  split; [destruct (validate_variables _ _) as [[]|]; [reflexivity|discriminate]|].
  split; [apply K|]. intros q. now apply is_dir_keeps.
Qed.

End ApplicationResults.

(** ** Deletion *)

Lemma dict_get_remove_same {A} (d : dict A) (k : string) :
  dict_get (dict_remove d k) k = None.
Proof.
  induction d as [|[k' v] d IH]; cbn [dict_remove filter fst]; [reflexivity|].
  destruct (String.eqb k' k) eqn:E; cbn [negb]; [exact IH|].
  cbn [dict_get]. rewrite E. exact IH.
Qed.


Lemma remove_cons (es : list (string * node)) (n x : string)
      (r : list string) :
  remove (Dir es) (n :: x :: r) =
  match dict_get es n with
  | Some ch => Dir (dict_set es n (remove ch (x :: r)))
  | None => Dir es
  end.
Proof. reflexivity. Qed.

Lemma lookup_cons (es : list (string * node)) (n : string)
      (rest : list string) :
  lookup (Dir es) (n :: rest) =
  match dict_get es n with
  | Some ch => lookup ch rest
  | None => NoEnt
  end.
Proof. reflexivity. Qed.

Lemma snoc_cons {A} (l : list A) (x : A) :
  exists y r, (l ++ [x])%list = y :: r.
Proof. destruct l; cbn; eauto. Qed.


Lemma lookup_remove_same (pre : list string) (n : string) :
  forall t, is_Dir (lookup t pre) = true ->
            lookup (remove t (pre ++ [n])) (pre ++ [n]) = NoEnt.
Proof.
  induction pre as [|m pre IH]; intros t H.
  - cbn [lookup] in H. destruct t as [|es]; [discriminate|].
    cbn [app remove lookup]. now rewrite dict_get_remove_same.
  - destruct t as [|es]; [discriminate|]. rewrite lookup_cons in H.
    destruct (dict_get es m) as [ch|] eqn:E; [|discriminate].
    cbn [app]. destruct (snoc_cons pre n) as (x & r & P).
    rewrite P at 1. rewrite remove_cons, E, lookup_cons, dict_get_set_same.
    rewrite <- P. now apply IH.
Qed.



Lemma canon_plain (t : node) (ns : list string) :
  forall acc, ~ In ".." ns -> canon t acc ns = Found (acc ++ ns)%list.
Proof.
  induction ns as [|n ns IH]; intros acc H; cbn [canon].
  - now rewrite app_nil_r.
  - destruct (String.eqb_spec n "..") as [->|N].
    + exfalso. apply H. now left.
    + rewrite IH; [now rewrite <- app_assoc|]. intros I. apply H. now right.
Qed.

Lemma stat_plain (w : world) (p : Path) :
  absolute p = true -> ~ In ".." (names p) ->
  stat w p = lookup (root w) (names p).
Proof.
  intros A N. unfold stat, locate. rewrite A. now rewrite canon_plain.
Qed.

Lemma store_path_names (w : world) :
  store_path w = mkPath true (home w ++ [".prozes"; "templates"]).
Proof.
  unfold store_path, joinpath.
  change (parse_path ".prozes") with (mkPath false [".prozes"]).
  change (parse_path "templates") with (mkPath false ["templates"]).
  cbn [absolute names]. now rewrite <- app_assoc.
Qed.

Lemma valid_name_joinpath (name : string) (d : Path) :
  fst (validate_template_name name) = true ->
  joinpath d name = mkPath (absolute d) (names d ++ [name]) /\ name <> "..".
Proof.
  intros H. unfold validate_template_name in H.
  destruct name as [|c rest]; [discriminate|].
  destruct (ident_start c) eqn:Ec; [|discriminate]. cbn [negb] in H.
  destruct (name_tail rest) eqn:Et; [|discriminate]. split.
  - unfold joinpath.
    now rewrite (parse_path_component c rest Ec (name_tail_no_slash _ Et)).
  - intros [= -> _]. discriminate Ec.
Qed.





Lemma is_dir_path_exists (w : world) (p : Path) :
  is_dir w p = true -> path_exists w p = true.
Proof.
  unfold is_dir, path_exists. now destruct (stat w p) as [[|]| |].
Qed.

Lemma stat_plain_abs (w : world) (c : list string) :
  ~ In ".." c -> stat w (mkPath true c) = lookup (root w) c.
Proof. intros N. now apply stat_plain. Qed.

Lemma is_dir_plain (w : world) (c : list string) :
  ~ In ".." c -> is_dir w (mkPath true c) = is_Dir (lookup (root w) c).
Proof. intros N. unfold is_dir. now rewrite stat_plain_abs. Qed.

Lemma not_in_snoc (pre : list string) (n x : string) :
  ~ In x pre -> n <> x -> ~ In x (pre ++ [n]).
Proof. intros H N I. apply in_app_or in I as [I|[I|[]]]; auto. Qed.

Section DeletionProperties.
Variable confirm_ask : string -> M bool.

Lemma rmtree_plain (w : world) (pre : list string) (n : string) :
  ~ In ".." pre -> n <> ".." ->
  is_dir w (mkPath true (pre ++ [n])) = true ->
  rmtree (mkPath true (pre ++ [n])) w =
  (Ok tt, set_root w (remove (root w) (pre ++ [n]))).
Proof.
  intros Hp Hn D. rewrite is_dir_plain in D by now apply not_in_snoc.
  unfold rmtree, locate. cbn [absolute names].
  rewrite canon_plain by now apply not_in_snoc. cbn [app].
  destruct (lookup (root w) (pre ++ [n])) as [[|es]| |]; try discriminate.
  destruct (snoc_cons pre n) as (x & r & P). now rewrite P at 1.
Qed.


(** X22. [delete_template] removes nothing in two cases: a name for which
    [template_exists] answers False raises FileNotFoundError before
    anything is asked, and without [force] a template the user declines
    to delete stays, the result being False. *)
Theorem delete_template_keeps :
  forall (name : string) (force : bool) (w w' : world),
    (template_exists name w = (Ok false, w') ->
     delete_template confirm_ask name force w =
     (Raise (FileNotFoundError ("Template '" ++ name ++ "' not found")), w'))
    /\
    (template_exists name w = (Ok true, w') ->
     forall w'',
       confirm_ask ("Delete template '" ++ name ++ "'?") w' =
       (Ok false, w'') ->
       delete_template confirm_ask name false w = (Ok false, w'')).
Proof.
  intros name force w w'. unfold template_exists. split; intros H.
  - apply bind_Ok in H as (d & w1 & Hd & H). unfold gets in H.
    injection H as E <-.
    unfold delete_template, bind at 1. rewrite Hd.
    unfold bind at 1, gets. cbv beta iota. now rewrite E.
  - intros w'' A. apply bind_Ok in H as (d & w1 & Hd & H). unfold gets in H.
    injection H as E <-.
    unfold delete_template, bind at 1. rewrite Hd.
    unfold bind at 1, gets. cbv beta iota. rewrite E.
    cbv beta iota delta [negb]. unfold bind at 1. now rewrite A.
Qed.

Lemma lookup_NoEnt_app (c r : list string) :
  forall t, lookup t c = NoEnt -> lookup t (c ++ r) = NoEnt.
Proof.
  induction c as [|n c IH]; intros t H; [discriminate|].
  destruct t as [|es]; [discriminate|]. cbn [app]. rewrite lookup_cons in *.
  destruct (dict_get es n) as [ch|]; [|reflexivity]. now apply IH.
Qed.

(** X23. [delete_template] does not validate the name.  With the empty name
    the path of the template is the store itself: with [force], the whole
    store is removed, and with it every template. *)
Theorem delete_template_empty_name :
  forall w : world,
    ~ In ".." (home w) ->
    is_dir w (store_path w) = true ->
    exists w',
      delete_template confirm_ask "" true w = (Ok true, w') /\
      path_exists w' (store_path w) = false /\
      forall name,
        fst (validate_template_name name) = true ->
        path_exists w' (joinpath (store_path w) name) = false.
Proof.
  intros w Hh D.
  pose (pre := (home w ++ [".prozes"])%list).
  assert (Sw : store_path w = mkPath true (pre ++ ["templates"])).
  { rewrite store_path_names. unfold pre. now rewrite <- app_assoc. }
  assert (Hpre : ~ In ".." pre).
  { unfold pre. apply not_in_snoc; [exact Hh|discriminate]. }
  assert (Hst : ~ In ".." (pre ++ ["templates"])).
  { apply not_in_snoc; [exact Hpre|discriminate]. }
  pose proof (get_templates_directory_existing w D) as G.
  set (w1 := set_root w (remove (root w) (pre ++ ["templates"]))).
  set (w' := snd (print_success_t "template_deleted" w1)).
  assert (J : joinpath (store_path w) "" = store_path w).
  { unfold joinpath. change (parse_path "") with (mkPath false []).
    cbn [absolute names]. rewrite app_nil_r. now destruct (store_path w). }
  assert (Dp : is_Dir (lookup (root w) pre) = true).
  { rewrite Sw, is_dir_plain in D by assumption.
    destruct (lookup (root w) (pre ++ ["templates"])) as [x| |] eqn:E;
      try discriminate.
    assert (P : is_Dir (lookup (root w)
                          (removelast (pre ++ ["templates"]))) = true).
    { apply (lookup_parent _ _ x); [now destruct pre|exact E]. }
    now rewrite removelast_last in P. }
  assert (Gone : lookup (root w') (pre ++ ["templates"]) = NoEnt).
  { change (root w') with (remove (root w) (pre ++ ["templates"])).
    now apply lookup_remove_same. }
  exists w'. split; [|split].
  - unfold delete_template, bind at 1. rewrite G.
    unfold bind at 1, gets. cbv beta iota. rewrite J.
    rewrite (is_dir_path_exists _ _ D). cbv beta iota delta [negb].
    unfold bind at 1. rewrite Sw.
    rewrite rmtree_plain; [reflexivity|exact Hpre|discriminate|].
    now rewrite <- Sw.
  - unfold path_exists. rewrite Sw, stat_plain_abs by assumption.
    now rewrite Gone.
  - intros name Hv.
    destruct (valid_name_joinpath name (store_path w) Hv) as [Jn Nn].
    rewrite Sw in Jn. cbn [absolute names] in Jn.
    unfold path_exists. rewrite Sw, Jn.
    rewrite stat_plain_abs by now apply not_in_snoc.
    now rewrite (lookup_NoEnt_app _ [name] _ Gone).
Qed.

End DeletionProperties.

(** ** The file tree *)

Lemma string_compare_refl (s : string) : String.compare s s = Eq.
Proof.
  induction s as [|c s IH]; cbn [String.compare]; [reflexivity|].
  destruct (ascii_compare_spec c c) as [_|H|H]; [exact IH|lia|lia].
Qed.

Lemma string_compare_lt_trans (a : string) :
  forall b c, String.compare a b = Lt -> String.compare b c = Lt ->
              String.compare a c = Lt.
Proof.
  induction a as [|x a IH]; intros [|y b] [|z c]; cbn [String.compare];
    try (intros; discriminate); auto.
  destruct (ascii_compare_spec x y) as [Exy|Hxy|Hxy];
    destruct (ascii_compare_spec y z) as [Eyz|Hyz|Hyz];
    try (intros; discriminate);
    destruct (ascii_compare_spec x z) as [Exz|Hxz|Hxz];
    subst; try lia; auto.
  apply IH.
Qed.

Lemma parts_compare_antisym (a : list string) :
  forall b, parts_compare a b = CompOpp (parts_compare b a).
Proof.
  induction a as [|x a IH]; intros [|y b]; cbn [parts_compare]; auto.
  rewrite (String.compare_antisym x y).
  destruct (String.compare y x); cbn [CompOpp]; auto.
Qed.

Lemma parts_compare_lt_trans (a : list string) :
  forall b c, parts_compare a b = Lt -> parts_compare b c = Lt ->
              parts_compare a c = Lt.
Proof.
  induction a as [|x a IH]; intros [|y b] [|z c]; cbn [parts_compare];
    try (intros; discriminate); auto.
  destruct (String.compare x y) eqn:Exy; try (intros; discriminate);
    destruct (String.compare y z) eqn:Eyz; try (intros; discriminate);
    intros H1 H2.
  - apply String.compare_eq_iff in Exy, Eyz. subst.
    rewrite string_compare_refl. now apply (IH b).
  - apply String.compare_eq_iff in Exy. subst. now rewrite Eyz.
  - apply String.compare_eq_iff in Eyz. subst. now rewrite Exy.
  - now rewrite (string_compare_lt_trans _ _ _ Exy Eyz).
Qed.

Lemma parts_compare_eq (a : list string) :
  forall b, parts_compare a b = Eq -> a = b.
Proof.
  induction a as [|x a IH]; intros [|y b]; cbn [parts_compare];
    try discriminate; auto.
  destruct (String.compare x y) eqn:E; try discriminate.
  apply String.compare_eq_iff in E. intros H. f_equal; auto.
Qed.

Lemma path_leb_trans (p q r : Path) :
  path_leb p q = true -> path_leb q r = true -> path_leb p r = true.
Proof.
  unfold path_leb, path_ltb. intros H1 H2.
  rewrite (parts_compare_antisym (parts q) (parts p)) in H1.
  rewrite (parts_compare_antisym (parts r) (parts q)) in H2.
  rewrite (parts_compare_antisym (parts r) (parts p)).
  destruct (parts_compare (parts p) (parts q)) eqn:E1; try discriminate;
    destruct (parts_compare (parts q) (parts r)) eqn:E2; try discriminate.
  - apply parts_compare_eq in E1. rewrite E1, E2. reflexivity.
  - apply parts_compare_eq in E1. rewrite E1, E2. reflexivity.
  - apply parts_compare_eq in E2. rewrite <- E2, E1. reflexivity.
  - now rewrite (parts_compare_lt_trans _ _ _ E1 E2).
Qed.

Lemma path_ltb_leb (p q : Path) : path_ltb p q = true -> path_leb p q = true.
Proof.
  unfold path_leb, path_ltb.
  rewrite (parts_compare_antisym (parts q) (parts p)).
  now destruct (parts_compare (parts p) (parts q)).
Qed.

Lemma path_nltb_leb (p q : Path) : path_ltb p q = false -> path_leb q p = true.
Proof. unfold path_leb. now intros ->. Qed.

Lemma insert_path_perm (x : Path) (l : list Path) :
  Permutation (insert_path x l) (x :: l).
Proof.
  induction l as [|y l IH]; cbn [insert_path]; [reflexivity|].
  destruct (path_ltb x y); [reflexivity|].
  rewrite IH. apply perm_swap.
Qed.

Lemma insert_path_sorted (x : Path) (l : list Path) :
  StronglySorted (fun a b => path_leb a b = true) l ->
  StronglySorted (fun a b => path_leb a b = true) (insert_path x l).
Proof.
  induction 1 as [|z l S IH F]; cbn [insert_path].
  - repeat constructor.
  - destruct (path_ltb x z) eqn:E.
    + constructor; [now constructor|]. constructor.
      * now apply path_ltb_leb.
      * eapply Forall_impl; [|exact F]. intros a Ha.
        eapply path_leb_trans; [|exact Ha]. now apply path_ltb_leb.
    + constructor; [exact IH|].
      eapply Permutation_Forall; [symmetry; apply insert_path_perm|].
      constructor; [now apply path_nltb_leb|exact F].
Qed.

Lemma sorted_paths_spec (l : list Path) :
  StronglySorted (fun a b => path_leb a b = true) (sorted_paths l) /\
  Permutation (sorted_paths l) l.
Proof.
  unfold sorted_paths.
  assert (G : forall acc,
             StronglySorted (fun a b => path_leb a b = true) acc ->
             StronglySorted (fun a b => path_leb a b = true)
               (fold_left (fun acc x => insert_path x acc) l acc) /\
             Permutation (fold_left (fun acc x => insert_path x acc) l acc)
                         (acc ++ l)).
  { induction l as [|x l IH]; intros acc S; cbn [fold_left].
    - split; [exact S|]. now rewrite app_nil_r.
    - destruct (IH (insert_path x acc) (insert_path_sorted x acc S))
        as [S' P]. split; [exact S'|]. rewrite P.
      rewrite insert_path_perm. apply Permutation_middle. }
  destruct (G [] (SSorted_nil _)) as [S P]. split; [exact S|exact P].
Qed.

Lemma file_tree_items_value (structure_path : Path) (w : world)
      (rels : list (list string)) :
  forall files,
    file_tree_items structure_path rels files w =
    (Ok (files ++ map (mkPath false)
                   (filter (fun rel => is_file w (extend structure_path rel))
                           rels))%list, w).
Proof.
  induction rels as [|rel rels IH]; intros files; cbn [file_tree_items].
  - cbn [filter map]. now rewrite app_nil_r.
  - unfold bind, gets. cbv beta iota. rewrite IH. cbn [filter].
    destruct (is_file w (extend structure_path rel)); [|reflexivity].
    cbn [map]. now rewrite <- app_assoc.
Qed.

(** X24. [get_file_tree] changes nothing and returns the files below the
    structure directory of the template, as paths relative to it, each
    listed as often as the walk meets it, in the order of paths. *)
Theorem get_file_tree_sorted :
  forall (tpl : Template.t) (w : world),
  exists l,
    get_file_tree tpl w = (Ok l, w) /\
    StronglySorted (fun a b => path_leb a b = true) l /\
    Permutation l
      (map (mkPath false)
           (filter (fun rel =>
                      is_file w (extend (Template.get_structure_path tpl) rel))
                   (rglob w (Template.get_structure_path tpl)))).
Proof.
  intros tpl w. unfold get_file_tree, bind at 1, gets. cbv beta iota.
  unfold bind. rewrite file_tree_items_value. cbn [app]. unfold ret.
  eexists. split; [reflexivity|]. apply sorted_paths_spec.
Qed.

(** ** Concrete runs of the further properties *)

Lemma substitute_depends_on_detected_witness :
  substitute_variables repr_plain "Hi {{name}}"
                       [("name", PStr "Ada"); ("city", PStr "Rome")] =
  substitute_variables repr_plain "Hi {{name}}" [("name", PStr "Ada")].
Proof.
  apply (substitute_depends_on_detected repr_plain).
  intros n H. vm_compute in H. destruct H as [<-|[]]. reflexivity.
Defined.

Lemma substitute_unresolved_unchanged_witness :
  substitute_variables repr_plain "Hi {{name}}" [("city", PStr "Rome")] =
  "Hi {{name}}".
Proof.
  apply (substitute_unresolved_unchanged repr_plain).
  intros n H. vm_compute in H. destruct H as [<-|[]]. reflexivity.
Defined.


Lemma get_templates_directory_spec_witness :
  let w := example_world [] [] in
  get_templates_directory w = (Ok example_store_path, w).
Proof.
  intros w.
  destruct (get_templates_directory_spec w w example_store_path)
    as (_ & _ & _ & H & _).
  - vm_compute. reflexivity.
  - exact H.
Defined.



Lemma get_template_template_exists_witness :
  let w := example_world [stored_template "good"] [] in
  get_template "other" w = (Ok None, w).
Proof.
  intros w. apply (proj1 (get_template_template_exists "other" w w)).
  vm_compute. reflexivity.
Defined.

Lemma list_custom_templates_sorted_witness :
  let w := example_world [stored_template "b"; stored_template "a"] [] in
  exists l,
    list_custom_templates w = (Ok l, w) /\
    map Template.name l = ["a"; "b"] /\
    StronglySorted
      (fun a b => String.leb (Template.name a) (Template.name b) = true) l.
Proof.
  intros w.
  destruct (list_custom_templates w) as [[l|e] w'] eqn:E;
    [|vm_compute in E; discriminate].
  destruct (list_custom_templates_sorted w w' l E) as (S & _ & _).
  vm_compute in E. injection E as <- <-.
  eexists. split; [reflexivity|]. split; [reflexivity|exact S].
Defined.

Lemma create_rejects_before_writing_witness :
  let w := example_world [] [("proj", Dir [])] in
  create_template_from_directory (mkPath false ["proj"]) "1st" "" "" None
                                 true false w =
  (Raise (ValueError "Template name must start with a letter or underscore"),
   w).
Proof.
  intros w.
  exact (proj2 (proj2 (create_rejects_before_writing
                         (mkPath false ["proj"]) "1st" "" "" None true false
                         w))
               eq_refl
               "Template name must start with a letter or underscore"
               eq_refl).
Defined.

Lemma created_template_is_stored_witness :
  let w := example_world []
             [("proj", Dir [("app.py", File true (encode_utf8 "x = 1"))])] in
  exists tpl w',
    create_template_from_directory (mkPath false ["proj"]) "tpl" "" "" None
                                   true false w = (Ok tpl, w') /\
    get_template "tpl" w' = (Ok (Some tpl), w').
Proof.
  intros w.
  destruct (create_template_from_directory (mkPath false ["proj"]) "tpl" ""
              "" None true false w) as [[tpl|e] w'] eqn:E;
    [|vm_compute in E; discriminate].
  exists tpl, w'. split; [reflexivity|].
  destruct (created_template_is_stored _ _ _ _ _ _ _ _ _ _ E)
    as (_ & _ & _ & _ & H & _). exact H.
Defined.


Lemma apply_template_rejects_str_for_number_witness :
  let w := example_world (example_store "{{port}}") [] in
  let port := TemplateVariable.mk "port" (PStr "integer") (PStr "")
                                  (PBool false) PNone in
  apply_template repr_plain (example_template [("port", port)]) "demo"
                 [("port", PStr "8080")] None false w =
  (Raise (ValueError "Variable 'port' must be an integer"), w).
Proof.
  intros w port.
  refine (proj1 (apply_template_rejects_str_for_number repr_plain
                   (example_template [("port", port)]) "demo"
                   [("port", PStr "8080")] None false w [] [] "port" "8080"
                   port eq_refl _ eq_refl eq_refl eq_refl) eq_refl).
  unfold dict_wf; simpl; repeat constructor; simpl; tauto.
Defined.

Lemma apply_template_result_witness :
  let w := example_world (example_store "{{project_name}}") [] in
  exists w',
    apply_template repr_plain (example_template []) "demo" [] None false w =
    (Ok (mkPath true ["home"; "u"; "demo"]), w') /\
    is_dir w' (mkPath true ["home"; "u"; "demo"]) = true.
Proof.
  intros w.
  destruct (apply_template repr_plain (example_template []) "demo" [] None
                           false w) as [[p|e] w'] eqn:E;
    [|vm_compute in E; discriminate].
  destruct (apply_template_result repr_plain _ _ _ _ _ _ _ _ E)
    as (Hp & _ & Hd & _).
  exists w'. rewrite Hp in *. split; [reflexivity|exact Hd].
Defined.


Lemma delete_template_keeps_witness :
  let w := example_world [stored_template "good"] [] in
  delete_template (answer false) "good" false w = (Ok false, w).
Proof.
  intros w.
  apply (proj2 (delete_template_keeps (answer false) "good" false w w));
    reflexivity.
Defined.

Lemma delete_template_empty_name_witness :
  let w := example_world [stored_template "good"] [] in
  exists w',
    delete_template (answer false) "" true w = (Ok true, w') /\
    path_exists w' example_store_path = false.
Proof.
  intros w.
  destruct (delete_template_empty_name (answer false) w) as (w' & H1 & H2 & _).
  - vm_compute. intuition discriminate.
  - reflexivity.
  - exists w'. split; [exact H1|exact H2].
Defined.

(** ** Metadata files with missing keys *)




(** ** File names and file contents *)




Section FileNames.
Variable repr_str : string -> string.


End FileNames.

